(** * Secure telemetry ingestion: [src/utils/encryption.js] and
      [saveVapiCallLog] of [src/controller/vapi.Controller.js]

    A shallow embedding of the envelope decoder ([decryptPayload]), its
    encoder ([encryptPayload]) and the ingestion handler
    ([saveVapiCallLog]).

    What belongs to the JavaScript runtime and to third-party libraries
    (Node's [crypto], [JSON], [Date], Firestore) is not code of the
    repository: it is the interface [NodeRuntime] below, and the handlers
    are written against it call by call, in the order of the source.

    Modelling choices, fixed once:
    - a JavaScript string is a [string] whose characters are code units
      below 256; a number is an integer ([Z]) or NaN ([None] where a
      number is expected): timestamps are integer milliseconds;
    - a JSON object is an association list in insertion order with
      distinct keys; [undefined] is [None] of [option json];
    - [throw] is an outcome of the monad [M]; [try]/[catch] is
      [try_catch]; the state carries the Firestore collection, the trace
      of library calls and the number of readings taken from the clock
      and the random source. *)

From Stdlib Require Import ZArith NArith String Ascii List Bool Lia.
From Stdlib.Strings Require Import Byte.
From Stdlib Require Import DecimalString.
From stdpp Require Import base gmap strings list.

Import ListNotations.
Local Open Scope Z_scope.
Local Open Scope string_scope.
Local Set Warnings "-register-all".

(** ** JSON values *)

Inductive json : Type :=
| JNull
| JBool (b : bool)
| JNum (n : Z)
| JStr (s : string)
| JArr (items : list json)
| JObj (fields : list (string * json)).

(** A JavaScript value as the handlers meet it: a JSON value or
    [undefined]. *)
Definition jsval : Type := option json.
Definition undefined : jsval := None.

Module Obj.

(** [o[k]] on own properties. *)
Fixpoint lookup (k : string) (o : list (string * json)) : jsval :=
  match o with
  | [] => None
  | (k', v) :: rest => if String.eqb k k' then Some v else lookup k rest
  end.

(** [o[k] = v]: an existing property keeps its place, a new one goes
    last. *)
Fixpoint set (k : string) (v : json) (o : list (string * json))
  : list (string * json) :=
  match o with
  | [] => [(k, v)]
  | (k', v') :: rest =>
      if String.eqb k k' then (k', v) :: rest else (k', v') :: set k v rest
  end.

(** [delete o[k]]. *)
Fixpoint delete (k : string) (o : list (string * json))
  : list (string * json) :=
  match o with
  | [] => []
  | (k', v) :: rest =>
      if String.eqb k k' then delete k rest else (k', v) :: delete k rest
  end.

(** An object literal whose values may be [undefined]: such a property
    is not written when the object is serialised, so it is left out.
    The keys of a literal are distinct. *)
Definition literal (l : list (string * jsval)) : list (string * json) :=
  omap (fun kv => match snd kv with
                  | Some v => Some (fst kv, v)
                  | None => None
                  end) l.

End Obj.

Arguments Obj.literal : simpl never.

(** ** Coercions of the language *)

(** [!!v]. *)
Definition truthy (v : jsval) : bool :=
  match v with
  | None => false
  | Some JNull => false
  | Some (JBool b) => b
  | Some (JNum n) => negb (Z.eqb n 0)
  | Some (JStr s) => negb (String.eqb s "")
  | Some (JArr _) => true
  | Some (JObj _) => true
  end.

(** [a || b] on configuration strings. *)
Definition or_default (a : option string) (b : string) : string :=
  match a with
  | Some s => if String.eqb s "" then b else s
  | None => b
  end.

(** [s.padEnd(n, c)] for a one-character filler and [s.slice(0, n)]. *)
Definition padEnd (s : string) (n : nat) (c : ascii) : string :=
  s +:+ string_of_list_ascii (repeat c (n - String.length s)).

Definition slice0 (s : string) (n : nat) : string := String.substring 0 n s.

(** ** Buffers *)

(** [Buffer.from(s, 'utf8')]: one byte for a code unit below 128, two
    above. *)
Definition utf8_unit (c : ascii) : list byte :=
  let n := N_of_ascii c in
  if N.ltb n 128 then [byte_of_ascii c]
  else [byte_of_ascii (ascii_of_N (192 + n / 64));
        byte_of_ascii (ascii_of_N (128 + n mod 64))].

Definition Buffer_from_utf8 (s : string) : list byte :=
  flat_map utf8_unit (list_ascii_of_string s).

Definition hex_digit (n : N) : ascii :=
  if N.ltb n 10 then ascii_of_N (48 + n) else ascii_of_N (87 + n).

Definition hex_value (c : ascii) : option N :=
  let n := N_of_ascii c in
  if N.leb 48 n && N.leb n 57 then Some (n - 48)%N
  else if N.leb 97 n && N.leb n 102 then Some (n - 87)%N
  else if N.leb 65 n && N.leb n 70 then Some (n - 55)%N
  else None.

(** [buf.toString('hex')]. *)
Definition byte_to_hex (b : byte) (rest : string) : string :=
  String (hex_digit (Byte.to_N b / 16))
         (String (hex_digit (Byte.to_N b mod 16)) rest).

Definition Buffer_toString_hex (b : list byte) : string :=
  fold_right byte_to_hex "" b.

(** [Buffer.from(s, 'hex')]: pairs of digits are decoded until the first
    pair that is not hexadecimal; a trailing single digit is dropped.
    Nothing is thrown. *)
Fixpoint Buffer_from_hex (s : string) : list byte :=
  match s with
  | String c1 (String c2 rest) =>
      match hex_value c1, hex_value c2 with
      | Some h, Some l =>
          byte_of_ascii (ascii_of_N (16 * h + l)) :: Buffer_from_hex rest
      | _, _ => []
      end
  | _ => []
  end.

(** ** Reading and removing properties *)

(** [a - b] and [a > b] with NaN: a comparison with NaN is false. *)
Definition js_sub (a : Z) (b : option Z) : option Z :=
  match b with
  | Some y => Some (a - y)
  | None => None
  end.

Definition js_gt (a : option Z) (b : Z) : bool :=
  match a with
  | Some x => Z.ltb b x
  | None => false
  end.

(** [delete v.k]: a no-op on anything but an object that owns [k]. *)
Definition js_delete (v : json) (k : string) : json :=
  match v with
  | JObj o => JObj (Obj.delete k o)
  | _ => v
  end.

Definition index_key (i : nat) : string :=
  NilZero.string_of_uint (Nat.to_uint i).

(** [{...v}]: the own enumerable properties of [v]. *)
Definition spread (v : jsval) : list (string * json) :=
  match v with
  | Some (JObj o) => o
  | Some (JArr l) => imap (fun i x => (index_key i, x)) l
  | Some (JStr s) =>
      imap (fun i c => (index_key i, JStr (String c EmptyString)))
           (list_ascii_of_string s)
  | _ => []
  end.

(** ** Effects *)

(** Calls into the libraries, in the order they are made. *)
Inductive event : Type :=
| EvHmac (key data : string)
| EvSignatureChecked (verified : bool)
| EvPbkdf2 (password : string) (salt : list byte)
           (iterations keylen : Z) (digest : string)
| EvCipheriv (algorithm : string) (key iv : list byte) (input : string)
| EvDecipheriv (algorithm : string) (key iv : list byte) (input : jsval)
| EvFirestoreSet (collection : string) (id : jsval) (doc : json).
(* [EvFirestoreSet c id doc]: [set(doc)] was called on the reference
   [collection(c).doc(..)] whose path below the collection is [id]. *)

Record state : Type := mkState {
  st_db : gmap string json;     (* the documents below vapiCallLogs, by path *)
  st_trace : list event;
  st_clock : nat;               (* readings of the clock taken so far *)
  st_random : nat               (* draws of the random source so far *)
}.

Inductive outcome (A : Type) : Type :=
| Ret (a : A)
| Throw (message : string).
Arguments Ret {A} a.
Arguments Throw {A} message.

Definition M (A : Type) : Type := state -> outcome A * state.

Definition ret {A} (a : A) : M A := fun s => (Ret a, s).
Definition throw {A} (message : string) : M A := fun s => (Throw message, s).

Definition bind {A B} (m : M A) (k : A -> M B) : M B :=
  fun s =>
    match m s with
    | (Ret a, s') => k a s'
    | (Throw e, s') => (Throw e, s')
    end.

(** [try { m } catch (error) { h error.message }]. *)
Definition try_catch {A} (m : M A) (h : string -> M A) : M A :=
  fun s =>
    match m s with
    | (Ret a, s') => (Ret a, s')
    | (Throw e, s') => h e s'
    end.

Definition lift {A} (o : outcome A) : M A := fun s => (o, s).

Definition emit (e : event) : M unit :=
  fun s => (Ret tt, mkState (st_db s) (st_trace s ++ [e]) (st_clock s) (st_random s)).

Notation "'let*' x ':=' m 'in' k" := (bind m (fun x => k))
  (at level 10, x name, m at level 100, k at level 200).
Notation "'do' m 'then' k" := (bind m (fun _ => k))
  (at level 10, m at level 100, k at level 200).

(** ** Document paths

    [collection.doc(path)] of the Firestore client takes a non-empty
    string without [//]; the string is split at [/], empty segments at
    either end are dropped, and what is left must name a document: an
    odd number of segments below the collection.  The document is
    addressed by these segments, and its identifier, [doc.id], is the
    last of them. *)

(** [s.split("/")]. *)
Fixpoint split_path (s : string) : list string :=
  match s with
  | EmptyString => [EmptyString]
  | String c rest =>
      if Ascii.eqb c "/" then EmptyString :: split_path rest
      else match split_path rest with
           | seg :: segs => String c seg :: segs
           | [] => [String c EmptyString]
           end
  end.

(** [s.indexOf("//") >= 0]. *)
Fixpoint double_slash (s : string) : bool :=
  match s with
  | String a (String b _ as rest) =>
      (Ascii.eqb a "/" && Ascii.eqb b "/") || double_slash rest
  | _ => false
  end.

Definition segments (path : string) : list string :=
  List.filter (fun seg => negb (String.eqb seg "")) (split_path path).

(** The key of the document a path names, if it names one. *)
Definition document_key (path : string) : option string :=
  if String.eqb path "" then None
  else if double_slash path then None
  else if Nat.odd (length (segments path))
       then Some (String.concat "/" (segments path))
       else None.

(** [doc.id]. *)
Definition document_id (path : string) : string :=
  List.last (segments path) "".

(** A string without [/] that is not empty: the usual identifier. *)
Definition no_slash (s : string) : bool :=
  forallb (fun c => negb (Ascii.eqb c "/")) (list_ascii_of_string s).

Definition plain (s : string) : bool :=
  negb (String.eqb s "") && no_slash s.

(** ** Conversions *)

(** Whether a value converts to a primitive without throwing, as the
    operand of a subtraction, in a template literal or in [v + "s"]: an
    object that owns a property [toString] (which no JSON value can make
    callable) does not, and an array converts its elements. *)
Fixpoint converts (v : json) : bool :=
  match v with
  | JObj o =>
      match Obj.lookup "toString" o with
      | Some _ => false
      | None => true
      end
  | JArr l => forallb converts l
  | _ => true
  end.

Definition prints (v : jsval) : bool :=
  match v with
  | Some x => converts x
  | None => true
  end.

(** [Number(v)] of a value that converts; [None] is NaN.  An object
    converts to the string ["[object Object]"], which is no number.
    What a string or an array converts to is the runtime's business
    (see [NodeRuntime]). *)
Definition number_of (str_num : string -> option Z)
    (arr_num : list json -> option Z) (v : jsval) : option Z :=
  match v with
  | None => None
  | Some JNull => Some 0
  | Some (JBool b) => Some (if b then 1 else 0)
  | Some (JNum n) => Some n
  | Some (JStr s) => str_num s
  | Some (JArr l) => arr_num l
  | Some (JObj _) => None
  end.

(** [ToNumber(v)] for the operand of a subtraction: a TypeError with
    [message] when [v] does not convert to a primitive. *)
Definition ToNumber (str_num : string -> option Z)
    (arr_num : list json -> option Z) (message : string) (v : jsval)
  : outcome (option Z) :=
  if prints v then Ret (number_of str_num arr_num v) else Throw message.

(** ** The runtime the handlers run on

    Everything here is supplied by Node or by a library; the handlers
    only call it.  A field that can throw returns an [outcome]. *)
Class NodeRuntime : Type := {
  (** [process.env.NAME]. *)
  process_env : string -> option string;
  (** [crypto.createHmac('sha256', key).update(data).digest('hex')] on a
      string. *)
  hmac_sha256_hex : string -> string -> string;
  (** [crypto.pbkdf2Sync(password, salt, iterations, keylen, digest)]. *)
  pbkdf2Sync : string -> list byte -> Z -> Z -> string -> list byte;
  (** [createCipheriv(alg, key, iv)], then [update(s, 'utf8', 'hex')]
      and [final('hex')] concatenated. *)
  cipher_utf8_hex : string -> list byte -> list byte -> string -> outcome string;
  (** [createDecipheriv(alg, key, iv)], then [update(s, 'hex', 'utf8')]
      and [final('utf8')] concatenated. *)
  decipher_hex_utf8 : string -> list byte -> list byte -> string -> outcome string;
  JSON_parse : string -> outcome json;
  JSON_stringify : json -> string;
  (** [Buffer.from(v, 'hex')] when [v] is an array or an object. *)
  Buffer_from_object : json -> outcome (list byte);
  (** [Number(s)] and [Number(array)]; [None] is NaN. *)
  StringToNumber : string -> option Z;
  ArrayToNumber : list json -> option Z;
  (** The n-th reading of the wall clock, in milliseconds, and the
      ISO-8601 rendering of a time. *)
  clock_ms : nat -> Z;
  toISOString : Z -> string;
  (** The n-th [crypto.randomBytes(len)]. *)
  random_bytes : nat -> nat -> list byte;
  (** [admin.firestore.FieldValue.serverTimestamp()]. *)
  serverTimestamp : json;
  (** Whether Firestore takes the write of a document: validation of
      the data, availability. *)
  firestore_commit : string -> string -> json -> outcome unit;
  (** The message of the error the runtime throws at a call site that
      received a value it does not take. *)
  native_message : string -> jsval -> string
}.

Section Handlers.

Context {R : NodeRuntime}.

(** *** Primitive steps *)

(** [v.k], which throws on [null] and [undefined].  The handlers read
    the properties [encrypted], [salt], [signature], [_timestamp],
    [callId] and [duration]: a string, an array, a number or a boolean
    has none of them. *)
Definition property (v : jsval) (k : string) : outcome jsval :=
  match v with
  | None => Throw (native_message k v)
  | Some JNull => Throw (native_message k v)
  | Some (JObj o) => Ret (Obj.lookup k o)
  | Some _ => Ret undefined
  end.

Definition js_get (v : jsval) (k : string) : M jsval := lift (property v k).

Definition Date_now : M Z :=
  fun s => (Ret (clock_ms (st_clock s)),
            mkState (st_db s) (st_trace s) (S (st_clock s)) (st_random s)).

(** [new Date().toISOString()]. *)
Definition Date_toISOString : M string :=
  let* t := Date_now in ret (toISOString t).

Definition randomBytes (len : nat) : M (list byte) :=
  fun s => (Ret (random_bytes (st_random s) len),
            mkState (st_db s) (st_trace s) (st_clock s) (S (st_random s))).

(** [hmac.update(data)] takes a string or a binary view, so no other
    JSON value. *)
Definition createHmac_digest (key : string) (input : jsval) : M string :=
  match input with
  | Some (JStr s) => do emit (EvHmac key s) then ret (hmac_sha256_hex key s)
  | _ => throw (native_message "hmac.update" input)
  end.

(** [Buffer.from(v, 'hex')]. *)
Definition Buffer_from (v : jsval) : outcome (list byte) :=
  match v with
  | Some (JStr s) => Ret (Buffer_from_hex s)
  | Some (JArr l) => Buffer_from_object (JArr l)
  | Some (JObj o) => Buffer_from_object (JObj o)
  | _ => Throw (native_message "Buffer.from" v)
  end.

Definition pbkdf2 (password : string) (salt : list byte)
    (iterations keylen : Z) (digest : string) : M (list byte) :=
  do emit (EvPbkdf2 password salt iterations keylen digest) then
  ret (pbkdf2Sync password salt iterations keylen digest).

Definition cipher (alg : string) (key iv : list byte) (input : string)
  : M string :=
  do emit (EvCipheriv alg key iv input) then
  lift (cipher_utf8_hex alg key iv input).

(** [decipher.update(data, 'hex', 'utf8')] takes a string or a binary
    view, so no other JSON value. *)
Definition decipher (alg : string) (key iv : list byte) (input : jsval)
  : M string :=
  do emit (EvDecipheriv alg key iv input) then
  match input with
  | Some (JStr ct) => lift (decipher_hex_utf8 alg key iv ct)
  | _ => throw (native_message "decipher.update" input)
  end.

(** [db.collection(c).doc(id)]: the reference, by its path below the
    collection.  It throws unless [id] is a string that names a
    document. *)
Definition doc_ref (id : jsval) : outcome string :=
  match id with
  | Some (JStr path) =>
      match document_key path with
      | Some key => Ret key
      | None => Throw (native_message "doc" id)
      end
  | _ => Throw (native_message "doc" id)
  end.
#[global] Arguments doc_ref : simpl never.

(** [db.collection(c).doc(id).set(doc)]: [set] without options replaces
    the document of the reference or creates it. *)
Definition firestore_set (collection : string) (id : jsval) (doc : json)
  : M unit :=
  let* key := lift (doc_ref id) in
  do emit (EvFirestoreSet collection (Some (JStr key)) doc) then
  do lift (firestore_commit collection key doc) then
  fun s => (Ret tt,
            mkState (<[key := doc]> (st_db s)) (st_trace s)
                    (st_clock s) (st_random s)).

(** [signature !== expectedSignature] negated. *)
Definition same_string (v : jsval) (s : string) : bool :=
  match v with
  | Some (JStr s') => String.eqb s' s
  | _ => false
  end.

(** *** [src/utils/encryption.js] *)

Definition ENCRYPTION_KEY : string :=
  or_default (process_env "ENCRYPTION_KEY")
             "restaurantAI_secret_key_2024_secure_vapi_encryption".

Definition ENCRYPTION_IV : string :=
  or_default (process_env "ENCRYPTION_IV")
             "restaurant_ai_initialization_vector".

(** The object [decryptPayload] returns; a property it does not set is
    [None]. *)
Record DecryptResult : Type := mkDecryptResult {
  success : bool;
  data : jsval;
  error : option string;
  code : string;
  age : option Z;
  maxAge : option Z;
  decryptionTime : option string
}.

(** The body of the [try] block of [decryptPayload]. *)
Definition decryptPayload_try (encryptedData : jsval) : M DecryptResult :=
  let* encrypted := js_get encryptedData "encrypted" in
  let* salt := js_get encryptedData "salt" in
  let* signature := js_get encryptedData "signature" in
  do (if truthy signature then
        let* expectedSignature := createHmac_digest ENCRYPTION_KEY encrypted in
        emit (EvSignatureChecked (same_string signature expectedSignature))
      else ret tt) then
  let* saltBuffer := lift (Buffer_from salt) in
  let* derivedKey := pbkdf2 ENCRYPTION_KEY saltBuffer 1000 32 "sha256" in
  let ivBuffer := Buffer_from_utf8 (slice0 (padEnd ENCRYPTION_IV 16 "0") 16) in
  let* decrypted := decipher "aes-256-cbc" derivedKey ivBuffer encrypted in
  let* payload := lift (JSON_parse decrypted) in
  let* now := Date_now in
  let* _timestamp := js_get (Some payload) "_timestamp" in
  let* stamp :=
    lift (ToNumber StringToNumber ArrayToNumber
            (native_message "ToPrimitive" _timestamp) _timestamp) in
  let age := js_sub now stamp in
  let maxAge := 5 * 60 * 1000 in
  if js_gt age maxAge then
    ret (mkDecryptResult false undefined
           (Some "Payload has expired - Possible replay attack")
           "REPLAY_ATTACK_DETECTED" age (Some maxAge) None)
  else
    let payload := js_delete (js_delete payload "_timestamp") "_version" in
    let* decryptionTime := Date_toISOString in
    ret (mkDecryptResult true (Some payload) None
           "DECRYPTION_SUCCESS" None None (Some decryptionTime)).

Definition decryptPayload (encryptedData : jsval) : M DecryptResult :=
  try_catch (decryptPayload_try encryptedData)
    (fun message =>
       ret (mkDecryptResult false undefined (Some message)
              "DECRYPTION_ERROR" None None None)).

(** The body of the [try] block of [encryptPayload]; the envelope it
    returns is a plain object. *)
Definition encryptPayload_try (payload : jsval) : M json :=
  let* timestamp := Date_now in
  let dataWithTimestamp :=
    JObj (Obj.set "_version" (JStr "1.0")
           (Obj.set "_timestamp" (JNum timestamp) (spread payload))) in
  let jsonString := JSON_stringify dataWithTimestamp in
  let* salt := randomBytes 16 in
  let* derivedKey := pbkdf2 ENCRYPTION_KEY salt 1000 32 "sha256" in
  let ivBuffer := Buffer_from_utf8 (slice0 (padEnd ENCRYPTION_IV 16 "0") 16) in
  let* encrypted := cipher "aes-256-cbc" derivedKey ivBuffer jsonString in
  let* signature := createHmac_digest ENCRYPTION_KEY (Some (JStr encrypted)) in
  ret (JObj [("encrypted", JStr encrypted);
             ("salt", JStr (Buffer_toString_hex salt));
             ("signature", JStr signature);
             ("algorithm", JStr "AES-256-CBC");
             ("timestamp", JNum timestamp);
             ("success", JBool true)]).

Definition encryptPayload (payload : jsval) : M json :=
  try_catch (encryptPayload_try payload)
    (fun message =>
       ret (JObj [("success", JBool false); ("error", JStr message)])).

(** [verifyIntegrity(payload, signature)]. *)
Definition verifyIntegrity (payload signature : jsval) : M bool :=
  try_catch
    (let* expectedSignature := createHmac_digest ENCRYPTION_KEY payload in
     ret (same_string signature expectedSignature))
    (fun _ => ret false).

(** *** [saveVapiCallLog] of [src/controller/vapi.Controller.js] *)

(** [res.status(status).json(body)]. *)
Record response : Type := mkResponse {
  status : Z;
  body : json
}.

Definition opt_str (o : option string) : jsval :=
  match o with
  | Some s => Some (JStr s)
  | None => None
  end.

(** The body of the [try] block of the handler. *)
Definition saveVapiCallLog_try (timestamp : string) (requestBody : jsval)
  : M response :=
  let* encrypted := js_get requestBody "encrypted" in
  if negb (truthy encrypted) then
    ret (mkResponse 400 (JObj [
      ("error", JStr "Bad Request");
      ("message", JStr "Payload must be encrypted using AES-256-CBC");
      ("code", JStr "UNENCRYPTED_DATA");
      ("timestamp", JStr timestamp)]))
  else
    let* decryptionResult := decryptPayload requestBody in
    if negb (success decryptionResult) then
      let statusCode :=
        if String.eqb (code decryptionResult) "SIGNATURE_MISMATCH" then 401
        else if String.eqb (code decryptionResult) "REPLAY_ATTACK_DETECTED"
             then 403 else 400 in
      ret (mkResponse statusCode (JObj (Obj.literal [
        ("error", Some (JStr "Decryption Failed"));
        ("message", opt_str (error decryptionResult));
        ("code", Some (JStr (code decryptionResult)));
        ("timestamp", Some (JStr timestamp))])))
    else
      let payload := data decryptionResult in
      let* callId := js_get payload "callId" in
      if negb (truthy callId) then
        ret (mkResponse 400 (JObj [
          ("error", JStr "Bad Request");
          ("message", JStr "Missing required field: callId");
          ("code", JStr "MISSING_CALL_ID");
          ("timestamp", JStr timestamp)]))
      else
        do firestore_set "vapiCallLogs" callId
             (JObj (Obj.set "encryptionMetadata"
                      (JObj [("encrypted", JBool true);
                             ("algorithm", JStr "AES-256-CBC");
                             ("verified", JBool true);
                             ("decryptedAt", JStr timestamp)])
                   (Obj.set "savedAt" (JStr timestamp)
                   (Obj.set "createdAt" serverTimestamp (spread payload)))))
        then
        let* duration := js_get payload "duration" in
        ret (mkResponse 200 (JObj [
          ("success", JBool true);
          ("code", JStr "CALL_LOG_SAVED_ENCRYPTED");
          ("message", JStr "Encrypted call log stored securely in Firestore");
          ("data", JObj (Obj.literal [
             ("callId", callId);
             ("duration", duration);
             ("encrypted", Some (JBool true));
             ("encryptionAlgorithm", Some (JStr "AES-256-CBC"));
             ("savedAt", Some (JStr timestamp))]));
          ("timestamp", JStr timestamp)])).

Definition saveVapiCallLog (requestBody : jsval) : M response :=
  let* timestamp := Date_toISOString in
  try_catch (saveVapiCallLog_try timestamp requestBody)
    (fun message =>
       let* timestamp := Date_toISOString in
       ret (mkResponse 500 (JObj [
         ("error", JStr "Internal Server Error");
         ("message", JStr "Failed to process encrypted call log");
         ("code", JStr "SERVER_ERROR");
         ("details", JStr message);
         ("timestamp", JStr timestamp)]))).

End Handlers.

(** ** A runtime to run the handlers on

    A small executable instance of [NodeRuntime], used to evaluate the
    handlers on concrete requests.  [JSON] is a real printer and parser
    for the values of [json] (strings without control characters); the
    cipher is a byte-wise stream cipher keyed by key and IV, and the key
    derivation and the keyed hash are checksums: they stand for AES,
    PBKDF2 and HMAC only in what the handlers can observe, the shape of
    the calls and whether they throw. *)
Module TestRuntime.

Definition quote : ascii := ascii_of_nat 34.
Definition backslash : ascii := ascii_of_nat 92.

Fixpoint escape (s : string) : string :=
  match s with
  | EmptyString => EmptyString
  | String c rest =>
      if Ascii.eqb c quote || Ascii.eqb c backslash
      then String backslash (String c (escape rest))
      else String c (escape rest)
  end.

Definition quoted (s : string) : string :=
  String quote (escape s +:+ String quote EmptyString).

Definition commas (l : list string) : string :=
  match l with
  | [] => ""
  | x :: rest => fold_left (fun acc y => acc +:+ "," +:+ y) rest x
  end.

Fixpoint stringify (v : json) : string :=
  match v with
  | JNull => "null"
  | JBool true => "true"
  | JBool false => "false"
  | JNum n => NilZero.string_of_int (Z.to_int n)
  | JStr s => quoted s
  | JArr l => "[" +:+ commas (map stringify l) +:+ "]"
  | JObj o =>
      "{" +:+ commas (map (fun kv => quoted (fst kv) +:+ ":" +:+ stringify (snd kv)) o)
          +:+ "}"
  end.

Definition is_ws (c : ascii) : bool :=
  Ascii.eqb c " " || Ascii.eqb c (ascii_of_nat 10)
  || Ascii.eqb c (ascii_of_nat 13) || Ascii.eqb c (ascii_of_nat 9).

Fixpoint skip_ws (s : string) : string :=
  match s with
  | String c rest => if is_ws c then skip_ws rest else s
  | EmptyString => s
  end.

(** The characters after an opening quote, up to the closing one. *)
Fixpoint parse_chars (s : string) : option (string * string) :=
  match s with
  | EmptyString => None
  | String c rest =>
      if Ascii.eqb c quote then Some (EmptyString, rest)
      else if Ascii.eqb c backslash then
        match rest with
        | String e rest' =>
            match parse_chars rest' with
            | Some (str, r) => Some (String e str, r)
            | None => None
            end
        | EmptyString => None
        end
      else
        match parse_chars rest with
        | Some (str, r) => Some (String c str, r)
        | None => None
        end
  end.

Definition is_digit (c : ascii) : bool :=
  let n := N_of_ascii c in N.leb 48 n && N.leb n 57.

Fixpoint span_digits (s : string) : string * string :=
  match s with
  | String c rest =>
      if is_digit c then
        let '(d, r) := span_digits rest in (String c d, r)
      else (EmptyString, s)
  | EmptyString => (EmptyString, s)
  end.

Definition parse_number (s : string) : option (json * string) :=
  let '(sign, s') :=
    match s with
    | String "-" rest => ("-", rest)
    | _ => ("", s)
    end in
  let '(digits, r) := span_digits s' in
  match digits with
  | EmptyString => None
  | _ =>
      match NilZero.int_of_string (sign +:+ digits) with
      | Some i => Some (JNum (Z.of_int i), r)
      | None => None
      end
  end.

Section Composite.
Variable value : string -> option (json * string).

Fixpoint elements (n : nat) (s : string) (acc : list json)
  : option (json * string) :=
  match n with
  | O => None
  | S n' =>
      match value s with
      | Some (v, r) =>
          match skip_ws r with
          | String "," r' => elements n' r' (v :: acc)
          | String "]" r' => Some (JArr (rev (v :: acc)), r')
          | _ => None
          end
      | None => None
      end
  end.

Fixpoint members (n : nat) (s : string) (acc : list (string * json))
  : option (json * string) :=
  match n with
  | O => None
  | S n' =>
      match skip_ws s with
      | String q r =>
          if Ascii.eqb q quote then
            match parse_chars r with
            | Some (k, r1) =>
                match skip_ws r1 with
                | String ":" r2 =>
                    match value r2 with
                    | Some (v, r3) =>
                        match skip_ws r3 with
                        | String "," r4 => members n' r4 (Obj.set k v acc)
                        | String "}" r4 => Some (JObj (Obj.set k v acc), r4)
                        | _ => None
                        end
                    | None => None
                    end
                | _ => None
                end
            | None => None
            end
          else None
      | EmptyString => None
      end
  end.
End Composite.

Fixpoint value (fuel : nat) (s : string) : option (json * string) :=
  match fuel with
  | O => None
  | S fuel' =>
      match skip_ws s with
      | String "n" (String "u" (String "l" (String "l" r))) => Some (JNull, r)
      | String "t" (String "r" (String "u" (String "e" r))) => Some (JBool true, r)
      | String "f" (String "a" (String "l" (String "s" (String "e" r)))) =>
          Some (JBool false, r)
      | String "[" r =>
          match skip_ws r with
          | String "]" r' => Some (JArr [], r')
          | _ => elements (value fuel') (String.length r) r []
          end
      | String "{" r =>
          match skip_ws r with
          | String "}" r' => Some (JObj [], r')
          | _ => members (value fuel') (String.length r) r []
          end
      | String c r =>
          if Ascii.eqb c quote then
            match parse_chars r with
            | Some (str, r') => Some (JStr str, r')
            | None => None
            end
          else parse_number (String c r)
      | EmptyString => None
      end
  end.

Definition parse (s : string) : outcome json :=
  match value (S (String.length s)) s with
  | Some (v, r) =>
      match skip_ws r with
      | EmptyString => Ret v
      | _ => Throw "Unexpected non-whitespace character after JSON"
      end
  | None => Throw "Unexpected token in JSON"
  end.

(** Checksums standing for the keyed hash and the key derivation. *)
Definition sum_bytes (l : list byte) : N :=
  fold_right (fun b acc => (Byte.to_N b + acc)%N) 0%N l.

Definition byte_of_N (n : N) : byte := byte_of_ascii (ascii_of_N (n mod 256)).

Definition hmac (key input : string) : string :=
  let k := sum_bytes (Buffer_from_utf8 key) in
  let d := sum_bytes (Buffer_from_utf8 input) in
  Buffer_toString_hex
    [byte_of_N (k + d); byte_of_N (k + 3 * d + 1);
     byte_of_N (7 * k + d + 2); byte_of_N (k * d + 3)].

Definition kdf (password : string) (salt : list byte)
    (iterations keylen : Z) (digest : string) : list byte :=
  let seed := (sum_bytes (Buffer_from_utf8 password) + 31 * sum_bytes salt
               + Z.to_N iterations + N.of_nat (String.length digest))%N in
  map (fun i => byte_of_N (seed + 17 * N.of_nat i)) (seq 0 (Z.to_nat keylen)).

(** A stream cipher: byte [i] is xored with key byte [i mod 32] and
    IV byte [i mod 16].  Like AES-256-CBC it wants a 32-byte key and a
    16-byte IV, and deciphering wants whole bytes of hexadecimal and
    at least one of them. *)
Definition pad_byte (key iv : list byte) (i : nat) : N :=
  N.lxor (Byte.to_N (nth (i mod 32) key x00))
         (Byte.to_N (nth (i mod 16) iv x00)).

Definition xor_stream (key iv : list byte) (l : list byte) : list byte :=
  imap (fun i b => byte_of_N (N.lxor (Byte.to_N b) (pad_byte key iv i))) l.

Definition check_params (alg : string) (key iv : list byte) : option string :=
  if negb (String.eqb alg "aes-256-cbc") then Some "Unknown cipher"
  else if negb (Nat.eqb (length key) 32) then Some "Invalid key length"
  else if negb (Nat.eqb (length iv) 16) then Some "Invalid initialization vector"
  else None.

Definition encipher (alg : string) (key iv : list byte) (input : string)
  : outcome string :=
  match check_params alg key iv with
  | Some e => Throw e
  | None =>
      Ret (Buffer_toString_hex
             (xor_stream key iv (map byte_of_ascii (list_ascii_of_string input))))
  end.

Definition decipher (alg : string) (key iv : list byte) (input : string)
  : outcome string :=
  match check_params alg key iv with
  | Some e => Throw e
  | None =>
      let bytes := Buffer_from_hex input in
      if negb (Nat.eqb (String.length input) (2 * length bytes))
      then Throw "Invalid hex input"
      else if Nat.eqb (length bytes) 0 then Throw "wrong final block length"
      else Ret (string_of_list_ascii
                  (map ascii_of_byte (xor_stream key iv bytes)))
  end.

Definition to_number (s : string) : option Z :=
  match NilZero.int_of_string s with
  | Some i => Some (Z.of_int i)
  | None => None
  end.

Definition array_to_number (l : list json) : option Z :=
  match l with
  | [] => Some 0
  | [JNum n] => Some n
  | _ => None
  end.

#[local] Instance runtime : NodeRuntime := {
  process_env := fun _ => None;
  hmac_sha256_hex := hmac;
  pbkdf2Sync := kdf;
  cipher_utf8_hex := encipher;
  decipher_hex_utf8 := decipher;
  JSON_parse := parse;
  JSON_stringify := stringify;
  Buffer_from_object := fun _ => Throw "The first argument must be of type string";
  StringToNumber := to_number;
  ArrayToNumber := array_to_number;
  clock_ms := fun n => 1700000000000 + 1000 * Z.of_nat n;
  toISOString := fun t => NilZero.string_of_int (Z.to_int t);
  random_bytes := fun n len => map (fun i => byte_of_N (N.of_nat (7 * n + i))) (seq 0 len);
  serverTimestamp := JStr "serverTimestamp";
  firestore_commit := fun _ key _ =>
    if Nat.ltb 1500 (String.length key) then Throw "Document id is too long"
    else Ret tt;
  native_message := fun site _ => "Invalid argument: " +:+ site
}.

(** The same runtime with [ENCRYPTION_IV] set to the one character
    U+00E9. *)
Definition e_acute : string := String (ascii_of_nat 233) EmptyString.

Definition accented : NodeRuntime := {|
  process_env := fun name =>
    if String.eqb name "ENCRYPTION_IV" then Some e_acute else None;
  hmac_sha256_hex := hmac;
  pbkdf2Sync := kdf;
  cipher_utf8_hex := encipher;
  decipher_hex_utf8 := decipher;
  JSON_parse := parse;
  JSON_stringify := stringify;
  Buffer_from_object := fun _ => Throw "The first argument must be of type string";
  StringToNumber := to_number;
  ArrayToNumber := array_to_number;
  clock_ms := fun n => 1700000000000 + 1000 * Z.of_nat n;
  toISOString := fun t => NilZero.string_of_int (Z.to_int t);
  random_bytes := fun n len => map (fun i => byte_of_N (N.of_nat (7 * n + i))) (seq 0 len);
  serverTimestamp := JStr "serverTimestamp";
  firestore_commit := fun _ key _ =>
    if Nat.ltb 1500 (String.length key) then Throw "Document id is too long"
    else Ret tt;
  native_message := fun site _ => "Invalid argument: " +:+ site
|}.

Definition start : state := mkState ∅ [] 0 0.

(** Requests to try the handlers on.  [seal] is a cooperating encoder
    that takes the plaintext as given: it enciphers the JSON text of
    [plaintext] under the key derived from [salt] and the fixed IV, and
    returns the envelope without a signature. *)
Definition seal (plaintext : json) (salt : list byte) : list (string * json) :=
  let key := kdf ENCRYPTION_KEY salt 1000 32 "sha256" in
  let iv := Buffer_from_utf8 (slice0 (padEnd ENCRYPTION_IV 16 "0") 16) in
  match encipher "aes-256-cbc" key iv (stringify plaintext) with
  | Ret ct => [("encrypted", JStr ct); ("salt", JStr (Buffer_toString_hex salt))]
  | Throw _ => []
  end.

Definition zero_salt : list byte := repeat x00 16.

Definition call_1 : list (string * json) :=
  [("callId", JStr "call_1"); ("duration", JNum 42)].

Definition call_1_again : list (string * json) :=
  [("callId", JStr "call_1"); ("duration", JNum 99)].

(** Plaintexts stamped at the first two readings of the clock, one
    stamped long before, and one that was never stamped. *)
Definition stamped_call : list (string * json) :=
  call_1 ++ [("_timestamp", JNum 1700000000000); ("_version", JStr "1.0")].

Definition stamped_again : list (string * json) :=
  call_1_again ++ [("_timestamp", JNum 1700000001000); ("_version", JStr "1.0")].

Definition stale_call : list (string * json) :=
  call_1 ++ [("_timestamp", JNum 1600000000000); ("_version", JStr "1.0")].

(** What the first call of [encryptPayload] draws and makes of
    [call_1]. *)
Definition first_salt : list byte := Eval vm_compute in random_bytes 0 16.

Definition call_1_ciphertext : string :=
  Eval vm_compute in
    match Obj.lookup "encrypted" (seal (JObj stamped_call) first_salt) with
    | Some (JStr ct) => ct
    | _ => ""
    end.

Definition fresh_envelope : list (string * json) :=
  Eval vm_compute in seal (JObj stamped_call) zero_salt.

Definition second_envelope : list (string * json) :=
  Eval vm_compute in seal (JObj stamped_again) zero_salt.

Definition stale_envelope : list (string * json) :=
  Eval vm_compute in seal (JObj stale_call) zero_salt.

Definition unstamped_envelope : list (string * json) :=
  Eval vm_compute in seal (JObj call_1) zero_salt.

(** The fresh envelope with a signature that is not the keyed hash of
    its ciphertext. *)
Definition missigned_envelope : list (string * json) :=
  Eval vm_compute in Obj.set "signature" (JStr "00000000") fresh_envelope.

(** The same ciphertext in the shape with a boolean flag and the
    ciphertext under [encryptedData]. *)
Definition flagged_envelope : list (string * json) :=
  Eval vm_compute in
    match Obj.lookup "encrypted" fresh_envelope, Obj.lookup "salt" fresh_envelope with
    | Some ct, Some salt =>
        [("encrypted", JBool true); ("encryptedData", ct); ("salt", salt)]
    | _, _ => []
    end.

(** An envelope whose ciphertext is not hexadecimal. *)
Definition garbled_envelope : list (string * json) :=
  [("encrypted", JStr "zz"); ("salt", JStr "00000000000000000000000000000000")].

Definition ciphertext_of (fields : list (string * json)) : string :=
  match Obj.lookup "encrypted" fields with
  | Some (JStr ct) => ct
  | _ => ""
  end.

End TestRuntime.

(** * Vocabulary of the statements *)

Definition persistence_call (e : event) : bool :=
  match e with
  | EvFirestoreSet _ _ _ => true
  | _ => false
  end.

Definition key_derivation_call (e : event) : bool :=
  match e with
  | EvPbkdf2 _ _ _ _ _ => true
  | _ => false
  end.

Definition cipher_call (e : event) : bool :=
  match e with
  | EvCipheriv _ _ _ _ => true
  | EvDecipheriv _ _ _ _ => true
  | _ => false
  end.

(** What a signature check leaves in the trace is the only thing that
    depends on the verdict. *)
Definition verdict (e : event) : bool :=
  match e with
  | EvSignatureChecked _ => true
  | _ => false
  end.

Definition without_verdicts (t : list event) : list event :=
  List.filter (fun e => negb (verdict e)) t.

(** The events a computation adds to the trace. *)
Definition events_of {A} (m : M A) (s : state) : list event :=
  drop (length (st_trace s)) (st_trace (snd (m s))).

Definition is_ascii (c : ascii) : bool := N.ltb (N_of_ascii c) 128.

(** The IV in the words of the protocol: the configured string followed
    by zeros, cut to 16 characters. *)
Definition padded_and_truncated (s : string) : string :=
  String.substring 0 16 (s +:+ "0000000000000000").

(** A call to the cipher uses [iv]. *)
Definition uses_iv (iv : list byte) (e : event) : Prop :=
  match e with
  | EvCipheriv _ _ iv' _ => iv' = iv
  | EvDecipheriv _ _ iv' _ => iv' = iv
  | _ => True
  end.

(** The state in which the handler calls [decryptPayload]: one reading
    of the clock has been taken. *)
Definition entered (st : state) : state :=
  mkState (st_db st) (st_trace st) (S (st_clock st)) (st_random st).

Section Specification.

Context {R : NodeRuntime}.

(** [body.code] of a response. *)
Definition response_code (r : response) : jsval :=
  match body r with
  | JObj o => Obj.lookup "code" o
  | _ => None
  end.

(** The key and the IV as the protocol documents them. *)
Definition documented_key (salt : list byte) : list byte :=
  pbkdf2Sync ENCRYPTION_KEY salt 1000 32 "sha256".

Definition documented_iv_string : string :=
  slice0 (padEnd ENCRYPTION_IV 16 "0") 16.

Definition documented_iv : list byte := Buffer_from_utf8 documented_iv_string.

(** An envelope decrypts and parses successfully, to the object
    [payload]: its [encrypted] property is a string that the cipher
    takes under the derived key and the fixed IV, and the plaintext is
    the JSON text of an object. *)
Definition Decodes (fields payload : list (string * json)) : Prop :=
  exists (ct plaintext : string) (salt : list byte),
    Obj.lookup "encrypted" fields = Some (JStr ct) /\
    Buffer_from (Obj.lookup "salt" fields) = Ret salt /\
    decipher_hex_utf8 "aes-256-cbc" (documented_key salt) documented_iv ct
      = Ret plaintext /\
    JSON_parse plaintext = Ret (JObj payload).

(** The age the freshness check computes for a payload at time [now],
    when the subtraction returns. *)
Definition age_at (now : Z) (payload : list (string * json)) : option Z :=
  js_sub now (number_of StringToNumber ArrayToNumber (Obj.lookup "_timestamp" payload)).

(** The freshness check lets the payload through at time [now]: the
    subtraction returns and the age is not above the window. *)
Definition fresh (now : Z) (payload : list (string * json)) : bool :=
  prints (Obj.lookup "_timestamp" payload) &&
  negb (js_gt (age_at now payload) 300000).

(** The payload with the internal fields added and removed. *)
Definition stamp (t : Z) (o : list (string * json)) : list (string * json) :=
  Obj.set "_version" (JStr "1.0") (Obj.set "_timestamp" (JNum t) o).

Definition stripped (payload : list (string * json)) : list (string * json) :=
  Obj.delete "_version" (Obj.delete "_timestamp" payload).

(** The three results of [decryptPayload]. *)
Definition expired (now : Z) (payload : list (string * json)) : DecryptResult :=
  mkDecryptResult false undefined
    (Some "Payload has expired - Possible replay attack")
    "REPLAY_ATTACK_DETECTED" (age_at now payload) (Some 300000) None.

Definition accepted (payload : list (string * json)) (time : string)
  : DecryptResult :=
  mkDecryptResult true (Some (JObj (stripped payload))) None
    "DECRYPTION_SUCCESS" None None (Some time).

Definition failed (message : string) : DecryptResult :=
  mkDecryptResult false undefined (Some message) "DECRYPTION_ERROR"
    None None None.

(** The envelope [encryptPayload] returns for ciphertext [ct] made at
    time [t] under [salt]. *)
Definition envelope_of (ct : string) (salt : list byte) (t : Z)
  : list (string * json) :=
  [("encrypted", JStr ct);
   ("salt", JStr (Buffer_toString_hex salt));
   ("signature", JStr (hmac_sha256_hex ENCRYPTION_KEY ct));
   ("algorithm", JStr "AES-256-CBC");
   ("timestamp", JNum t);
   ("success", JBool true)].

(** Responses of the handler. *)
Definition unencrypted_response (timestamp : string) : response :=
  mkResponse 400 (JObj [
    ("error", JStr "Bad Request");
    ("message", JStr "Payload must be encrypted using AES-256-CBC");
    ("code", JStr "UNENCRYPTED_DATA");
    ("timestamp", JStr timestamp)]).

Definition decryption_failed_response (message timestamp : string) : response :=
  mkResponse 400 (JObj [
    ("error", JStr "Decryption Failed");
    ("message", JStr message);
    ("code", JStr "DECRYPTION_ERROR");
    ("timestamp", JStr timestamp)]).

Definition replay_response (timestamp : string) : response :=
  mkResponse 403 (JObj [
    ("error", JStr "Decryption Failed");
    ("message", JStr "Payload has expired - Possible replay attack");
    ("code", JStr "REPLAY_ATTACK_DETECTED");
    ("timestamp", JStr timestamp)]).

(** The document the handler writes for a payload at [timestamp]. *)
Definition document (timestamp : string) (payload : list (string * json)) : json :=
  JObj (Obj.set "encryptionMetadata"
          (JObj [("encrypted", JBool true);
                 ("algorithm", JStr "AES-256-CBC");
                 ("verified", JBool true);
                 ("decryptedAt", JStr timestamp)])
       (Obj.set "savedAt" (JStr timestamp)
       (Obj.set "createdAt" serverTimestamp payload))).

(** What one library call made by [decryptPayload] on [envelope] looks
    like. *)
Definition decrypt_call (envelope : jsval) (e : event) : Prop :=
  match e with
  | EvHmac k d =>
      k = ENCRYPTION_KEY /\ property envelope "encrypted" = Ret (Some (JStr d))
  | EvSignatureChecked _ => True
  | EvPbkdf2 p s i n d =>
      p = ENCRYPTION_KEY /\ i = 1000 /\ n = 32 /\ d = "sha256" /\
      exists v, property envelope "salt" = Ret v /\ Buffer_from v = Ret s
  | EvDecipheriv a k iv input =>
      a = "aes-256-cbc" /\ iv = documented_iv /\
      property envelope "encrypted" = Ret input /\
      exists v s, property envelope "salt" = Ret v /\ Buffer_from v = Ret s /\
                  k = documented_key s
  | EvCipheriv _ _ _ _ => False
  | EvFirestoreSet _ _ _ => False
  end.

(** What one library call made by [encryptPayload] from [st] looks
    like. *)
Definition encrypt_call (st : state) (e : event) : Prop :=
  match e with
  | EvHmac k _ => k = ENCRYPTION_KEY
  | EvPbkdf2 p s i n d =>
      p = ENCRYPTION_KEY /\ i = 1000 /\ n = 32 /\ d = "sha256" /\
      s = random_bytes (st_random st) 16
  | EvCipheriv a k iv _ =>
      a = "aes-256-cbc" /\ iv = documented_iv /\
      k = documented_key (random_bytes (st_random st) 16)
  | EvSignatureChecked _ => False
  | EvDecipheriv _ _ _ _ => False
  | EvFirestoreSet _ _ _ => False
  end.

(** The salt an envelope carries, decoded. *)
Definition salt_of (envelope : jsval) (salt : list byte) : Prop :=
  exists v, property envelope "salt" = Ret v /\ Buffer_from v = Ret salt.

(** A call derives, or uses, the documented key for a salt that
    satisfies [from]. *)
Definition keyed_by (from : list byte -> Prop) (e : event) : Prop :=
  match e with
  | EvPbkdf2 p s i n d =>
      p = ENCRYPTION_KEY /\ i = 1000 /\ n = 32 /\ d = "sha256" /\ from s
  | EvCipheriv _ k _ _ =>
      exists s, from s /\ k = pbkdf2Sync ENCRYPTION_KEY s 1000 32 "sha256"
  | EvDecipheriv _ k _ _ =>
      exists s, from s /\ k = pbkdf2Sync ENCRYPTION_KEY s 1000 32 "sha256"
  | _ => True
  end.

End Specification.

(** * The rest of the controller

    The handlers of [vapi.Controller.js] next to [saveVapiCallLog]: the
    lookup of one call log, and the four handlers of a call session. *)

(** [{...a, ...b}] on property lists. *)
Definition assign (a b : list (string * json)) : list (string * json) :=
  fold_left (fun acc kv => Obj.set (fst kv) (snd kv) acc) b a.

(** [a || b]. *)
Definition or_else (a b : jsval) : jsval := if truthy a then a else b.

(** [a || b] where [b] is a literal. *)
Definition or_json (a : jsval) (b : json) : json :=
  match or_else a (Some b) with
  | Some v => v
  | None => b
  end.

Definition is_string (v : jsval) : bool :=
  match v with
  | Some (JStr _) => true
  | _ => false
  end.

Definition is_object (v : json) : bool :=
  match v with
  | JObj _ => true
  | _ => false
  end.

(** ** [getVapiCallLogById] *)

(** Reads of Firestore: whether the service answers the read of a
    document. *)
Class FirestoreReads : Type := {
  firestore_fetch : string -> string -> outcome unit
}.

Section Reading.

Context {R : NodeRuntime} {Q : FirestoreReads}.

(** [db.collection(c).doc(id).get()]: the snapshot is the document of
    the reference, if there is one. *)
Definition firestore_get (collection : string) (id : jsval) : M (option json) :=
  let* key := lift (doc_ref id) in
  do lift (firestore_fetch collection key) then
  fun s => (Ret (st_db s !! key), s).

(** [doc.id] of the reference [doc(id)]. *)
Definition doc_id (id : jsval) : json :=
  match id with
  | Some (JStr path) => JStr (document_id path)
  | _ => JNull
  end.

(** The body of the [try] block of [getVapiCallLogById]; [params] is
    [req.params].  The first statement after the destructuring prints
    [callId] in a template literal. *)
Definition getVapiCallLogById_try (timestamp : string) (params : jsval)
  : M response :=
  let* callId := js_get params "callId" in
  do (if prints callId then ret tt
      else throw (native_message "template" callId)) then
  let* doc := firestore_get "vapiCallLogs" callId in
  match doc with
  | None =>
      ret (mkResponse 404 (JObj (Obj.literal [
        ("error", Some (JStr "Not Found"));
        ("message", Some (JStr "Call log not found"));
        ("code", Some (JStr "LOG_NOT_FOUND"));
        ("callId", callId);
        ("timestamp", Some (JStr timestamp))])))
  | Some stored =>
      ret (mkResponse 200 (JObj [
        ("success", JBool true);
        ("code", JStr "LOG_RETRIEVED");
        ("message", JStr "Call log retrieved successfully");
        ("data", JObj (assign [("id", doc_id callId)] (spread (Some stored))));
        ("timestamp", JStr timestamp)]))
  end.

Definition getVapiCallLogById (params : jsval) : M response :=
  let* timestamp := Date_toISOString in
  try_catch (getVapiCallLogById_try timestamp params)
    (fun message =>
       let* timestamp := Date_toISOString in
       ret (mkResponse 500 (JObj [
         ("error", JStr "Internal Server Error");
         ("message", JStr "Failed to retrieve call log");
         ("code", JStr "DATABASE_ERROR");
         ("details", JStr message);
         ("timestamp", JStr timestamp)]))).

End Reading.

(** [response.data]. *)
Definition response_data (r : response) : jsval :=
  match body r with
  | JObj o => Obj.lookup "data" o
  | _ => None
  end.

(** Two more answers of [saveVapiCallLog]. *)
Definition missing_call_id_response (timestamp : string) : response :=
  mkResponse 400 (JObj [
    ("error", JStr "Bad Request");
    ("message", JStr "Missing required field: callId");
    ("code", JStr "MISSING_CALL_ID");
    ("timestamp", JStr timestamp)]).

Definition server_error_response (details timestamp : string) : response :=
  mkResponse 500 (JObj [
    ("error", JStr "Internal Server Error");
    ("message", JStr "Failed to process encrypted call log");
    ("code", JStr "SERVER_ERROR");
    ("details", JStr details);
    ("timestamp", JStr timestamp)]).

(** ** The call sessions: [makeVapiCall], [initiateVapiCall],
    [updateCallStatus] and [endVapiCall]

    These handlers keep one document per call in the collection
    [vapi_calls]; they share nothing with the call logs but the clock. *)

(** [set(data, { merge: true })] on one field: a non-empty map is merged
    into the map stored under the same name, field by field; any other
    value replaces what is stored. *)
Fixpoint merge_value (v : json) (old : jsval) : json :=
  match v with
  | JObj [] => v
  | JObj new =>
      JObj (fold_left
              (fun acc kv =>
                 Obj.set (fst kv)
                   (merge_value (snd kv) (Obj.lookup (fst kv) acc)) acc)
              new
              (match old with
               | Some (JObj o) => o
               | _ => []
               end))
  | _ => v
  end.

Definition merge_fields (new old : list (string * json)) : list (string * json) :=
  fold_left
    (fun acc kv =>
       Obj.set (fst kv) (merge_value (snd kv) (Obj.lookup (fst kv) acc)) acc)
    new old.

(** A value that is not a non-empty map. *)
Definition leaf (v : json) : bool :=
  match v with
  | JObj (_ :: _) => false
  | _ => true
  end.

(** The collection [vapi_calls] by document id, the requests sent to
    the Vapi service, and how often the clock and [Math.random] were
    read. *)
Record world : Type := mkWorld {
  w_calls : gmap string (list (string * json));
  w_requests : list json;
  w_clock : nat;
  w_random : nat
}.

Definition W (A : Type) : Type := world -> outcome A * world.

(** What the session handlers need beyond [NodeRuntime]. *)
Class SessionRuntime : Type := {
  (** The digits of the n-th [Math.random()] in base 36, after the
      point. *)
  random_digits : nat -> list nat;
  (** [fetch(url, { method: "POST", body })] followed by
      [response.json()]. *)
  fetch_json : string -> json -> outcome json
}.

Definition base36_digit (d : nat) : ascii :=
  nth (d mod 36) (list_ascii_of_string "0123456789abcdefghijklmnopqrstuvwxyz")
      "0"%char.

(** [Math.random().toString(36).substr(2, 9)] of the n-th draw. *)
Definition random_suffix {P : SessionRuntime} (n : nat) : string :=
  string_of_list_ascii (map base36_digit (firstn 9 (random_digits n))).

Module Session.

Definition ret {A} (a : A) : W A := fun w => (Ret a, w).
Definition throw {A} (message : string) : W A := fun w => (Throw message, w).

Definition bind {A B} (m : W A) (k : A -> W B) : W B :=
  fun w =>
    match m w with
    | (Ret a, w') => k a w'
    | (Throw e, w') => (Throw e, w')
    end.

Definition try_catch {A} (m : W A) (h : string -> W A) : W A :=
  fun w =>
    match m w with
    | (Ret a, w') => (Ret a, w')
    | (Throw e, w') => h e w'
    end.

Definition lift {A} (o : outcome A) : W A := fun w => (o, w).

(** A statement that only logs: it throws when a value it prints does
    not convert. *)
Definition log (printable : bool) (message : string) : W unit :=
  if printable then ret tt else throw message.

Section Primitives.

Context {R : NodeRuntime} {P : SessionRuntime}.

Definition get (v : jsval) (k : string) : W jsval := lift (property v k).

(** [Date.now()]. *)
Definition now : W Z :=
  fun w => (Ret (clock_ms (w_clock w)),
            mkWorld (w_calls w) (w_requests w) (S (w_clock w)) (w_random w)).

(** [new Date().toISOString()]. *)
Definition now_iso : W string :=
  bind now (fun t => ret (toISOString t)).

Definition random : W string :=
  fun w => (Ret (random_suffix (w_random w)),
            mkWorld (w_calls w) (w_requests w) (w_clock w) (S (w_random w))).

Definition fetch (url : string) (request : json) : W json :=
  fun w => (fetch_json url request,
            mkWorld (w_calls w) (w_requests w ++ [request]) (w_clock w)
                    (w_random w)).

Definition put (path : string) (fields : list (string * json)) : W unit :=
  fun w => (Ret tt,
            mkWorld (<[path := fields]> (w_calls w)) (w_requests w) (w_clock w)
                    (w_random w)).

(** [.set(data)]: the document is replaced or created. *)
Definition calls_set (id : jsval) (data : list (string * json)) : W unit :=
  bind (lift (doc_ref id)) (fun path =>
  bind (lift (firestore_commit "vapi_calls" path (JObj data))) (fun _ =>
  put path data)).

(** [.update(data)]: fails when there is no document; otherwise the
    fields of [data], whose names have no dot here, replace those of the
    document. *)
Definition calls_update (id : jsval) (data : list (string * json)) : W unit :=
  bind (lift (doc_ref id)) (fun path =>
  bind (lift (firestore_commit "vapi_calls" path (JObj data))) (fun _ =>
  fun w =>
    match w_calls w !! path with
    | Some stored => put path (assign stored data) w
    | None => (Throw (native_message "update" id), w)
    end)).

(** [.set({ ...data, updatedAt: serverTimestamp() }, { merge: true })]:
    the plain fields are merged into the document, which is created when
    there is none, and the server's time is written to [updatedAt]. *)
Definition calls_merge (id : jsval) (data : list (string * json)) : W unit :=
  bind (lift (doc_ref id)) (fun path =>
  bind (lift (firestore_commit "vapi_calls" path
                (JObj (data ++ [("updatedAt", serverTimestamp)])))) (fun _ =>
  fun w =>
    put path
      (Obj.set "updatedAt" serverTimestamp
         (merge_fields data (default [] (w_calls w !! path)))) w)).

End Primitives.

End Session.

Section Sessions.

Context {R : NodeRuntime} {P : SessionRuntime}.

Notation "'let+' x ':=' m 'in' k" := (Session.bind m (fun x => k))
  (at level 10, x name, m at level 100, k at level 200).
Notation "'do+' m 'then' k" := (Session.bind m (fun _ => k))
  (at level 10, m at level 100, k at level 200).

Definition VAPI_API_KEY : jsval := opt_str (process_env "VAPI_API_KEY").
Definition VAPI_ASSISTANT_ID : jsval := opt_str (process_env "VAPI_ASSISTANT_ID").
Definition VAPI_API_BASE_URL : jsval := Some (JStr "https://api.vapi.ai").

(** The constants the module declares.  An identifier that is none of
    them, and no global of Node, cannot be resolved: reading it throws a
    [ReferenceError]. *)
Definition module_constants : list (string * jsval) :=
  [("VAPI_API_KEY", VAPI_API_KEY);
   ("VAPI_ASSISTANT_ID", VAPI_ASSISTANT_ID);
   ("VAPI_API_BASE_URL", VAPI_API_BASE_URL)].

Definition identifier (name : string) : W jsval :=
  match find (fun entry => String.eqb name (fst entry)) module_constants with
  | Some entry => Session.ret (snd entry)
  | None => Session.throw (name +:+ " is not defined")
  end.

(** The 500 answer of the three session handlers. *)
Definition session_error (message code details timestamp : string) : response :=
  mkResponse 500 (JObj [
    ("success", JBool false);
    ("error", JStr "Server Error");
    ("message", JStr message);
    ("code", JStr code);
    ("details", JStr details);
    ("timestamp", JStr timestamp)]).

(** *** [makeVapiCall] *)

Definition validateVapiConfig : bool :=
  if negb (truthy VAPI_API_KEY) then false
  else if negb (truthy VAPI_ASSISTANT_ID) then false
  else true.

(** The [Authorization] header is built from [VAPI_PRIVATE_API_KEY]
    before [fetch] is called. *)
Definition makeVapiCall_try (requestBody : jsval) : W response :=
  if negb validateVapiConfig then
    Session.ret (mkResponse 400 (JObj [
      ("success", JBool false);
      ("error", JStr "VAPI configuration is incomplete")]))
  else
    let+ given := Session.get requestBody "userId" in
    let userId := match given with
                  | None => Some (JStr "web-user")
                  | Some _ => given
                  end in
    let+ key := identifier "VAPI_PRIVATE_API_KEY" in
    do+ Session.log (prints key) (native_message "template" key) then
    let+ assistantId := identifier "VAPI_ASSISTANT_ID" in
    let+ data :=
      Session.fetch "https://api.vapi.ai/call/web"
        (JObj (Obj.literal [
           ("assistantId", assistantId);
           ("customer", Some (JObj (Obj.literal [("name", userId)])))])) in
    (* vapiResponse is the Response object: it has no callId and is
       serialised as an empty object *)
    let+ t := Session.now in
    let+ timestamp := Session.now_iso in
    Session.ret (mkResponse 200 (JObj [
      ("success", JBool true);
      ("callId", JStr ("call_" +:+ NilZero.string_of_int (Z.to_int t)));
      ("timestamp", JStr timestamp);
      ("vapiResponse", JObj [])])).

Definition makeVapiCall (requestBody : jsval) : W response :=
  Session.try_catch (makeVapiCall_try requestBody)
    (fun message =>
       Session.ret (mkResponse 500 (JObj [
         ("success", JBool false);
         ("error", JStr (if String.eqb message "" then "Failed to initiate call"
                         else message))]))).

(** *** [initiateVapiCall] *)

(** The document of a new session. *)
Definition session_document (callId userId assistantId : json)
    (timestamp : string) : list (string * json) :=
  [("callId", callId);
   ("userId", userId);
   ("assistantId", assistantId);
   ("status", JStr "initiated");
   ("startedAt", JStr timestamp);
   ("initiatedFrom", JStr "web-frontend");
   ("microphone", JObj [("checked", JBool false); ("allowed", JBool false)]);
   ("transcript", JArr []);
   ("summary", JNull);
   ("recordingUrl", JNull);
   ("createdAt", serverTimestamp)].

Definition initiateVapiCall_try (timestamp : string) (requestBody : jsval)
  : W response :=
  let+ userId := Session.get requestBody "userId" in
  let+ assistantOverride := Session.get requestBody "assistantOverride" in
  let assistantId := or_else assistantOverride VAPI_ASSISTANT_ID in
  if negb (truthy assistantId) then
    Session.ret (mkResponse 400 (JObj [
      ("success", JBool false);
      ("error", JStr "Configuration Error");
      ("message", JStr "VAPI Assistant ID not configured on server");
      ("code", JStr "MISSING_ASSISTANT_CONFIG");
      ("timestamp", JStr timestamp)]))
  else
    do+ Session.log (prints (or_else userId (Some (JStr "anonymous"))))
           (native_message "template" userId) then
    (* assistantId.substring(0, 12) *)
    do+ Session.log (is_string assistantId)
           (native_message "substring" assistantId) then
    let+ t := Session.now in
    let+ suffix := Session.random in
    let callId :=
      JStr ("call_" +:+ NilZero.string_of_int (Z.to_int t) +:+ "_" +:+ suffix) in
    do+ Session.calls_set (Some callId)
           (session_document callId (or_json userId (JStr "anonymous"))
              (or_json assistantId JNull) timestamp) then
    Session.ret (mkResponse 200 (JObj [
      ("success", JBool true);
      ("callId", callId);
      ("status", JStr "initiated");
      ("assistantId", or_json assistantId JNull);
      ("message", JStr "VAPI call initiated successfully");
      ("timestamp", JStr timestamp)])).

Definition initiateVapiCall (requestBody : jsval) : W response :=
  let+ timestamp := Session.now_iso in
  Session.try_catch (initiateVapiCall_try timestamp requestBody)
    (fun message =>
       let+ timestamp := Session.now_iso in
       Session.ret (session_error "Failed to initiate VAPI call"
                      "CALL_INITIATION_ERROR" message timestamp)).

(** *** [updateCallStatus] *)

Definition updateData (status microphone metadata : jsval) (timestamp : string)
  : list (string * json) :=
  Obj.literal [
    ("status", status);
    ("lastUpdated", Some (JStr timestamp));
    ("microphone", if truthy microphone then microphone else None);
    ("metadata", if truthy metadata then metadata else None)].

Definition updateCallStatus_try (timestamp : string) (requestBody : jsval)
  : W response :=
  let+ callId := Session.get requestBody "callId" in
  let+ status := Session.get requestBody "status" in
  let+ microphone := Session.get requestBody "microphone" in
  let+ metadata := Session.get requestBody "metadata" in
  if negb (truthy callId) || negb (truthy status) then
    Session.ret (mkResponse 400 (JObj [
      ("success", JBool false);
      ("error", JStr "Bad Request");
      ("message", JStr "callId and status are required");
      ("timestamp", JStr timestamp)]))
  else
    do+ Session.log (prints callId) (native_message "template" callId) then
    do+ Session.log (prints status) (native_message "template" status) then
    do+ Session.calls_update callId
           (updateData status microphone metadata timestamp) then
    Session.ret (mkResponse 200 (JObj (Obj.literal [
      ("success", Some (JBool true));
      ("callId", callId);
      ("status", status);
      ("message", Some (JStr "Call status updated"));
      ("timestamp", Some (JStr timestamp))]))).

Definition updateCallStatus (requestBody : jsval) : W response :=
  let+ timestamp := Session.now_iso in
  Session.try_catch (updateCallStatus_try timestamp requestBody)
    (fun message =>
       let+ timestamp := Session.now_iso in
       Session.ret (session_error "Failed to update call status"
                      "STATUS_UPDATE_ERROR" message timestamp)).

(** *** [endVapiCall] *)

(** [duration ? duration + "s" : "unknown"] in a template literal. *)
Definition printable_duration (duration : jsval) : bool :=
  negb (truthy duration) || prints duration.

(** [transcript ? transcript.length : 0] in a template literal. *)
Definition printable_length (transcript : jsval) : bool :=
  match transcript with
  | Some (JObj o) => prints (Obj.lookup "length" o)
  | _ => true
  end.

(** The fields of [endData] that the request determines; [updatedAt]
    is set by the server. *)
Definition endData (transcript summary recordingUrl duration : jsval)
    (timestamp : string) : list (string * json) :=
  [("status", JStr "ended");
   ("endedAt", JStr timestamp);
   ("transcript", or_json transcript (JArr []));
   ("summary", or_json summary JNull);
   ("recordingUrl", or_json recordingUrl JNull);
   ("duration", or_json duration JNull)].

Definition endVapiCall_try (timestamp : string) (requestBody : jsval)
  : W response :=
  let+ callId := Session.get requestBody "callId" in
  let+ transcript := Session.get requestBody "transcript" in
  let+ summary := Session.get requestBody "summary" in
  let+ recordingUrl := Session.get requestBody "recordingUrl" in
  let+ duration := Session.get requestBody "duration" in
  if negb (truthy callId) then
    Session.ret (mkResponse 400 (JObj [
      ("success", JBool false);
      ("error", JStr "Bad Request");
      ("message", JStr "callId is required");
      ("timestamp", JStr timestamp)]))
  else
    do+ Session.log (prints callId) (native_message "template" callId) then
    do+ Session.log (printable_duration duration)
           (native_message "template" duration) then
    do+ Session.log (printable_length transcript)
           (native_message "template" transcript) then
    do+ Session.calls_merge callId
           (endData transcript summary recordingUrl duration timestamp) then
    Session.ret (mkResponse 200 (JObj (Obj.literal [
      ("success", Some (JBool true));
      ("callId", callId);
      ("status", Some (JStr "ended"));
      ("message", Some (JStr "VAPI call ended and session saved"));
      ("timestamp", Some (JStr timestamp))]))).

Definition endVapiCall (requestBody : jsval) : W response :=
  let+ timestamp := Session.now_iso in
  Session.try_catch (endVapiCall_try timestamp requestBody)
    (fun message =>
       let+ timestamp := Session.now_iso in
       Session.ret (session_error "Failed to end VAPI call"
                      "CALL_TERMINATION_ERROR" message timestamp)).

End Sessions.

(** The fields [endVapiCall] defaults, with their defaults. *)
Definition final_defaults : list (string * json) :=
  [("transcript", JArr []); ("summary", JNull); ("recordingUrl", JNull);
   ("duration", JNull)].

(** ** More requests to try the handlers on *)

Module Requests.

Import TestRuntime.
#[local] Existing Instance runtime.

#[local] Instance reads : FirestoreReads := {
  firestore_fetch := fun _ _ => Ret tt
}.

#[local] Instance sessions : SessionRuntime := {
  random_digits := fun n => [27%nat; n];
  fetch_json := fun _ _ => Ret (JObj [])
}.

(** Plaintexts without a usable [callId]. *)
Definition nameless_call : list (string * json) := [("duration", JNum 42)].

Definition numbered_call : list (string * json) := [("callId", JNum 7)].

Definition slashed_call : list (string * json) := [("callId", JStr "a/b")].

(** A plaintext whose identifier Firestore refuses for its length, and
    one whose identifier names a document below another. *)
Definition long_id : string := string_of_list_ascii (repeat "a"%char 1501).

Definition long_call : list (string * json) := [("callId", JStr long_id)].

Definition pathed_call : list (string * json) := [("callId", JStr "a/b/c")].

Definition nameless_envelope : list (string * json) :=
  Eval vm_compute in seal (JObj nameless_call) zero_salt.

Definition numbered_envelope : list (string * json) :=
  Eval vm_compute in seal (JObj numbered_call) zero_salt.

Definition slashed_envelope : list (string * json) :=
  Eval vm_compute in seal (JObj slashed_call) zero_salt.

Definition long_envelope : list (string * json) :=
  Eval vm_compute in seal (JObj long_call) zero_salt.

Definition pathed_envelope : list (string * json) :=
  Eval vm_compute in seal (JObj pathed_call) zero_salt.



Definition number_envelope : list (string * json) :=
  Eval vm_compute in seal (JNum 5) zero_salt.

(** An envelope without a salt. *)
Definition saltless_envelope : list (string * json) := [("encrypted", JStr "00")].

(** What [encryptPayload] makes of [call_1] on its first call. *)
Definition first_envelope : list (string * json) :=
  Eval vm_compute in
    match fst (encryptPayload (Some (JObj call_1)) start) with
    | Ret (JObj envelope) => envelope
    | _ => []
    end.

(** A payload that brings a [_timestamp] of its own, and its
    ciphertext once stamped at the first reading of the clock. *)
Definition prestamped_call : list (string * json) :=
  [("callId", JStr "call_2"); ("_timestamp", JNum 5)].

Definition prestamped_ciphertext : string :=
  Eval vm_compute in
    ciphertext_of (seal (JObj (stamp 1700000000000 prestamped_call)) first_salt).

(** Session requests and worlds. *)
(** A store that holds a call log below another document. *)
Definition filed : state :=
  mkState (<["a/b/c" := JObj pathed_call]> ∅) [] 0 0.

Definition idle : world := mkWorld ∅ [] 0 0.

Definition new_session_request : list (string * json) :=
  [("userId", JNum 0); ("assistantOverride", JStr "assistant_1")].

Definition running_session : list (string * json) :=
  [("callId", JStr "c1"); ("status", JStr "initiated");
   ("userId", JStr "user_1");
   ("microphone", JObj [("checked", JBool false); ("allowed", JBool false)])].

Definition running : world := mkWorld (<["c1" := running_session]> ∅) [] 0 0.

Definition status_request : list (string * json) :=
  [("callId", JStr "c1"); ("status", JStr "connected");
   ("microphone", JObj [("allowed", JBool true)])].

Definition end_request : list (string * json) :=
  [("callId", JStr "c1"); ("duration", JNum 0); ("summary", JStr "done")].


End Requests.


(** * Properties *)

(** Unfolding the monad. *)
Ltac run :=
  unfold decryptPayload, decryptPayload_try, try_catch, bind, js_get, lift,
    createHmac_digest, pbkdf2, decipher, emit, ret, throw, Date_toISOString,
    Date_now, bind, ret; simpl.

Ltac enter :=
  unfold saveVapiCallLog, saveVapiCallLog_try, try_catch, bind,
    Date_toISOString, Date_now, js_get, lift, ret, bind, ret; simpl.

Ltac unfold_all :=
  unfold saveVapiCallLog, saveVapiCallLog_try, firestore_set,
    decryptPayload, decryptPayload_try, try_catch, bind, js_get, lift,
    createHmac_digest, pbkdf2, decipher, emit, ret, throw, Date_toISOString,
    Date_now, bind, ret; simpl.

(** Case analysis on whatever the goal branches on, innermost first. *)
Ltac break :=
  repeat match goal with
  | |- context [match ?x with _ => _ end] =>
      lazymatch x with
      | context [match _ with _ => _ end] => fail
      | _ => destruct x eqn:?
      end; simpl
  end.

(** ** Objects *)

Lemma lookup_set_same k v o : Obj.lookup k (Obj.set k v o) = Some v.
Proof.
  induction o as [|[k' v'] o IH]; simpl.
  - now rewrite String.eqb_refl.
  - destruct (String.eqb k k') eqn:E; simpl; rewrite E; auto.
Qed.

Lemma lookup_set_other k k' v o :
  k <> k' -> Obj.lookup k (Obj.set k' v o) = Obj.lookup k o.
Proof.
  intros Hne. induction o as [|[k2 v2] o IH]; simpl.
  - destruct (String.eqb k k') eqn:E; auto.
    apply String.eqb_eq in E. contradiction.
  - destruct (String.eqb k' k2) eqn:E; simpl.
    + apply String.eqb_eq in E. subst k2.
      destruct (String.eqb k k') eqn:E2; auto.
      apply String.eqb_eq in E2. contradiction.
    + destruct (String.eqb k k2); auto.
Qed.

Lemma delete_absent k o : Obj.lookup k o = None -> Obj.delete k o = o.
Proof.
  induction o as [|[k' v'] o IH]; simpl; auto.
  destruct (String.eqb k k'); [discriminate|].
  intros H. now rewrite IH.
Qed.

Lemma delete_set_same k v o : Obj.delete k (Obj.set k v o) = Obj.delete k o.
Proof.
  induction o as [|[k' v'] o IH]; simpl.
  - now rewrite String.eqb_refl.
  - destruct (String.eqb k k') eqn:E; simpl; rewrite E; auto.
    now rewrite IH.
Qed.

Lemma delete_set_other k k' v o :
  k <> k' -> Obj.delete k (Obj.set k' v o) = Obj.set k' v (Obj.delete k o).
Proof.
  intros Hne. induction o as [|[k2 v2] o IH]; simpl.
  - destruct (String.eqb k k') eqn:E; auto.
    apply String.eqb_eq in E. contradiction.
  - destruct (String.eqb k' k2) eqn:E; simpl.
    + apply String.eqb_eq in E. subst k2.
      destruct (String.eqb k k') eqn:E2.
      * apply String.eqb_eq in E2. contradiction.
      * simpl. now rewrite String.eqb_refl.
    + destruct (String.eqb k k2) eqn:E2; simpl; rewrite ?E; auto.
      now rewrite IH.
Qed.


Lemma lookup_delete_other k k' o :
  k <> k' -> Obj.lookup k (Obj.delete k' o) = Obj.lookup k o.
Proof.
  intros Hne. induction o as [|[k2 v2] o IH]; simpl; auto.
  destruct (String.eqb k' k2) eqn:E; simpl.
  - apply String.eqb_eq in E. subst k2.
    destruct (String.eqb k k') eqn:E2; auto.
    apply String.eqb_eq in E2. contradiction.
  - destruct (String.eqb k k2); auto.
Qed.

(** Stamping a payload and stripping it again removes exactly the two
    internal fields. *)
Lemma strip_stamp (o : list (string * json)) (t v : json) :
  Obj.delete "_version"
    (Obj.delete "_timestamp"
       (Obj.set "_version" v (Obj.set "_timestamp" t o)))
  = Obj.delete "_version" (Obj.delete "_timestamp" o).
Proof.
  rewrite delete_set_other by discriminate.
  now rewrite delete_set_same, delete_set_same.
Qed.

(** ** Hexadecimal *)

Lemma hex_byte_roundtrip (b : byte) (rest : string) :
  Buffer_from_hex (byte_to_hex b rest) = b :: Buffer_from_hex rest.
Proof. destruct b; reflexivity. Qed.

Lemma hex_roundtrip (b : list byte) :
  Buffer_from_hex (Buffer_toString_hex b) = b.
Proof.
  induction b as [|x b IH]; [reflexivity|].
  unfold Buffer_toString_hex in *. simpl fold_right.
  now rewrite hex_byte_roundtrip, IH.
Qed.

(** ** Strings *)

Lemma length_append (s t : string) :
  String.length (s +:+ t) = (String.length s + String.length t)%nat.
Proof. induction s as [|c s IH]; simpl; auto. Qed.

Lemma length_string_of_list (l : list ascii) :
  String.length (string_of_list_ascii l) = length l.
Proof. induction l as [|c l IH]; simpl; auto. Qed.

Lemma length_substring0 (m : nat) (s : string) :
  String.length (String.substring 0 m s) = Nat.min m (String.length s).
Proof.
  revert m. induction s as [|c s IH]; intros [|m]; simpl; auto.
Qed.


Lemma substring0_append (m : nat) (s t : string) :
  String.substring 0 m (s +:+ t) =
    if (m <=? String.length s)%nat then String.substring 0 m s
    else s +:+ String.substring 0 (m - String.length s) t.
Proof.
  revert m. induction s as [|c s IH]; intros [|m]; simpl; auto.
  - now destruct t.
  - rewrite IH. now destruct (m <=? String.length s)%nat.
Qed.

Lemma substring0_repeat (k n : nat) (c : ascii) :
  String.substring 0 k (string_of_list_ascii (repeat c n))
  = string_of_list_ascii (repeat c (Nat.min k n)).
Proof.
  revert k. induction n as [|n IH]; intros [|k]; simpl; auto.
  now rewrite IH.
Qed.

Lemma padEnd_slice_is_pad_and_truncate (s : string) :
  slice0 (padEnd s 16 "0") 16 = padded_and_truncated s.
Proof.
  unfold slice0, padEnd, padded_and_truncated.
  change "0000000000000000" with (string_of_list_ascii (repeat "0"%char 16)).
  rewrite !substring0_append.
  destruct (16 <=? String.length s)%nat eqn:E; [reflexivity|].
  apply Nat.leb_gt in E. f_equal.
  rewrite !substring0_repeat. f_equal. f_equal. lia.
Qed.

Lemma length_padEnd_slice (s : string) :
  String.length (slice0 (padEnd s 16 "0") 16) = 16%nat.
Proof.
  unfold slice0, padEnd.
  rewrite length_substring0, length_append, length_string_of_list, repeat_length.
  lia.
Qed.

Lemma length_utf8_ascii (s : string) :
  forallb is_ascii (list_ascii_of_string s) = true ->
  length (Buffer_from_utf8 s) = String.length s.
Proof.
  unfold Buffer_from_utf8.
  induction s as [|c s IH]; simpl; auto.
  intros H. apply andb_true_iff in H as [Hc Hs].
  unfold utf8_unit at 1. unfold is_ascii in Hc. rewrite Hc. simpl.
  now rewrite IH.
Qed.

Section Properties.

Context {R : NodeRuntime}.

(** ** Running the handlers *)

Lemma lookup_stripped (k : string) (payload : list (string * json)) :
  k <> "_timestamp" -> k <> "_version" ->
  Obj.lookup k (stripped payload) = Obj.lookup k payload.
Proof.
  intros H1 H2. unfold stripped.
  now rewrite !lookup_delete_other.
Qed.

Lemma document_domain_fields (timestamp k : string)
    (payload : list (string * json)) :
  k <> "createdAt" -> k <> "savedAt" -> k <> "encryptionMetadata" ->
  property (Some (document timestamp payload)) k = Ret (Obj.lookup k payload).
Proof.
  intros H1 H2 H3. unfold document, property.
  now rewrite !lookup_set_other.
Qed.

(** ** Document paths *)

Lemma split_path_plain (s : string) :
  no_slash s = true -> split_path s = [s].
Proof.
  unfold no_slash. induction s as [|c s IH]; simpl; [reflexivity|].
  intros H. apply andb_true_iff in H as [Hc Hs].
  apply negb_true_iff in Hc. rewrite Hc, (IH Hs). reflexivity.
Qed.

Lemma double_slash_plain (s : string) :
  no_slash s = true -> double_slash s = false.
Proof.
  unfold no_slash. induction s as [|a s IH]; simpl; [reflexivity|].
  intros H. apply andb_true_iff in H as [Ha Hs].
  apply negb_true_iff in Ha. rewrite Ha. simpl.
  destruct s as [|b s']; [reflexivity|]. exact (IH Hs).
Qed.

(** A plain identifier names the document of that name. *)
Lemma document_key_plain (s : string) :
  plain s = true -> document_key s = Some s /\ document_id s = s.
Proof.
  unfold plain, document_key, document_id, segments.
  intros H. apply andb_true_iff in H as [Hne Hs].
  rewrite (split_path_plain s Hs), (double_slash_plain s Hs).
  apply negb_true_iff in Hne. rewrite Hne. simpl. rewrite Hne. simpl.
  split; reflexivity.
Qed.

Lemma concat_nonempty (seg : string) (segs : list string) :
  seg <> "" -> String.concat "/" (seg :: segs) <> "".
Proof.
  intros Hne. destruct seg as [|c seg]; [contradiction|].
  destruct segs; simpl; discriminate.
Qed.

(** The key of a document is never empty. *)
Lemma document_key_nonempty (path key : string) :
  document_key path = Some key -> key <> "".
Proof.
  unfold document_key, segments.
  destruct (String.eqb path ""); [discriminate|].
  destruct (double_slash path); [discriminate|].
  destruct (List.filter _ (split_path path)) as [|seg segs] eqn:E;
    [discriminate|].
  destruct (Nat.odd _); [|discriminate]. intros [= <-].
  apply concat_nonempty.
  assert (Hin : In seg (List.filter (fun seg => negb (String.eqb seg ""))
                          (split_path path))) by (rewrite E; now left).
  apply List.filter_In in Hin as [_ Hseg].
  apply negb_true_iff, String.eqb_neq in Hseg. exact Hseg.
Qed.

Lemma doc_ref_key (id : jsval) (key : string) :
  doc_ref id = Ret key ->
  key <> "" /\ exists path, id = Some (JStr path) /\ document_key path = Some key.
Proof.
  unfold doc_ref. destruct id as [[| | |path| |]|]; try discriminate.
  destruct (document_key path) as [k|] eqn:E; [|discriminate].
  intros [= <-]. split; [now apply (document_key_nonempty path)|eauto].
Qed.

Lemma doc_ref_nonempty (id : jsval) (key : string) :
  doc_ref id = Ret key -> key <> "".
Proof. intros H. now apply doc_ref_key in H. Qed.

Lemma doc_ref_of_key (path key : string) :
  document_key path = Some key -> doc_ref (Some (JStr path)) = Ret key.
Proof. unfold doc_ref. now intros ->. Qed.

Lemma fresh_spec (now : Z) (payload : list (string * json)) :
  fresh now payload = true ->
  prints (Obj.lookup "_timestamp" payload) = true /\
  js_gt (age_at now payload) 300000 = false.
Proof.
  unfold fresh. intros H. apply andb_true_iff in H as [Hp Hage].
  now apply negb_true_iff in Hage.
Qed.

(** An envelope that decodes to a payload whose [_timestamp] converts
    reaches the freshness check, which alone decides the result; no call
    before it is a persistence call, and the key derivation and the
    cipher have been called. *)
Lemma decryptPayload_decoded (fields payload : list (string * json)) (st : state) :
  Decodes fields payload ->
  prints (Obj.lookup "_timestamp" payload) = true ->
  exists evs,
    Forall (fun e => persistence_call e = false) evs /\
    (existsb key_derivation_call evs = true /\
     existsb cipher_call evs = true) /\
    decryptPayload (Some (JObj fields)) st =
      let now := clock_ms (st_clock st) in
      if js_gt (age_at now payload) 300000 then
        (Ret (expired now payload),
         mkState (st_db st) (st_trace st ++ evs) (S (st_clock st)) (st_random st))
      else
        (Ret (accepted payload (toISOString (clock_ms (S (st_clock st))))),
         mkState (st_db st) (st_trace st ++ evs) (S (S (st_clock st)))
                 (st_random st)).
Proof.
  intros (ct & plaintext & salt & Hct & Hsalt & Hdec & Hparse) Hprints.
  unfold documented_key, documented_iv, documented_iv_string in Hdec.
  run. rewrite Hct.
  destruct (truthy (Obj.lookup "signature" fields)); simpl;
    rewrite Hsalt, Hdec, Hparse; simpl;
    unfold ToNumber; rewrite Hprints; simpl;
    change (5 * 60 * 1000) with 300000; unfold age_at;
    destruct (js_gt _ 300000); simpl;
    eexists; (split; [|split; [|rewrite <- !app_assoc; simpl; reflexivity]]);
    repeat constructor.
Qed.

(** When the [_timestamp] of the decoded payload does not convert, the
    subtraction throws and the result is a decryption error. *)
Lemma decryptPayload_unconvertible (fields payload : list (string * json))
    (st : state) :
  Decodes fields payload ->
  prints (Obj.lookup "_timestamp" payload) = false ->
  exists evs,
    decryptPayload (Some (JObj fields)) st
    = (Ret (failed (native_message "ToPrimitive"
                      (Obj.lookup "_timestamp" payload))),
       mkState (st_db st) (st_trace st ++ evs) (S (st_clock st))
               (st_random st)).
Proof.
  intros (ct & plaintext & salt & Hct & Hsalt & Hdec & Hparse) Hprints.
  unfold documented_key, documented_iv, documented_iv_string in Hdec.
  run. rewrite Hct.
  destruct (truthy (Obj.lookup "signature" fields)); simpl;
    rewrite Hsalt, Hdec, Hparse; simpl;
    unfold ToNumber; rewrite Hprints; simpl;
    eexists; rewrite <- !app_assoc; simpl; reflexivity.
Qed.

Lemma decryptPayload_total (v : jsval) (st : state) :
  exists r st', decryptPayload v st = (Ret r, st').
Proof.
  unfold decryptPayload, try_catch, ret.
  destruct (decryptPayload_try v st) as [[r|m] s']; eauto.
Qed.

Lemma saveVapiCallLog_total (v : jsval) (st : state) :
  exists resp st', saveVapiCallLog v st = (Ret resp, st').
Proof.
  unfold saveVapiCallLog, try_catch, bind, Date_toISOString, Date_now, bind, ret.
  simpl.
  match goal with |- context [saveVapiCallLog_try ?t ?b ?s] =>
    destruct (saveVapiCallLog_try t b s) as [[r|m] s'] end; eauto.
Qed.

(** Whatever the envelope, [decryptPayload] leaves the store alone and
    calls the libraries only as [decrypt_call] says. *)
Lemma decryptPayload_calls (envelope : jsval) (st : state) :
  exists evs,
    st_trace (snd (decryptPayload envelope st)) = (st_trace st ++ evs)%list /\
    st_db (snd (decryptPayload envelope st)) = st_db st /\
    Forall (decrypt_call envelope) evs.
Proof.
  unfold decryptPayload, decryptPayload_try, try_catch, bind, js_get, lift,
    createHmac_digest, pbkdf2, decipher, emit, ret, throw, Date_toISOString,
    Date_now, bind, ret; simpl.
  break; subst;
    (first
       [ exists []; rewrite app_nil_r; split; [reflexivity|];
         split; [reflexivity|constructor]
       | eexists; split; [rewrite <- !app_assoc; simpl; reflexivity|];
         split; [reflexivity|];
         repeat constructor; unfold documented_iv, documented_iv_string,
           documented_key; simpl; eauto 10 ]).
Qed.

Lemma encryptPayload_runs (payload : jsval) (ct : string) (st : state) :
  let t := clock_ms (st_clock st) in
  let salt := random_bytes (st_random st) 16 in
  cipher_utf8_hex "aes-256-cbc" (documented_key salt) documented_iv
    (JSON_stringify (JObj (stamp t (spread payload)))) = Ret ct ->
  exists evs,
    encryptPayload payload st =
      (Ret (JObj (envelope_of ct salt t)),
       mkState (st_db st) (st_trace st ++ evs) (S (st_clock st))
               (S (st_random st))).
Proof.
  intros t salt Henc.
  unfold documented_key, documented_iv, documented_iv_string, stamp in Henc.
  unfold encryptPayload, encryptPayload_try, try_catch, bind, Date_now,
    randomBytes, pbkdf2, cipher, createHmac_digest, emit, lift, ret, bind, ret.
  simpl. fold t salt. rewrite Henc. simpl.
  eexists. rewrite <- !app_assoc. simpl. reflexivity.
Qed.

(** Whatever the payload, [encryptPayload] leaves the store alone,
    calls the libraries only as [encrypt_call] says and returns an
    object, which carries the salt in hexadecimal when it reports
    success. *)
Lemma encryptPayload_calls (payload : jsval) (st : state) :
  exists evs,
    st_trace (snd (encryptPayload payload st)) = (st_trace st ++ evs)%list /\
    st_db (snd (encryptPayload payload st)) = st_db st /\
    Forall (encrypt_call st) evs /\
    exists envelope,
      fst (encryptPayload payload st) = Ret (JObj envelope) /\
      (Obj.lookup "success" envelope = Some (JBool true) ->
       Obj.lookup "salt" envelope
         = Some (JStr (Buffer_toString_hex (random_bytes (st_random st) 16)))).
Proof.
  unfold encryptPayload, encryptPayload_try, try_catch, bind, Date_now,
    randomBytes, pbkdf2, cipher, createHmac_digest, emit, lift, ret, bind, ret.
  simpl. break; subst;
    (eexists; split; [rewrite <- !app_assoc; simpl; reflexivity|];
     split; [reflexivity|]; split;
     [ repeat constructor; unfold documented_iv, documented_iv_string,
         documented_key; simpl; auto
     | eexists; split; [reflexivity|]; simpl; intros; congruence ]).
Qed.

Lemma envelope_decodes (ct : string) (salt : list byte) (t : Z)
    (plaintext : string) (payload : list (string * json)) :
  decipher_hex_utf8 "aes-256-cbc" (documented_key salt) documented_iv ct
    = Ret plaintext ->
  JSON_parse plaintext = Ret (JObj payload) ->
  Decodes (envelope_of ct salt t) payload.
Proof.
  intros Hdec Hparse. exists ct, plaintext, salt.
  repeat split; auto. simpl. now rewrite hex_roundtrip.
Qed.

(** A fresh payload with an identifier that Firestore takes is stored
    under that identifier. *)
Lemma document_key_truthy (id key : string) :
  document_key id = Some key -> truthy (Some (JStr id)) = true.
Proof.
  unfold document_key. simpl.
  destruct (String.eqb id ""); [discriminate|reflexivity].
Qed.

Lemma fresh_payload_is_stored (fields payload : list (string * json))
    (id key : string) (st : state) :
  let timestamp := toISOString (clock_ms (st_clock st)) in
  let doc := document timestamp (stripped payload) in
  Decodes fields payload ->
  truthy (Obj.lookup "encrypted" fields) = true ->
  fresh (clock_ms (S (st_clock st))) payload = true ->
  Obj.lookup "callId" (stripped payload) = Some (JStr id) ->
  document_key id = Some key ->
  firestore_commit "vapiCallLogs" key doc = Ret tt ->
  exists resp evs,
    saveVapiCallLog (Some (JObj fields)) st
      = (Ret resp,
         mkState (<[key := doc]> (st_db st)) (st_trace st ++ evs)
                 (S (S (S (st_clock st)))) (st_random st)) /\
    status resp = 200 /\
    response_code resp = Some (JStr "CALL_LOG_SAVED_ENCRYPTED") /\
    existsb key_derivation_call evs = true /\
    existsb cipher_call evs = true /\
    In (EvFirestoreSet "vapiCallLogs" (Some (JStr key)) doc) evs.
Proof.
  intros timestamp doc Hdec Hgate Hfresh Hid Hkey Hcommit.
  apply fresh_spec in Hfresh as [Hprints Hfresh].
  destruct (decryptPayload_decoded fields payload (entered st) Hdec Hprints)
    as (evs & _ & (Hkdf & Hciph) & Hrun).
  simpl in Hrun. rewrite Hfresh in Hrun.
  pose proof (document_key_truthy id key Hkey) as Htruthy.
  enter. rewrite Hgate. simpl. fold (entered st). rewrite Hrun. simpl.
  rewrite Hid. rewrite Htruthy. simpl.
  unfold firestore_set, bind, emit, lift.
  rewrite (doc_ref_of_key id key Hkey). simpl.
  fold timestamp. fold (document timestamp (stripped payload)). fold doc.
  rewrite Hcommit. simpl.
  eexists _, (evs ++ [EvFirestoreSet "vapiCallLogs" (Some (JStr key)) doc])%list.
  split; [rewrite <- app_assoc; reflexivity|].
  rewrite !existsb_app, Hkdf, Hciph.
  repeat split. apply in_or_app. right. now left.
Qed.

(** Two envelopes with the same ciphertext and salt, each with some
    signature, are ingested alike: only the logged verdict can differ. *)
Lemma signature_is_only_logged (f1 f2 : list (string * json)) (ct : string)
    (st : state) :
  Obj.lookup "encrypted" f1 = Some (JStr ct) ->
  Obj.lookup "encrypted" f2 = Some (JStr ct) ->
  Obj.lookup "salt" f1 = Obj.lookup "salt" f2 ->
  truthy (Obj.lookup "signature" f1) = true ->
  truthy (Obj.lookup "signature" f2) = true ->
  let run1 := saveVapiCallLog (Some (JObj f1)) st in
  let run2 := saveVapiCallLog (Some (JObj f2)) st in
  fst run1 = fst run2 /\
  st_db (snd run1) = st_db (snd run2) /\
  without_verdicts (st_trace (snd run1)) = without_verdicts (st_trace (snd run2)).
Proof.
  intros H1 H2 Hsalt Hs1 Hs2. unfold_all.
  rewrite H1, H2, Hs1, Hs2, Hsalt. simpl.
  break; repeat split; unfold without_verdicts;
    rewrite ?List.filter_app; simpl; reflexivity.
Qed.

(** The handler reads three properties of the request body and no
    other. *)
Lemma other_fields_are_not_read (fields : list (string * json)) (k : string)
    (v : json) (st : state) :
  k <> "encrypted" -> k <> "salt" -> k <> "signature" ->
  saveVapiCallLog (Some (JObj (Obj.set k v fields))) st
  = saveVapiCallLog (Some (JObj fields)) st.
Proof.
  intros H1 H2 H3. unfold_all.
  rewrite !lookup_set_other by congruence. reflexivity.
Qed.

(** A request answered with 200 had its ciphertext, a non-empty string,
    in [encrypted], and that string went to the cipher. *)
Lemma accepted_reads_encrypted (envelope : jsval) (st : state)
    (resp : response) (st' : state) :
  saveVapiCallLog envelope st = (Ret resp, st') ->
  status resp = 200 ->
  exists ct key iv,
    property envelope "encrypted" = Ret (Some (JStr ct)) /\
    ct <> "" /\
    In (EvDecipheriv "aes-256-cbc" key iv (Some (JStr ct)))
       (events_of (saveVapiCallLog envelope) st).
Proof.
  intros Hrun. unfold events_of. rewrite Hrun. revert Hrun.
  unfold_all. break; intros [= <- <-] Hs; simpl in Hs; try discriminate;
    subst;
    (eexists _, _, _; split; [reflexivity|]; split;
     [ intros ->; simpl in *; discriminate
     | simpl; rewrite <- !app_assoc, drop_app_length; simpl; tauto ]).
Qed.

(** A request whose [encrypted] is the boolean [true] passes the test of the flag
    and fails in decryption. *)
Lemma boolean_flag_is_undecipherable (fields : list (string * json))
    (st : state) :
  Obj.lookup "encrypted" fields = Some (JBool true) ->
  exists message st',
    saveVapiCallLog (Some (JObj fields)) st
      = (Ret (decryption_failed_response message
                (toISOString (clock_ms (st_clock st)))), st') /\
    st_db st' = st_db st.
Proof.
  intros H. unfold_all. rewrite H. simpl.
  break; eexists _, _; (split; [reflexivity|reflexivity]).
Qed.

Lemma Forall_keyed_decrypt (envelope : jsval) (evs : list event) :
  Forall (decrypt_call envelope) evs ->
  Forall (keyed_by (salt_of envelope)) evs.
Proof.
  intros Hall. eapply Forall_impl; [exact Hall|].
  intros [] H; simpl in *; auto; try contradiction.
  destruct H as (_ & _ & _ & v & s & Hv & Hs & ->).
  exists s. split; [now exists v|reflexivity].
Qed.

Lemma Forall_keyed_encrypt (st : state) (evs : list event) :
  Forall (encrypt_call st) evs ->
  Forall (keyed_by (fun s => s = random_bytes (st_random st) 16)) evs.
Proof.
  intros Hall. eapply Forall_impl; [exact Hall|].
  intros [] H; simpl in *; auto; try contradiction; try tauto.
  destruct H as (_ & _ & ->). eexists. split; reflexivity.
Qed.

Lemma Forall_iv_decrypt (envelope : jsval) (evs : list event) :
  Forall (decrypt_call envelope) evs -> Forall (uses_iv documented_iv) evs.
Proof.
  intros Hall. eapply Forall_impl; [exact Hall|].
  intros [] H; simpl in *; auto; try contradiction. tauto.
Qed.

Lemma Forall_iv_encrypt (st : state) (evs : list event) :
  Forall (encrypt_call st) evs -> Forall (uses_iv documented_iv) evs.
Proof.
  intros Hall. eapply Forall_impl; [exact Hall|].
  intros [] H; simpl in *; auto; try contradiction. tauto.
Qed.

(** The stamp of the encoder is a number, which converts. *)
Lemma prints_stamp (t : Z) (o : list (string * json)) :
  prints (Obj.lookup "_timestamp" (stamp t o)) = true.
Proof.
  unfold stamp. rewrite lookup_set_other by discriminate.
  now rewrite lookup_set_same.
Qed.

(** ** The claims *)

(** C1. Round trip.  A payload object [o] without [_timestamp] and
    [_version], whose stamped form survives [JSON.stringify] and
    [JSON.parse] and whose text the cipher takes and gives back, is
    encrypted by [encryptPayload] into an envelope that [decryptPayload],
    called next and within the window, answers with success and with
    [o] itself as data: the two internal fields are absent from it. *)
Theorem encrypt_then_decrypt (o : list (string * json)) (ct : string)
    (st : state) :
  let t := clock_ms (st_clock st) in
  let salt := random_bytes (st_random st) 16 in
  let text := JSON_stringify (JObj (stamp t o)) in
  Obj.lookup "_timestamp" o = None ->
  Obj.lookup "_version" o = None ->
  JSON_parse text = Ret (JObj (stamp t o)) ->
  cipher_utf8_hex "aes-256-cbc" (documented_key salt) documented_iv text
    = Ret ct ->
  decipher_hex_utf8 "aes-256-cbc" (documented_key salt) documented_iv ct
    = Ret text ->
  clock_ms (S (st_clock st)) - t <= 300000 ->
  exists envelope st1 r st2,
    encryptPayload (Some (JObj o)) st = (Ret envelope, st1) /\
    decryptPayload (Some envelope) st1 = (Ret r, st2) /\
    success r = true /\
    code r = "DECRYPTION_SUCCESS" /\
    data r = Some (JObj o) /\
    property (data r) "_timestamp" = Ret undefined /\
    property (data r) "_version" = Ret undefined.
Proof.
  intros t salt text Hts Hver Hjson Henc Hdec Hnow.
  destruct (encryptPayload_runs (Some (JObj o)) ct st Henc) as (evs & Hrun).
  fold t salt in Hrun.
  pose proof (envelope_decodes ct salt t text (stamp t o) Hdec Hjson) as Hd.
  destruct (decryptPayload_decoded _ _
              (mkState (st_db st) (st_trace st ++ evs) (S (st_clock st))
                       (S (st_random st))) Hd (prints_stamp t o))
    as (evs' & _ & _ & Hrun').
  simpl in Hrun'.
  assert (Hage : age_at (clock_ms (S (st_clock st))) (stamp t o)
                 = Some (clock_ms (S (st_clock st)) - t)).
  { unfold age_at, stamp.
    rewrite lookup_set_other by discriminate.
    now rewrite lookup_set_same. }
  rewrite Hage in Hrun'. simpl in Hrun'.
  assert (Hfresh : Z.ltb 300000 (clock_ms (S (st_clock st)) - t) = false)
    by (apply Z.ltb_ge; lia).
  rewrite Hfresh in Hrun'.
  assert (Hstrip : stripped (stamp t o) = o).
  { unfold stripped, stamp. rewrite strip_stamp.
    now rewrite (delete_absent "_timestamp" o Hts), (delete_absent "_version" o Hver). }
  eexists _, _, _, _. split; [exact Hrun|]. split; [exact Hrun'|].
  unfold accepted. simpl. rewrite Hstrip.
  repeat split; unfold property, undefined; f_equal; assumption.
Qed.

(** C2. Freshness.  For an envelope that decodes to a payload with the
    integer [_timestamp] [ts], with [now] the time [decryptPayload]
    reads: when [now - ts > 300000] (that is [ts <= now - 300001]) the
    handler answers 403 [REPLAY_ATTACK_DETECTED], leaves the store as it
    was and makes no persistence call; when [now - ts <= 300000] the
    freshness check passes, [decryptPayload] succeeds and the answer is
    not the replay error. *)
Theorem freshness_window (fields payload : list (string * json)) (ts : Z)
    (st : state) :
  Decodes fields payload ->
  truthy (Obj.lookup "encrypted" fields) = true ->
  Obj.lookup "_timestamp" payload = Some (JNum ts) ->
  let now := clock_ms (S (st_clock st)) in
  (now - ts > 300000 <-> ts <= now - 300001) /\
  exists resp st',
    saveVapiCallLog (Some (JObj fields)) st = (Ret resp, st') /\
    (now - ts > 300000 ->
       resp = replay_response (toISOString (clock_ms (st_clock st))) /\
       st_db st' = st_db st /\
       exists evs, st_trace st' = (st_trace st ++ evs)%list /\
                   Forall (fun e => persistence_call e = false) evs) /\
    (now - ts <= 300000 ->
       fst (decryptPayload (Some (JObj fields)) (entered st))
         = Ret (accepted payload (toISOString (clock_ms (S (S (st_clock st)))))) /\
       response_code resp <> Some (JStr "REPLAY_ATTACK_DETECTED")).
Proof.
  intros Hdec Hgate Hts now.
  split; [lia|].
  assert (Hprints : prints (Obj.lookup "_timestamp" payload) = true)
    by now rewrite Hts.
  destruct (decryptPayload_decoded fields payload (entered st) Hdec Hprints)
    as (evs & Hevs & _ & Hrun).
  simpl in Hrun. fold now in Hrun.
  assert (Hage : age_at now payload = Some (now - ts)).
  { unfold age_at. rewrite Hts. reflexivity. }
  rewrite Hage in Hrun. simpl in Hrun.
  destruct (Z.ltb 300000 (now - ts)) eqn:Hcmp.
  - apply Z.ltb_lt in Hcmp.
    eexists _, _. split.
    + enter. rewrite Hgate. simpl. fold (entered st). rewrite Hrun. simpl.
      reflexivity.
    + split; [|lia]. intros _. split; [reflexivity|]. split; [reflexivity|].
      simpl. eauto.
  - apply Z.ltb_ge in Hcmp.
    destruct (saveVapiCallLog_total (Some (JObj fields)) st) as (resp & st' & Hsave).
    exists resp, st'. split; [exact Hsave|]. split; [lia|].
    intros _. split; [now rewrite Hrun|].
    revert Hsave. enter. rewrite Hgate. simpl. fold (entered st).
    rewrite Hrun. simpl.
    destruct (negb (truthy (Obj.lookup "callId" (stripped payload)))).
    + intros [= <- <-]. unfold response_code. simpl. discriminate.
    + match goal with |- context [firestore_set ?c ?i ?d ?s] =>
        destruct (firestore_set c i d s) as [[u|m] s1] end;
        intros [= <- <-]; unfold response_code; simpl; discriminate.
Qed.

(** C3. Signature policy.  An envelope whose signature is present and
    differs from the keyed hash of its ciphertext is ingested exactly as
    the same envelope carrying the right signature: same response, same
    store, same library calls, the logged verdict apart.  In particular,
    when it decodes to a payload that passes the freshness check, with
    an identifier that names a document and that Firestore takes, the
    key is derived, the ciphertext deciphered and the document stored,
    and the answer is 200. *)
Theorem signature_mismatch_is_not_fatal (fields : list (string * json))
    (ct : string) (sig : json) (st : state) :
  Obj.lookup "encrypted" fields = Some (JStr ct) ->
  Obj.lookup "signature" fields = Some sig ->
  truthy (Some sig) = true ->
  same_string (Some sig) (hmac_sha256_hex ENCRYPTION_KEY ct) = false ->
  hmac_sha256_hex ENCRYPTION_KEY ct <> "" ->
  let signed :=
    Obj.set "signature" (JStr (hmac_sha256_hex ENCRYPTION_KEY ct)) fields in
  let run := saveVapiCallLog (Some (JObj fields)) st in
  let reference := saveVapiCallLog (Some (JObj signed)) st in
  (fst run = fst reference /\
   st_db (snd run) = st_db (snd reference) /\
   without_verdicts (st_trace (snd run))
     = without_verdicts (st_trace (snd reference))) /\
  (forall payload id key,
     let doc := document (toISOString (clock_ms (st_clock st)))
                         (stripped payload) in
     Decodes fields payload ->
     ct <> "" ->
     fresh (clock_ms (S (st_clock st))) payload = true ->
     Obj.lookup "callId" payload = Some (JStr id) ->
     document_key id = Some key ->
     firestore_commit "vapiCallLogs" key doc = Ret tt ->
     exists resp,
       fst run = Ret resp /\
       status resp = 200 /\
       st_db (snd run) !! key = Some doc /\
       existsb key_derivation_call (events_of (saveVapiCallLog (Some (JObj fields))) st) = true /\
       existsb cipher_call (events_of (saveVapiCallLog (Some (JObj fields))) st) = true /\
       existsb persistence_call (events_of (saveVapiCallLog (Some (JObj fields))) st) = true).
Proof.
  intros Hct Hsig Htruthy Hmismatch Hdigest signed run reference.
  split.
  - apply (signature_is_only_logged fields signed ct st); auto.
    + unfold signed. now rewrite lookup_set_other.
    + unfold signed. now rewrite lookup_set_other.
    + now rewrite Hsig.
    + unfold signed. rewrite lookup_set_same. simpl.
      apply String.eqb_neq in Hdigest. now rewrite Hdigest.
  - intros payload id key doc Hdec Hne Hfresh Hid Hkey Hcommit.
    rewrite <- (lookup_stripped "callId" payload) in Hid by discriminate.
    assert (Hgate : truthy (Obj.lookup "encrypted" fields) = true).
    { rewrite Hct. simpl. apply String.eqb_neq in Hne. now rewrite Hne. }
    destruct (fresh_payload_is_stored fields payload id key st Hdec Hgate
                Hfresh Hid Hkey Hcommit)
      as (resp & evs & Hrun & Hstatus & _ & Hkdf & Hciph & Hin).
    exists resp. unfold run, events_of. rewrite Hrun. simpl.
    rewrite drop_app_length.
    repeat split; auto.
    + apply lookup_insert_eq.
    + apply existsb_exists. eexists. split; [exact Hin|reflexivity].
Qed.

(** C4. Unencrypted requests.  When [encrypted] is absent or [false]
    the handler answers 400 [UNENCRYPTED_DATA] and has called nothing:
    the trace and the store are as before, so no key was derived, nothing
    was deciphered and nothing was persisted. *)
Theorem unencrypted_is_rejected_first (envelope : jsval) (st : state) :
  property envelope "encrypted" = Ret undefined \/
  property envelope "encrypted" = Ret (Some (JBool false)) ->
  exists st',
    saveVapiCallLog envelope st
      = (Ret (unencrypted_response (toISOString (clock_ms (st_clock st)))), st') /\
    response_code (unencrypted_response (toISOString (clock_ms (st_clock st))))
      = Some (JStr "UNENCRYPTED_DATA") /\
    st_trace st' = st_trace st /\
    st_db st' = st_db st /\
    events_of (saveVapiCallLog envelope) st = [].
Proof.
  intros H.
  assert (Hrun : saveVapiCallLog envelope st
                 = (Ret (unencrypted_response (toISOString (clock_ms (st_clock st)))),
                    entered st)).
  { enter. destruct H as [-> | ->]; reflexivity. }
  exists (entered st). split; [exact Hrun|].
  repeat split. unfold events_of. rewrite Hrun. simpl. apply drop_all.
Qed.

(** Where the handler takes the ciphertext from: a request answered
    with 200 had a non-empty string in the property [encrypted], and
    that string is what was deciphered; properties named
    [encryptedData] or [ciphertext] are not read; and a request whose
    [encrypted] is the boolean [true] fails in decryption without
    touching the store. *)
Lemma ciphertext_travels_in_encrypted (envelope : jsval)
    (fields : list (string * json)) (st : state) :
  (forall resp st',
     saveVapiCallLog envelope st = (Ret resp, st') ->
     status resp = 200 ->
     exists ct key iv,
       property envelope "encrypted" = Ret (Some (JStr ct)) /\
       ct <> "" /\
       In (EvDecipheriv "aes-256-cbc" key iv (Some (JStr ct)))
          (events_of (saveVapiCallLog envelope) st)) /\
  (forall v,
     saveVapiCallLog (Some (JObj (Obj.set "encryptedData" v fields))) st
       = saveVapiCallLog (Some (JObj fields)) st /\
     saveVapiCallLog (Some (JObj (Obj.set "ciphertext" v fields))) st
       = saveVapiCallLog (Some (JObj fields)) st) /\
  (Obj.lookup "encrypted" fields = Some (JBool true) ->
   exists message st',
     saveVapiCallLog (Some (JObj fields)) st
       = (Ret (decryption_failed_response message
                 (toISOString (clock_ms (st_clock st)))), st') /\
     st_db st' = st_db st).
Proof.
  split; [|split].
  - intros resp st'. apply accepted_reads_encrypted.
  - intros v. split; apply other_fields_are_not_read; discriminate.
  - apply boolean_flag_is_undecipherable.
Qed.

(** C6. Key derivation.  [decryptPayload], on an envelope whose [salt]
    decodes (and whose [encrypted] is a string when a signature is to be
    checked), derives exactly one key, [pbkdf2Sync] of the configured
    secret and the envelope's salt with 1000 iterations, 32 bytes and
    SHA-256, and the one cipher call that follows is keyed by that
    value.  [encryptPayload], on every payload, derives exactly one key
    with the same parameters from the salt it draws, keys its cipher
    call by it, and returns that salt in hexadecimal.  Neither touches
    the store, and on no envelope at all does [decryptPayload] derive a
    key with other parameters. *)
Theorem key_derivation_parameters (fields : list (string * json))
    (payload : jsval) (salt : list byte) (st : state) :
  let key := pbkdf2Sync ENCRYPTION_KEY salt 1000 32 "sha256" in
  let drawn := random_bytes (st_random st) 16 in
  Buffer_from (Obj.lookup "salt" fields) = Ret salt ->
  (truthy (Obj.lookup "signature" fields) = true ->
   is_string (Obj.lookup "encrypted" fields) = true) ->
  (exists checks,
     events_of (decryptPayload (Some (JObj fields))) st
       = (checks ++
          [EvPbkdf2 ENCRYPTION_KEY salt 1000 32 "sha256";
           EvDecipheriv "aes-256-cbc" key documented_iv
             (Obj.lookup "encrypted" fields)])%list /\
     existsb key_derivation_call checks = false /\
     existsb cipher_call checks = false) /\
  st_db (snd (decryptPayload (Some (JObj fields)) st)) = st_db st /\
  (exists text rest made,
     events_of (encryptPayload payload) st
       = EvPbkdf2 ENCRYPTION_KEY drawn 1000 32 "sha256"
         :: EvCipheriv "aes-256-cbc"
              (pbkdf2Sync ENCRYPTION_KEY drawn 1000 32 "sha256")
              documented_iv text
         :: rest /\
     existsb key_derivation_call rest = false /\
     existsb cipher_call rest = false /\
     fst (encryptPayload payload st) = Ret (JObj made) /\
     (Obj.lookup "success" made = Some (JBool true) ->
      salt_of (Some (JObj made)) drawn)) /\
  st_db (snd (encryptPayload payload st)) = st_db st /\
  (forall envelope,
     exists evs,
       st_trace (snd (decryptPayload envelope st)) = (st_trace st ++ evs)%list /\
       Forall (keyed_by (salt_of envelope)) evs).
Proof.
  intros key drawn Hsalt Hsig.
  split; [|split; [|split; [|split]]].
  - unfold events_of, documented_iv, documented_iv_string, key. run.
    destruct (truthy (Obj.lookup "signature" fields)) eqn:Ht; simpl.
    + specialize (Hsig eq_refl).
      destruct (Obj.lookup "encrypted" fields) as [[| | |ct| |]|];
        try discriminate Hsig.
      simpl. rewrite Hsalt. simpl.
      exists [EvHmac ENCRYPTION_KEY ct;
              EvSignatureChecked
                (same_string (Obj.lookup "signature" fields)
                   (hmac_sha256_hex ENCRYPTION_KEY ct))].
      break; (split; [rewrite <- !app_assoc, drop_app_length; reflexivity|]);
        split; reflexivity.
    + rewrite Hsalt. simpl. exists [].
      break; (split; [rewrite <- !app_assoc, drop_app_length; reflexivity|]);
        split; reflexivity.
  - destruct (decryptPayload_calls (Some (JObj fields)) st) as (evs & _ & Hdb & _).
    exact Hdb.
  - unfold events_of, documented_iv, documented_iv_string, drawn.
    unfold encryptPayload, encryptPayload_try, try_catch, bind, Date_now,
      randomBytes, pbkdf2, cipher, createHmac_digest, emit, lift, ret, bind, ret.
    simpl.
    destruct (cipher_utf8_hex _ _ _ _) as [ct|m]; simpl;
      eexists _, _, _;
      (split; [rewrite <- !app_assoc, drop_app_length; simpl; reflexivity|]);
      (split; [reflexivity|]); (split; [reflexivity|]);
      (split; [reflexivity|]); simpl.
    + intros _. eexists. split; [reflexivity|]. simpl.
      now rewrite hex_roundtrip.
    + discriminate.
  - destruct (encryptPayload_calls payload st) as (evs & _ & Hdb & _).
    exact Hdb.
  - intros envelope.
    destruct (decryptPayload_calls envelope st) as (evs & Ht & _ & Hall).
    exists evs. split; [exact Ht|]. now apply Forall_keyed_decrypt.
Qed.

(** X25. The IV.  It is the configured string followed by zeros and cut
    to 16 characters, encoded in UTF-8, so it has 16 bytes exactly when
    those characters make 16 bytes, as ASCII characters do.  It is
    computed without the envelope, the payload or the state: the cipher
    call of [decryptPayload], on an envelope whose [salt] decodes, and
    the cipher call of [encryptPayload], on every payload, both receive
    it, and no cipher call of either receives another. *)
Theorem iv_is_fixed (fields : list (string * json)) (envelope payload : jsval)
    (st : state) :
  documented_iv_string = padded_and_truncated ENCRYPTION_IV /\
  String.length documented_iv_string = 16%nat /\
  (forallb is_ascii (list_ascii_of_string documented_iv_string) = true ->
   length documented_iv = 16%nat) /\
  (forall salt,
     Buffer_from (Obj.lookup "salt" fields) = Ret salt ->
     (truthy (Obj.lookup "signature" fields) = true ->
      is_string (Obj.lookup "encrypted" fields) = true) ->
     In (EvDecipheriv "aes-256-cbc" (documented_key salt) documented_iv
           (Obj.lookup "encrypted" fields))
        (events_of (decryptPayload (Some (JObj fields))) st)) /\
  (exists key text,
     In (EvCipheriv "aes-256-cbc" key documented_iv text)
        (events_of (encryptPayload payload) st)) /\
  (exists evs,
     st_trace (snd (decryptPayload envelope st)) = (st_trace st ++ evs)%list /\
     Forall (uses_iv documented_iv) evs) /\
  (exists evs,
     st_trace (snd (encryptPayload payload st)) = (st_trace st ++ evs)%list /\
     Forall (uses_iv documented_iv) evs).
Proof.
  split; [apply padEnd_slice_is_pad_and_truncate|].
  split; [apply length_padEnd_slice|].
  split; [|split; [|split; [|split]]].
  - intros Hascii. unfold documented_iv.
    rewrite length_utf8_ascii by exact Hascii.
    apply length_padEnd_slice.
  - intros salt Hsalt Hsig.
    unfold events_of, documented_key, documented_iv, documented_iv_string. run.
    destruct (truthy (Obj.lookup "signature" fields)) eqn:Ht; simpl.
    + specialize (Hsig eq_refl).
      destruct (Obj.lookup "encrypted" fields) as [[| | |ct| |]|];
        try discriminate Hsig.
      simpl. rewrite Hsalt. simpl.
      break; rewrite <- !app_assoc, drop_app_length; simpl; tauto.
    + rewrite Hsalt. simpl.
      break; rewrite <- !app_assoc, drop_app_length; simpl; tauto.
  - unfold events_of, documented_iv, documented_iv_string.
    unfold encryptPayload, encryptPayload_try, try_catch, bind, Date_now,
      randomBytes, pbkdf2, cipher, createHmac_digest, emit, lift, ret, bind, ret.
    simpl.
    destruct (cipher_utf8_hex _ _ _ _) as [ct|m]; simpl;
      eexists _, _; rewrite <- !app_assoc, drop_app_length; simpl; tauto.
  - destruct (decryptPayload_calls envelope st) as (evs & Ht & _ & Hall).
    exists evs. split; [exact Ht|]. now apply (Forall_iv_decrypt envelope).
  - destruct (encryptPayload_calls payload st) as (evs & Ht & _ & Hall & _).
    exists evs. split; [exact Ht|]. now apply (Forall_iv_encrypt st).
Qed.

(** C8. Totality.  [decryptPayload] returns a result for every input
    and does not throw; whatever is thrown inside it, and in particular
    by the cipher or by [JSON.parse], comes back as the result with code
    [DECRYPTION_ERROR] carrying the message.  The handler returns a
    response for every request, and answers a failed decryption with
    400 and that code. *)
Theorem failures_are_classified (envelope : jsval) (st : state) :
  (exists r st',
     decryptPayload envelope st = (Ret r, st') /\
     (forall m s, decryptPayload_try envelope st = (Throw m, s) ->
                  r = failed m /\ code r = "DECRYPTION_ERROR")) /\
  (forall fields ct salt m,
     envelope = Some (JObj fields) ->
     Obj.lookup "encrypted" fields = Some (JStr ct) ->
     Buffer_from (Obj.lookup "salt" fields) = Ret salt ->
     decipher_hex_utf8 "aes-256-cbc" (documented_key salt) documented_iv ct
       = Throw m ->
     fst (decryptPayload envelope st) = Ret (failed m)) /\
  (forall fields ct salt text m,
     envelope = Some (JObj fields) ->
     Obj.lookup "encrypted" fields = Some (JStr ct) ->
     Buffer_from (Obj.lookup "salt" fields) = Ret salt ->
     decipher_hex_utf8 "aes-256-cbc" (documented_key salt) documented_iv ct
       = Ret text ->
     JSON_parse text = Throw m ->
     fst (decryptPayload envelope st) = Ret (failed m)) /\
  (exists resp st', saveVapiCallLog envelope st = (Ret resp, st')) /\
  (forall v m s,
     property envelope "encrypted" = Ret v ->
     truthy v = true ->
     decryptPayload envelope (entered st) = (Ret (failed m), s) ->
     saveVapiCallLog envelope st
       = (Ret (decryption_failed_response m
                 (toISOString (clock_ms (st_clock st)))), s)).
Proof.
  split; [|split; [|split; [|split]]].
  - unfold decryptPayload, try_catch, ret.
    destruct (decryptPayload_try envelope st) as [[r|m] s'].
    + eexists _, _. split; [reflexivity|]. intros m s [=].
    + eexists _, _. split; [reflexivity|]. intros m' s [= <- <-]. now split.
  - intros fields ct salt m -> Hct Hsalt Hdec.
    unfold documented_key, documented_iv, documented_iv_string in Hdec.
    run. rewrite Hct.
    destruct (truthy (Obj.lookup "signature" fields)); simpl;
      rewrite Hsalt, Hdec; reflexivity.
  - intros fields ct salt text m -> Hct Hsalt Hdec Hparse.
    unfold documented_key, documented_iv, documented_iv_string in Hdec.
    run. rewrite Hct.
    destruct (truthy (Obj.lookup "signature" fields)); simpl;
      rewrite Hsalt, Hdec, Hparse; reflexivity.
  - apply saveVapiCallLog_total.
  - intros v m s Hv Htruthy Hrun.
    enter. rewrite Hv. simpl. rewrite Htruthy. simpl.
    fold (entered st). rewrite Hrun. reflexivity.
Qed.

(** C9. Upsert.  Two envelopes that decode to payloads that pass the
    freshness check and have the same string [callId], one that names a
    document, ingested in turn, are both answered 200; afterwards the
    store holds under that document's key (the identifier itself when
    it has no slash) the document of the second payload, it is the store
    obtained by writing that document alone, the second request added no
    document, and every domain field of the document is the second
    payload's. *)
Theorem same_callId_is_overwritten (f1 f2 p1 p2 : list (string * json))
    (id key : string) (st : state) :
  let c := st_clock st in
  let doc1 := document (toISOString (clock_ms c)) (stripped p1) in
  let doc2 := document (toISOString (clock_ms (S (S (S c))))) (stripped p2) in
  Decodes f1 p1 ->
  Decodes f2 p2 ->
  truthy (Obj.lookup "encrypted" f1) = true ->
  truthy (Obj.lookup "encrypted" f2) = true ->
  fresh (clock_ms (S c)) p1 = true ->
  fresh (clock_ms (S (S (S (S c))))) p2 = true ->
  Obj.lookup "callId" p1 = Some (JStr id) ->
  Obj.lookup "callId" p2 = Some (JStr id) ->
  document_key id = Some key ->
  firestore_commit "vapiCallLogs" key doc1 = Ret tt ->
  firestore_commit "vapiCallLogs" key doc2 = Ret tt ->
  exists r1 st1 r2 st2,
    saveVapiCallLog (Some (JObj f1)) st = (Ret r1, st1) /\
    saveVapiCallLog (Some (JObj f2)) st1 = (Ret r2, st2) /\
    status r1 = 200 /\ status r2 = 200 /\
    st_db st1 !! key = Some doc1 /\
    st_db st2 !! key = Some doc2 /\
    st_db st2 = <[key := doc2]> (st_db st) /\
    dom (st_db st2) = dom (st_db st1) /\
    (forall k, k <> "createdAt" -> k <> "savedAt" -> k <> "encryptionMetadata" ->
       property (st_db st2 !! key) k = Ret (Obj.lookup k (stripped p2))).
Proof.
  intros c doc1 doc2 Hd1 Hd2 Hg1 Hg2 Hf1 Hf2 Hid1 Hid2 Hkey Hc1 Hc2.
  rewrite <- (lookup_stripped "callId" p1) in Hid1 by discriminate.
  rewrite <- (lookup_stripped "callId" p2) in Hid2 by discriminate.
  destruct (fresh_payload_is_stored f1 p1 id key st Hd1 Hg1 Hf1 Hid1 Hkey Hc1)
    as (r1 & evs1 & Hrun1 & Hs1 & _).
  fold c doc1 in Hrun1.
  set (st1 := mkState (<[key := doc1]> (st_db st)) (st_trace st ++ evs1)
                      (S (S (S c))) (st_random st)) in *.
  destruct (fresh_payload_is_stored f2 p2 id key st1 Hd2 Hg2 Hf2 Hid2 Hkey Hc2)
    as (r2 & evs2 & Hrun2 & Hs2 & _).
  simpl in Hrun2. fold doc2 in Hrun2.
  exists r1, st1, r2. eexists.
  split; [exact Hrun1|]. split; [exact Hrun2|]. simpl.
  split; [exact Hs1|]. split; [exact Hs2|].
  split; [apply lookup_insert_eq|].
  split; [apply lookup_insert_eq|].
  split; [apply insert_insert_eq|].
  split.
  - rewrite !dom_insert_L. now rewrite (assoc_L (∪)), union_idemp_L.
  - intros k H1 H2 H3. rewrite lookup_insert_eq.
    now apply document_domain_fields.
Qed.

(** C10. Missing timestamp.  For an envelope that decodes to an object
    without [_timestamp] the age is NaN, the comparison with the window
    is false and [decryptPayload] answers with success and the stripped
    payload, at any time. *)
Theorem missing_timestamp_is_accepted (fields payload : list (string * json))
    (st : state) :
  Decodes fields payload ->
  Obj.lookup "_timestamp" payload = None ->
  let now := clock_ms (st_clock st) in
  age_at now payload = None /\
  js_gt (age_at now payload) 300000 = false /\
  exists r st',
    decryptPayload (Some (JObj fields)) st = (Ret r, st') /\
    success r = true /\
    code r = "DECRYPTION_SUCCESS" /\
    data r = Some (JObj (stripped payload)).
Proof.
  intros Hdec Hts now.
  assert (Hage : age_at now payload = None).
  { unfold age_at. now rewrite Hts. }
  split; [exact Hage|]. split; [now rewrite Hage|].
  assert (Hprints : prints (Obj.lookup "_timestamp" payload) = true)
    by now rewrite Hts.
  destruct (decryptPayload_decoded fields payload st Hdec Hprints)
    as (evs & _ & _ & Hrun).
  simpl in Hrun. fold now in Hrun. rewrite Hage in Hrun. simpl in Hrun.
  eexists _, _. split; [exact Hrun|]. repeat split.
Qed.

End Properties.

(** * More properties *)

(** ** Objects, again *)

Lemma lookup_delete_same k o : Obj.lookup k (Obj.delete k o) = None.
Proof.
  induction o as [|[k' v'] o IH]; simpl; auto.
  destruct (String.eqb k k') eqn:E; simpl; rewrite ?E; auto.
Qed.

Section MoreProperties.

Context {R : NodeRuntime}.

Ltac unfold_verify :=
  unfold verifyIntegrity, try_catch, bind, createHmac_digest, emit, ret, throw,
    bind, ret; simpl.

(** X1. [verifyIntegrity] never throws and leaves the store alone; it
    answers [true] exactly when the payload is a string and the
    signature is the string that is the keyed hash of that payload under
    [ENCRYPTION_KEY].  Any other payload or signature gives [false]. *)
Theorem verifyIntegrity_is_exact (payload signature : jsval) (st : state) :
  exists b st',
    verifyIntegrity payload signature st = (Ret b, st') /\
    st_db st' = st_db st /\
    (b = true <->
     exists p, payload = Some (JStr p) /\
               signature = Some (JStr (hmac_sha256_hex ENCRYPTION_KEY p))).
Proof.
  unfold_verify.
  destruct payload as [[| | |p| |]|]; simpl;
    try (eexists _, _; split; [reflexivity|]; split; [reflexivity|];
         split; [discriminate|intros (p' & [=] & _)]).
  eexists _, _. split; [reflexivity|]. split; [reflexivity|].
  unfold same_string. split.
  - destruct signature as [[| | |s| |]|]; try discriminate.
    intros H. apply String.eqb_eq in H. subst. eauto.
  - intros (p' & [= <-] & ->). apply String.eqb_refl.
Qed.


Ltac unfold_encrypt :=
  unfold encryptPayload, encryptPayload_try, try_catch, bind, Date_now,
    randomBytes, pbkdf2, cipher, createHmac_digest, emit, lift, ret, bind, ret;
  simpl.

(** X2. The signature [encryptPayload] attaches is accepted by
    [verifyIntegrity]: on the [encrypted] and [signature] fields of an
    envelope that [encryptPayload] returned with [success: true],
    [verifyIntegrity] answers [true]. *)
Theorem encoder_signature_verifies (payload : jsval) (st st2 : state)
    (envelope : list (string * json)) :
  fst (encryptPayload payload st) = Ret (JObj envelope) ->
  Obj.lookup "success" envelope = Some (JBool true) ->
  fst (verifyIntegrity (Obj.lookup "encrypted" envelope)
         (Obj.lookup "signature" envelope) st2) = Ret true.
Proof.
  unfold_encrypt.
  destruct (cipher_utf8_hex _ _ _ _) as [ct|m]; simpl.
  - intros [= <-] _. unfold_verify. now rewrite String.eqb_refl.
  - intros [= <-]. discriminate.
Qed.

(** X3. [encryptPayload] stamps over whatever the caller supplied: the
    object it serialises and enciphers has [_timestamp] equal to the
    time read at the start of the call and [_version] equal to ["1.0"],
    also when the payload brought values of its own under these names;
    every other property is the payload's.  It derives one key, calls
    the cipher once, and signs only when the cipher succeeded; the
    envelope's [timestamp] is the same reading of the clock. *)
Theorem encoder_overrides_internal_fields (o : list (string * json))
    (st : state) :
  let t := clock_ms (st_clock st) in
  let salt := random_bytes (st_random st) 16 in
  exists stamped,
    events_of (encryptPayload (Some (JObj o))) st
      = EvPbkdf2 ENCRYPTION_KEY salt 1000 32 "sha256"
        :: EvCipheriv "aes-256-cbc" (documented_key salt) documented_iv
             (JSON_stringify (JObj stamped))
        :: match cipher_utf8_hex "aes-256-cbc" (documented_key salt)
                   documented_iv (JSON_stringify (JObj stamped)) with
           | Ret ct => [EvHmac ENCRYPTION_KEY ct]
           | Throw _ => []
           end /\
    Obj.lookup "_timestamp" stamped = Some (JNum t) /\
    Obj.lookup "_version" stamped = Some (JStr "1.0") /\
    (forall k, k <> "_timestamp" -> k <> "_version" ->
               Obj.lookup k stamped = Obj.lookup k o) /\
    (forall envelope,
       fst (encryptPayload (Some (JObj o)) st) = Ret (JObj envelope) ->
       Obj.lookup "success" envelope = Some (JBool true) ->
       Obj.lookup "timestamp" envelope = Some (JNum t)).
Proof.
  intros t salt. exists (stamp t o).
  split; [|split; [|split; [|split]]].
  - unfold events_of. unfold_encrypt. fold t salt.
    unfold documented_key, documented_iv, documented_iv_string, stamp.
    destruct (cipher_utf8_hex _ _ _ _) as [ct|m]; simpl;
      rewrite <- !app_assoc, drop_app_length; reflexivity.
  - unfold stamp. rewrite lookup_set_other by discriminate.
    apply lookup_set_same.
  - unfold stamp. apply lookup_set_same.
  - intros k H1 H2. unfold stamp. now rewrite !lookup_set_other.
  - intros envelope. unfold_encrypt. fold t.
    destruct (cipher_utf8_hex _ _ _ _) as [ct|m]; simpl.
    + intros [= <-] _. reflexivity.
    + intros [= <-]. discriminate.
Qed.

(** X4. The round trip for any payload object: when the runtime's JSON
    and cipher invert each other on the stamped text and at most five
    minutes pass, [decryptPayload] of what [encryptPayload] returned
    succeeds with the payload minus its properties [_timestamp] and
    [_version].  A payload that had such properties does not get them
    back. *)
Theorem round_trip_drops_internal_fields (o : list (string * json))
    (ct : string) (st : state) :
  let t := clock_ms (st_clock st) in
  let salt := random_bytes (st_random st) 16 in
  let text := JSON_stringify (JObj (stamp t o)) in
  JSON_parse text = Ret (JObj (stamp t o)) ->
  cipher_utf8_hex "aes-256-cbc" (documented_key salt) documented_iv text
    = Ret ct ->
  decipher_hex_utf8 "aes-256-cbc" (documented_key salt) documented_iv ct
    = Ret text ->
  clock_ms (S (st_clock st)) - t <= 300000 ->
  exists envelope st1 r st2,
    encryptPayload (Some (JObj o)) st = (Ret envelope, st1) /\
    decryptPayload (Some envelope) st1 = (Ret r, st2) /\
    success r = true /\
    data r = Some (JObj (Obj.delete "_version" (Obj.delete "_timestamp" o))).
Proof.
  intros t salt text Hjson Henc Hdec Hnow.
  destruct (encryptPayload_runs (Some (JObj o)) ct st Henc) as (evs & Hrun).
  fold t salt in Hrun.
  pose proof (envelope_decodes ct salt t text (stamp t o) Hdec Hjson) as Hd.
  destruct (decryptPayload_decoded _ _
              (mkState (st_db st) (st_trace st ++ evs) (S (st_clock st))
                       (S (st_random st))) Hd (prints_stamp t o))
    as (evs' & _ & _ & Hrun').
  simpl in Hrun'.
  assert (Hage : age_at (clock_ms (S (st_clock st))) (stamp t o)
                 = Some (clock_ms (S (st_clock st)) - t)).
  { unfold age_at, stamp.
    rewrite lookup_set_other by discriminate.
    now rewrite lookup_set_same. }
  rewrite Hage in Hrun'. simpl in Hrun'.
  assert (Hfresh : Z.ltb 300000 (clock_ms (S (st_clock st)) - t) = false)
    by (apply Z.ltb_ge; lia).
  rewrite Hfresh in Hrun'.
  eexists _, _, _, _. split; [exact Hrun|]. split; [exact Hrun'|].
  split; [reflexivity|]. simpl. unfold stripped, stamp.
  now rewrite strip_stamp.
Qed.

(** X5. The shape of every result of [decryptPayload], whatever the
    argument: it returns and never throws; a success carries the code
    [DECRYPTION_SUCCESS], no error, and data that is neither undefined
    nor null and has no [_timestamp] or [_version]; a failure carries no
    data, an error message, and the code [DECRYPTION_ERROR] or
    [REPLAY_ATTACK_DETECTED]. *)
Theorem decrypt_result_shape (envelope : jsval) (st : state) :
  exists r st',
    decryptPayload envelope st = (Ret r, st') /\
    (success r = true ->
       code r = "DECRYPTION_SUCCESS" /\ error r = None /\
       data r <> None /\ data r <> Some JNull /\
       property (data r) "_timestamp" = Ret undefined /\
       property (data r) "_version" = Ret undefined) /\
    (success r = false ->
       data r = None /\ error r <> None /\
       (code r = "DECRYPTION_ERROR" \/ code r = "REPLAY_ATTACK_DETECTED")).
Proof.
  run. break; subst;
    (eexists _, _; split; [reflexivity|]; simpl; split;
     [ intros H; try discriminate H; clear H;
       repeat split; try discriminate; simpl;
       rewrite ?lookup_delete_same, ?lookup_delete_other by discriminate;
       rewrite ?lookup_delete_same; reflexivity
     | intros H; try discriminate H; clear H;
       repeat split; try discriminate; auto ]).
Qed.



(** X7. A ciphertext that deciphers to JSON text that is not an object.
    For [null], reading [_timestamp] throws: [decryptPayload] fails with
    [DECRYPTION_ERROR] and the handler answers 400.  For a number,
    string, boolean or array [decryptPayload] succeeds with that value
    as data, and the handler answers 400 [MISSING_CALL_ID].  Either way
    nothing is stored and Firestore is not called. *)
Theorem plaintext_that_is_not_an_object (fields : list (string * json))
    (ct text : string) (salt : list byte) (v : json) (st : state) :
  Obj.lookup "encrypted" fields = Some (JStr ct) ->
  ct <> "" ->
  Buffer_from (Obj.lookup "salt" fields) = Ret salt ->
  decipher_hex_utf8 "aes-256-cbc" (documented_key salt) documented_iv ct
    = Ret text ->
  JSON_parse text = Ret v ->
  is_object v = false ->
  let timestamp := toISOString (clock_ms (st_clock st)) in
  (v = JNull ->
   fst (decryptPayload (Some (JObj fields)) st)
     = Ret (failed (native_message "_timestamp" (Some JNull))) /\
   fst (saveVapiCallLog (Some (JObj fields)) st)
     = Ret (decryption_failed_response
              (native_message "_timestamp" (Some JNull)) timestamp)) /\
  (v <> JNull ->
   fst (decryptPayload (Some (JObj fields)) st)
     = Ret (mkDecryptResult true (Some v) None "DECRYPTION_SUCCESS" None None
              (Some (toISOString (clock_ms (S (st_clock st)))))) /\
   fst (saveVapiCallLog (Some (JObj fields)) st)
     = Ret (missing_call_id_response timestamp)) /\
  st_db (snd (saveVapiCallLog (Some (JObj fields)) st)) = st_db st /\
  existsb persistence_call (events_of (saveVapiCallLog (Some (JObj fields))) st)
    = false.
Proof.
  intros Hct Hne Hsalt Hdec Hparse Hobj timestamp.
  unfold documented_key, documented_iv, documented_iv_string in Hdec.
  apply String.eqb_neq in Hne.
  unfold events_of. unfold_all. rewrite Hct. simpl. rewrite Hne. simpl.
  destruct (truthy (Obj.lookup "signature" fields)); simpl;
    rewrite Hsalt, Hdec, Hparse; simpl;
    destruct v; try discriminate; simpl;
    (repeat split; try congruence; try reflexivity;
     rewrite <- ?app_assoc, ?drop_app_length; reflexivity).
Qed.

(** X8. A payload that passes the freshness check and whose [callId]
    is missing or falsy (an empty string, 0, false, null) is answered
    400 [MISSING_CALL_ID] with the handler's first timestamp; the store
    is unchanged and Firestore is not called. *)
Theorem missing_callId_is_rejected (fields payload : list (string * json))
    (st : state) :
  Decodes fields payload ->
  truthy (Obj.lookup "encrypted" fields) = true ->
  fresh (clock_ms (S (st_clock st))) payload = true ->
  truthy (Obj.lookup "callId" payload) = false ->
  exists st',
    saveVapiCallLog (Some (JObj fields)) st
      = (Ret (missing_call_id_response (toISOString (clock_ms (st_clock st)))),
         st') /\
    st_db st' = st_db st /\
    existsb persistence_call (events_of (saveVapiCallLog (Some (JObj fields))) st)
      = false.
Proof.
  intros Hdec Hgate Hfresh Hid.
  apply fresh_spec in Hfresh as [Hprints Hfresh].
  destruct (decryptPayload_decoded fields payload (entered st) Hdec Hprints)
    as (evs & Hevs & _ & Hrun).
  simpl in Hrun. rewrite Hfresh in Hrun.
  rewrite <- (lookup_stripped "callId" payload) in Hid by discriminate.
  assert (Hsave : saveVapiCallLog (Some (JObj fields)) st
          = (Ret (missing_call_id_response (toISOString (clock_ms (st_clock st)))),
             mkState (st_db st) (st_trace st ++ evs)
                     (S (S (S (st_clock st)))) (st_random st))).
  { enter. rewrite Hgate. simpl. fold (entered st). rewrite Hrun. simpl.
    rewrite Hid. reflexivity. }
  eexists. split; [exact Hsave|]. split; [reflexivity|].
  unfold events_of. rewrite Hsave. simpl. rewrite drop_app_length.
  apply not_true_is_false. intros Hex. apply existsb_exists in Hex as (e & Hin & He).
  rewrite Forall_forall in Hevs. apply list_elem_of_In in Hin.
  specialize (Hevs e Hin). congruence.
Qed.

(** X9. A payload that passes the freshness check and whose [callId]
    is truthy but not a string (a
    number, [true], an array, an object) passes the validation, and
    [doc(callId)] throws: the answer is 500 [SERVER_ERROR] with the
    error's message as details and a timestamp read in the [catch]
    block; the store is unchanged and no write is sent. *)
Theorem callId_that_is_not_a_string (fields payload : list (string * json))
    (v : json) (st : state) :
  Decodes fields payload ->
  truthy (Obj.lookup "encrypted" fields) = true ->
  fresh (clock_ms (S (st_clock st))) payload = true ->
  Obj.lookup "callId" payload = Some v ->
  truthy (Some v) = true ->
  is_string (Some v) = false ->
  exists st',
    saveVapiCallLog (Some (JObj fields)) st
      = (Ret (server_error_response (native_message "doc" (Some v))
                (toISOString (clock_ms (S (S (S (st_clock st))))))), st') /\
    st_db st' = st_db st /\
    existsb persistence_call (events_of (saveVapiCallLog (Some (JObj fields))) st)
      = false.
Proof.
  intros Hdec Hgate Hfresh Hid Htruthy Hstr.
  apply fresh_spec in Hfresh as [Hprints Hfresh].
  destruct (decryptPayload_decoded fields payload (entered st) Hdec Hprints)
    as (evs & Hevs & _ & Hrun).
  simpl in Hrun. rewrite Hfresh in Hrun.
  rewrite <- (lookup_stripped "callId" payload) in Hid by discriminate.
  assert (Hsave : saveVapiCallLog (Some (JObj fields)) st
          = (Ret (server_error_response (native_message "doc" (Some v))
                    (toISOString (clock_ms (S (S (S (st_clock st))))))),
             mkState (st_db st) (st_trace st ++ evs)
                     (S (S (S (S (st_clock st))))) (st_random st))).
  { enter. rewrite Hgate. simpl. fold (entered st). rewrite Hrun. simpl.
    rewrite Hid. rewrite Htruthy. simpl.
    destruct v; try discriminate; reflexivity. }
  eexists. split; [exact Hsave|]. split; [reflexivity|].
  unfold events_of. rewrite Hsave. simpl. rewrite drop_app_length.
  apply not_true_is_false. intros Hex. apply existsb_exists in Hex as (e & Hin & He).
  rewrite Forall_forall in Hevs. apply list_elem_of_In in Hin.
  specialize (Hevs e Hin). congruence.
Qed.

(** X10. When Firestore refuses to write the document of a payload that
    passes the freshness check and whose [callId] names a document, the
    handler answers 500 [SERVER_ERROR] with Firestore's message as
    details, the store is unchanged, and the refused write is the one
    call to [set] of the request. *)
Theorem refused_write_is_a_server_error (fields payload : list (string * json))
    (id key message : string) (st : state) :
  let timestamp := toISOString (clock_ms (st_clock st)) in
  let doc := document timestamp (stripped payload) in
  Decodes fields payload ->
  truthy (Obj.lookup "encrypted" fields) = true ->
  fresh (clock_ms (S (st_clock st))) payload = true ->
  Obj.lookup "callId" payload = Some (JStr id) ->
  document_key id = Some key ->
  firestore_commit "vapiCallLogs" key doc = Throw message ->
  exists st',
    saveVapiCallLog (Some (JObj fields)) st
      = (Ret (server_error_response message
                (toISOString (clock_ms (S (S (S (st_clock st))))))), st') /\
    st_db st' = st_db st /\
    In (EvFirestoreSet "vapiCallLogs" (Some (JStr key)) doc)
       (events_of (saveVapiCallLog (Some (JObj fields))) st).
Proof.
  intros timestamp doc Hdec Hgate Hfresh Hid Hkey Hcommit.
  apply fresh_spec in Hfresh as [Hprints Hfresh].
  destruct (decryptPayload_decoded fields payload (entered st) Hdec Hprints)
    as (evs & Hevs & _ & Hrun).
  simpl in Hrun. rewrite Hfresh in Hrun.
  rewrite <- (lookup_stripped "callId" payload) in Hid by discriminate.
  pose proof (document_key_truthy id key Hkey) as Htruthy.
  assert (Hsave : saveVapiCallLog (Some (JObj fields)) st
          = (Ret (server_error_response message
                    (toISOString (clock_ms (S (S (S (st_clock st))))))),
             mkState (st_db st)
                     (st_trace st ++ evs ++
                        [EvFirestoreSet "vapiCallLogs" (Some (JStr key)) doc])
                     (S (S (S (S (st_clock st))))) (st_random st))).
  { enter. rewrite Hgate. simpl. fold (entered st). rewrite Hrun. simpl.
    rewrite Hid. rewrite Htruthy. simpl.
    unfold firestore_set, bind, emit, lift.
    rewrite (doc_ref_of_key id key Hkey). simpl.
    fold timestamp. fold (document timestamp (stripped payload)). fold doc.
    rewrite Hcommit. simpl. rewrite <- app_assoc. reflexivity. }
  eexists. split; [exact Hsave|]. split; [reflexivity|].
  unfold events_of. rewrite Hsave. simpl. rewrite drop_app_length.
  apply in_or_app. right. now left.
Qed.

(** X24. A payload that passes the freshness check and whose [callId]
    is a non-empty string that names no document (["a/b"], which has an
    even number of segments, or a string with [//]) passes the
    validation, and [doc(callId)] throws before [set] is called: the
    answer is 500 [SERVER_ERROR], the store is unchanged and no write
    is sent. *)
Theorem callId_that_names_no_document (fields payload : list (string * json))
    (id : string) (st : state) :
  Decodes fields payload ->
  truthy (Obj.lookup "encrypted" fields) = true ->
  fresh (clock_ms (S (st_clock st))) payload = true ->
  Obj.lookup "callId" payload = Some (JStr id) ->
  id <> "" ->
  document_key id = None ->
  exists st',
    saveVapiCallLog (Some (JObj fields)) st
      = (Ret (server_error_response (native_message "doc" (Some (JStr id)))
                (toISOString (clock_ms (S (S (S (st_clock st))))))), st') /\
    st_db st' = st_db st /\
    existsb persistence_call (events_of (saveVapiCallLog (Some (JObj fields))) st)
      = false.
Proof.
  intros Hdec Hgate Hfresh Hid Hne Hkey.
  apply fresh_spec in Hfresh as [Hprints Hfresh].
  destruct (decryptPayload_decoded fields payload (entered st) Hdec Hprints)
    as (evs & Hevs & _ & Hrun).
  simpl in Hrun. rewrite Hfresh in Hrun.
  rewrite <- (lookup_stripped "callId" payload) in Hid by discriminate.
  apply String.eqb_neq in Hne.
  assert (Hsave : saveVapiCallLog (Some (JObj fields)) st
          = (Ret (server_error_response (native_message "doc" (Some (JStr id)))
                    (toISOString (clock_ms (S (S (S (st_clock st))))))),
             mkState (st_db st) (st_trace st ++ evs)
                     (S (S (S (S (st_clock st))))) (st_random st))).
  { enter. rewrite Hgate. simpl. fold (entered st). rewrite Hrun. simpl.
    rewrite Hid. simpl. rewrite Hne. simpl.
    unfold firestore_set, bind, emit, lift, doc_ref. rewrite Hkey. reflexivity. }
  eexists. split; [exact Hsave|]. split; [reflexivity|].
  unfold events_of. rewrite Hsave. simpl. rewrite drop_app_length.
  apply not_true_is_false. intros Hex. apply existsb_exists in Hex as (e & Hin & He).
  rewrite Forall_forall in Hevs. apply list_elem_of_In in Hin.
  specialize (Hevs e Hin). congruence.
Qed.


(** X11. What an ingestion can do to the store, for every request:
    [saveVapiCallLog] always answers; unless it answers 200 the store is
    unchanged, and when it answers 200 exactly one document was put,
    under a non-empty identifier, by a call to [set] on the collection
    [vapiCallLogs]. *)
Theorem ingestion_writes_at_most_one_document (requestBody : jsval)
    (st : state) :
  exists resp st',
    saveVapiCallLog requestBody st = (Ret resp, st') /\
    ((status resp <> 200 /\ st_db st' = st_db st) \/
     (status resp = 200 /\
      exists id doc,
        id <> "" /\
        st_db st' = <[id := doc]> (st_db st) /\
        In (EvFirestoreSet "vapiCallLogs" (Some (JStr id)) doc)
           (events_of (saveVapiCallLog requestBody) st))).
Proof.
  unfold events_of. unfold_all. break; subst;
    (eexists _, _; split; [reflexivity|]; simpl;
     first
       [ left; split; [discriminate|reflexivity]
       | right; split; [reflexivity|];
         eexists _, _; split; [|split; [reflexivity|]];
         [ eapply doc_ref_nonempty; eassumption
         | rewrite <- !app_assoc, drop_app_length; simpl; tauto ] ]).
Qed.

(** X12. The answers [saveVapiCallLog] can give, for every request: 200
    [CALL_LOG_SAVED_ENCRYPTED], 400 [UNENCRYPTED_DATA], 400
    [DECRYPTION_ERROR], 403 [REPLAY_ATTACK_DETECTED], 400
    [MISSING_CALL_ID] or 500 [SERVER_ERROR].  In particular it never
    answers 401. *)
Theorem answers_of_the_handler (requestBody : jsval) (st : state) :
  exists resp st',
    saveVapiCallLog requestBody st = (Ret resp, st') /\
    In (status resp, response_code resp)
       [(200, Some (JStr "CALL_LOG_SAVED_ENCRYPTED"));
        (400, Some (JStr "UNENCRYPTED_DATA"));
        (400, Some (JStr "DECRYPTION_ERROR"));
        (403, Some (JStr "REPLAY_ATTACK_DETECTED"));
        (400, Some (JStr "MISSING_CALL_ID"));
        (500, Some (JStr "SERVER_ERROR"))].
Proof.
  unfold_all. break; subst;
    (eexists _, _; split; [reflexivity|]; unfold response_code; simpl; tauto).
Qed.


(** X13. What the stored document holds: after a payload that passes
    the freshness check, with a [callId] that names a document, is
    accepted, the document under that key has
    the payload's [callId], no [_timestamp] and no [_version], the
    server timestamp under [createdAt], the handler's first timestamp
    under [savedAt], and [encryptionMetadata] with [encrypted: true],
    the algorithm, [verified: true] and the same timestamp. *)
Theorem stored_document_fields (fields payload : list (string * json))
    (id key : string) (st : state) :
  let timestamp := toISOString (clock_ms (st_clock st)) in
  Decodes fields payload ->
  truthy (Obj.lookup "encrypted" fields) = true ->
  fresh (clock_ms (S (st_clock st))) payload = true ->
  Obj.lookup "callId" payload = Some (JStr id) ->
  document_key id = Some key ->
  firestore_commit "vapiCallLogs" key (document timestamp (stripped payload))
    = Ret tt ->
  exists doc,
    st_db (snd (saveVapiCallLog (Some (JObj fields)) st)) !! key
      = Some (JObj doc) /\
    Obj.lookup "callId" doc = Some (JStr id) /\
    Obj.lookup "_timestamp" doc = None /\
    Obj.lookup "_version" doc = None /\
    Obj.lookup "createdAt" doc = Some serverTimestamp /\
    Obj.lookup "savedAt" doc = Some (JStr timestamp) /\
    Obj.lookup "encryptionMetadata" doc
      = Some (JObj [("encrypted", JBool true);
                    ("algorithm", JStr "AES-256-CBC");
                    ("verified", JBool true);
                    ("decryptedAt", JStr timestamp)]).
Proof.
  intros timestamp Hdec Hgate Hfresh Hid Hkey Hcommit.
  rewrite <- (lookup_stripped "callId" payload) in Hid by discriminate.
  destruct (fresh_payload_is_stored fields payload id key st Hdec Hgate Hfresh
              Hid Hkey Hcommit) as (resp & evs & Hrun & _).
  rewrite Hrun. simpl. rewrite lookup_insert_eq. unfold document.
  eexists. split; [reflexivity|].
  repeat split.
  - rewrite !lookup_set_other by discriminate. exact Hid.
  - rewrite !lookup_set_other by discriminate. unfold stripped.
    rewrite lookup_delete_other by discriminate. apply lookup_delete_same.
  - rewrite !lookup_set_other by discriminate. apply lookup_delete_same.
  - rewrite !lookup_set_other by discriminate. apply lookup_set_same.
  - rewrite lookup_set_other by discriminate. apply lookup_set_same.
  - apply lookup_set_same.
Qed.

(** X14. When the [salt] of an envelope cannot be made into a buffer
    (it is missing, null, a number or a boolean), [decryptPayload]
    fails with [DECRYPTION_ERROR] and that error's message before any
    key is derived and before the cipher is called. *)
Theorem unreadable_salt_derives_no_key (fields : list (string * json))
    (ct message : string) (st : state) :
  Obj.lookup "encrypted" fields = Some (JStr ct) ->
  Buffer_from (Obj.lookup "salt" fields) = Throw message ->
  exists st',
    decryptPayload (Some (JObj fields)) st = (Ret (failed message), st') /\
    existsb key_derivation_call (events_of (decryptPayload (Some (JObj fields))) st)
      = false /\
    existsb cipher_call (events_of (decryptPayload (Some (JObj fields))) st)
      = false.
Proof.
  intros Hct Hsalt. unfold events_of. run. rewrite Hct.
  destruct (truthy (Obj.lookup "signature" fields)); simpl; rewrite Hsalt;
    (eexists; split; [reflexivity|]; simpl;
     rewrite <- ?app_assoc, ?drop_app_length, ?drop_all; split; reflexivity).
Qed.

End MoreProperties.

(** ** Reading a call log *)

Lemma lookup_assign_absent k a b :
  Obj.lookup k b = None -> Obj.lookup k (assign a b) = Obj.lookup k a.
Proof.
  unfold assign. revert a. induction b as [|[k' v] b IH]; intros a H; simpl in *.
  - reflexivity.
  - destruct (String.eqb k k') eqn:E; [discriminate|].
    rewrite IH by exact H. apply lookup_set_other.
    now apply String.eqb_neq.
Qed.

Lemma lookup_assign_present k v a b :
  NoDup (map fst b) -> Obj.lookup k b = Some v ->
  Obj.lookup k (assign a b) = Some v.
Proof.
  unfold assign. revert a. induction b as [|[k' v'] b IH]; intros a Hnd H; simpl in *.
  - discriminate.
  - apply NoDup_cons in Hnd as [Hnotin Hnd].
    destruct (String.eqb k k') eqn:E.
    + apply String.eqb_eq in E. subst k'. injection H as ->.
      assert (Habs : Obj.lookup k b = None).
      { clear -Hnotin. induction b as [|[k2 v2] b IH]; simpl in *; auto.
        destruct (String.eqb k k2) eqn:E2.
        - apply String.eqb_eq in E2. subst. exfalso. apply Hnotin. now left.
        - apply IH. intros Hin. apply Hnotin. now right. }
      fold (assign (Obj.set k v a) b).
      rewrite lookup_assign_absent by exact Habs. apply lookup_set_same.
    + now apply IH.
Qed.

Lemma keys_set k v o :
  forall x, In x (map fst (Obj.set k v o)) <-> x = k \/ In x (map fst o).
Proof.
  induction o as [|[k' v'] o IH]; intros x; simpl.
  - intuition.
  - destruct (String.eqb k k') eqn:E; simpl.
    + apply String.eqb_eq in E. subst. intuition.
    + rewrite IH. intuition.
Qed.

Lemma NoDup_set k v o : NoDup (map fst o) -> NoDup (map fst (Obj.set k v o)).
Proof.
  induction o as [|[k' v'] o IH]; intros H; simpl.
  - apply NoDup_cons. split; [apply not_elem_of_nil|apply NoDup_nil_2].
  - apply NoDup_cons in H as [Hnotin Hnd].
    destruct (String.eqb k k') eqn:E; simpl.
    + apply NoDup_cons. split; assumption.
    + apply NoDup_cons. split; [|now apply IH].
      rewrite list_elem_of_In, keys_set. intros [<- | Hin].
      * rewrite String.eqb_refl in E. discriminate.
      * apply Hnotin. now apply list_elem_of_In.
Qed.

Lemma keys_delete k o :
  forall x, In x (map fst (Obj.delete k o)) -> In x (map fst o).
Proof.
  induction o as [|[k' v'] o IH]; intros x; simpl; auto.
  destruct (String.eqb k k'); simpl; intuition.
Qed.

Lemma NoDup_delete k o : NoDup (map fst o) -> NoDup (map fst (Obj.delete k o)).
Proof.
  induction o as [|[k' v'] o IH]; intros H; simpl; auto.
  apply NoDup_cons in H as [Hnotin Hnd].
  destruct (String.eqb k k'); simpl; [now apply IH|].
  apply NoDup_cons. split; [|now apply IH].
  rewrite list_elem_of_In. intros Hin. apply Hnotin.
  apply list_elem_of_In. now apply keys_delete in Hin.
Qed.

Section ReadingProperties.

Context {R : NodeRuntime} {Q : FirestoreReads}.

Ltac enter_get :=
  unfold getVapiCallLogById, getVapiCallLogById_try, firestore_get, try_catch,
    bind, Date_toISOString, Date_now, js_get, lift, ret, throw, bind, ret; simpl.

Lemma getVapiCallLogById_runs (id key : string) (st : state) :
  document_key id = Some key ->
  firestore_fetch "vapiCallLogs" key = Ret tt ->
  exists resp,
    getVapiCallLogById (Some (JObj [("callId", JStr id)])) st
      = (Ret resp,
         mkState (st_db st) (st_trace st) (S (st_clock st)) (st_random st)) /\
    match st_db st !! key with
    | Some stored =>
        status resp = 200 /\
        response_code resp = Some (JStr "LOG_RETRIEVED") /\
        response_data resp
          = Some (JObj (assign [("id", JStr (document_id id))]
                          (spread (Some stored))))
    | None =>
        status resp = 404 /\
        response_code resp = Some (JStr "LOG_NOT_FOUND") /\
        property (Some (body resp)) "callId" = Ret (Some (JStr id))
    end.
Proof.
  intros Hkey Hfetch.
  enter_get. rewrite (doc_ref_of_key id key Hkey). simpl. rewrite Hfetch. simpl.
  destruct (st_db st !! key) as [stored|]; simpl;
    eexists; (split; [reflexivity|]); repeat split.
Qed.

(** X15. [getVapiCallLogById] with an identifier that names a document
    which Firestore can read: when there is no such document the answer
    is 404 [LOG_NOT_FOUND] and echoes the identifier; otherwise it is
    200 [LOG_RETRIEVED] and [data] is the stored document with [id] set
    to [doc.id], the last segment of the identifier (the identifier
    itself when it has no slash), unless the document has an [id] of
    its own.  The store and the trace of cryptographic calls are
    unchanged. *)
Theorem lookup_by_id_answers (id key : string) (st : state) :
  document_key id = Some key ->
  firestore_fetch "vapiCallLogs" key = Ret tt ->
  exists resp st',
    getVapiCallLogById (Some (JObj [("callId", JStr id)])) st = (Ret resp, st') /\
    st_db st' = st_db st /\
    st_trace st' = st_trace st /\
    match st_db st !! key with
    | Some stored =>
        status resp = 200 /\
        response_code resp = Some (JStr "LOG_RETRIEVED") /\
        response_data resp
          = Some (JObj (assign [("id", JStr (document_id id))]
                          (spread (Some stored))))
    | None =>
        status resp = 404 /\
        response_code resp = Some (JStr "LOG_NOT_FOUND") /\
        property (Some (body resp)) "callId" = Ret (Some (JStr id))
    end.
Proof.
  intros Hkey Hfetch.
  destruct (getVapiCallLogById_runs id key st Hkey Hfetch)
    as (resp & Hrun & Hcase).
  eexists _, _. split; [exact Hrun|]. repeat split. exact Hcase.
Qed.

(** X16. What was ingested can be read back: after [saveVapiCallLog]
    accepted a payload that passes the freshness check, with a [callId]
    [id] that names a document, [getVapiCallLogById] of [id] answers 200
    and its [data] has the payload's [callId], no [_timestamp] and no
    [_version], the payload's value for every property the handler does
    not add, and as [id] the payload's [id] when it has one and
    [doc.id], the last segment of [id], otherwise. *)
Theorem ingested_log_is_read_back (fields payload : list (string * json))
    (id key : string) (st : state) :
  let timestamp := toISOString (clock_ms (st_clock st)) in
  NoDup (map fst payload) ->
  Decodes fields payload ->
  truthy (Obj.lookup "encrypted" fields) = true ->
  fresh (clock_ms (S (st_clock st))) payload = true ->
  Obj.lookup "callId" payload = Some (JStr id) ->
  document_key id = Some key ->
  firestore_commit "vapiCallLogs" key (document timestamp (stripped payload))
    = Ret tt ->
  firestore_fetch "vapiCallLogs" key = Ret tt ->
  exists saved st1 found st2 data,
    saveVapiCallLog (Some (JObj fields)) st = (Ret saved, st1) /\
    getVapiCallLogById (Some (JObj [("callId", JStr id)])) st1
      = (Ret found, st2) /\
    status saved = 200 /\ status found = 200 /\
    response_data found = Some (JObj data) /\
    Obj.lookup "callId" data = Some (JStr id) /\
    Obj.lookup "_timestamp" data = None /\
    Obj.lookup "_version" data = None /\
    (forall k, k <> "id" -> k <> "createdAt" -> k <> "savedAt" ->
               k <> "encryptionMetadata" -> k <> "_timestamp" ->
               k <> "_version" ->
               Obj.lookup k data = Obj.lookup k payload) /\
    Obj.lookup "id" data
      = match Obj.lookup "id" payload with
        | Some v => Some v
        | None => Some (JStr (document_id id))
        end.
Proof.
  intros timestamp Hnd Hdec Hgate Hfresh Hid Hkey Hcommit Hfetch.
  pose proof Hid as Hid'.
  rewrite <- (lookup_stripped "callId" payload) in Hid by discriminate.
  destruct (fresh_payload_is_stored fields payload id key st Hdec Hgate Hfresh
              Hid Hkey Hcommit) as (saved & evs & Hrun & Hstatus & _).
  fold timestamp in Hrun.
  set (doc := document timestamp (stripped payload)) in *.
  set (st1 := mkState (<[key := doc]> (st_db st)) (st_trace st ++ evs)
                      (S (S (S (st_clock st)))) (st_random st)) in *.
  destruct (getVapiCallLogById_runs id key st1 Hkey Hfetch)
    as (found & Hget & Hfound).
  simpl in Hfound. rewrite lookup_insert_eq in Hfound.
  destruct Hfound as (Hs & _ & Hdata).
  unfold doc, document in Hdata. simpl in Hdata.
  eexists saved, st1, found, _, _.
  split; [exact Hrun|]. split; [exact Hget|].
  split; [exact Hstatus|]. split; [exact Hs|]. split; [exact Hdata|].
  assert (Hnd' : NoDup (map fst
            (Obj.set "encryptionMetadata"
               (JObj [("encrypted", JBool true); ("algorithm", JStr "AES-256-CBC");
                      ("verified", JBool true); ("decryptedAt", JStr timestamp)])
               (Obj.set "savedAt" (JStr timestamp)
                  (Obj.set "createdAt" serverTimestamp (stripped payload)))))).
  { repeat apply NoDup_set. unfold stripped. now repeat apply NoDup_delete. }
  assert (Hdoc : forall k, k <> "createdAt" -> k <> "savedAt" ->
                   k <> "encryptionMetadata" ->
                   Obj.lookup k
                     (Obj.set "encryptionMetadata"
                        (JObj [("encrypted", JBool true); ("algorithm", JStr "AES-256-CBC");
                               ("verified", JBool true); ("decryptedAt", JStr timestamp)])
                        (Obj.set "savedAt" (JStr timestamp)
                           (Obj.set "createdAt" serverTimestamp (stripped payload))))
                   = Obj.lookup k (stripped payload)).
  { intros k H1 H2 H3. now rewrite !lookup_set_other. }
  assert (Hany : forall k, k <> "createdAt" -> k <> "savedAt" ->
                   k <> "encryptionMetadata" ->
                   Obj.lookup k (assign [("id", JStr (document_id id))]
                     (Obj.set "encryptionMetadata"
                        (JObj [("encrypted", JBool true); ("algorithm", JStr "AES-256-CBC");
                               ("verified", JBool true); ("decryptedAt", JStr timestamp)])
                        (Obj.set "savedAt" (JStr timestamp)
                           (Obj.set "createdAt" serverTimestamp (stripped payload)))))
                   = match Obj.lookup k (stripped payload) with
                     | Some v => Some v
                     | None => Obj.lookup k [("id", JStr (document_id id))]
                     end).
  { intros k H1 H2 H3.
    destruct (Obj.lookup k (stripped payload)) as [v|] eqn:E.
    - apply lookup_assign_present; [exact Hnd'|]. now rewrite Hdoc.
    - apply lookup_assign_absent. now rewrite Hdoc. }
  repeat split.
  - rewrite Hany by discriminate. now rewrite Hid.
  - rewrite Hany by discriminate. unfold stripped.
    rewrite lookup_delete_other by discriminate.
    now rewrite lookup_delete_same.
  - rewrite Hany by discriminate. unfold stripped.
    now rewrite lookup_delete_same.
  - intros k H1 H2 H3 H4 H5 H6. rewrite Hany by assumption.
    rewrite lookup_stripped by assumption.
    destruct (Obj.lookup k payload); [reflexivity|].
    simpl. apply String.eqb_neq in H1. now rewrite H1.
  - rewrite Hany by discriminate.
    rewrite lookup_stripped by discriminate.
    now destruct (Obj.lookup "id" payload).
Qed.

End ReadingProperties.

(** ** Merging *)

Lemma lookup_merge_fields_absent k new old :
  Obj.lookup k new = None ->
  Obj.lookup k (merge_fields new old) = Obj.lookup k old.
Proof.
  unfold merge_fields. revert old.
  induction new as [|[k' v] new IH]; intros old H; simpl in *.
  - reflexivity.
  - destruct (String.eqb k k') eqn:E; [discriminate|].
    rewrite IH by exact H. apply lookup_set_other.
    now apply String.eqb_neq.
Qed.

Lemma lookup_absent_key k (o : list (string * json)) :
  k ∉ map fst o -> Obj.lookup k o = None.
Proof.
  induction o as [|[k2 v2] o IH]; simpl; auto.
  intros Hnotin. destruct (String.eqb k k2) eqn:E.
  - apply String.eqb_eq in E. subst. exfalso. apply Hnotin. now left.
  - apply IH. intros Hin. apply Hnotin. now right.
Qed.

Lemma lookup_merge_fields_present k v new old :
  NoDup (map fst new) -> Obj.lookup k new = Some v ->
  Obj.lookup k (merge_fields new old)
    = Some (merge_value v (Obj.lookup k old)).
Proof.
  unfold merge_fields. revert old.
  induction new as [|[k' v'] new IH]; intros old Hnd H; simpl in *.
  - discriminate.
  - apply NoDup_cons in Hnd as [Hnotin Hnd].
    destruct (String.eqb k k') eqn:E.
    + apply String.eqb_eq in E. subst k'. injection H as ->.
      fold (merge_fields new
              (Obj.set k (merge_value v (Obj.lookup k old)) old)).
      rewrite lookup_merge_fields_absent by now apply lookup_absent_key.
      apply lookup_set_same.
    + rewrite IH by assumption.
      rewrite lookup_set_other; [reflexivity|]. now apply String.eqb_neq.
Qed.

Lemma merge_value_leaf v old : leaf v = true -> merge_value v old = v.
Proof. destruct v as [| | | | |[|kv o]]; try reflexivity; discriminate. Qed.

(** ** Generated identifiers *)

Lemma no_slash_append (a b : string) :
  no_slash (a +:+ b) = no_slash a && no_slash b.
Proof.
  unfold no_slash. induction a as [|c a IH]; simpl; [reflexivity|].
  now rewrite IH, andb_assoc.
Qed.

Lemma no_slash_digits (d : Decimal.uint) :
  no_slash (NilEmpty.string_of_uint d) = true.
Proof. unfold no_slash. induction d; simpl; auto. Qed.

Lemma no_slash_integer (i : Decimal.int) :
  no_slash (NilZero.string_of_int i) = true.
Proof.
  destruct i as [d|d]; simpl.
  - destruct d; try apply no_slash_digits; reflexivity.
  - destruct d; try apply (no_slash_digits (Decimal.D0 Decimal.Nil));
      unfold no_slash; simpl; apply no_slash_digits.
Qed.

Lemma base36_digit_no_slash (d : nat) :
  negb (Ascii.eqb (base36_digit d) "/") = true.
Proof.
  unfold base36_digit.
  assert (Hall : Forall (fun c => negb (Ascii.eqb c "/") = true)
            (list_ascii_of_string "0123456789abcdefghijklmnopqrstuvwxyz"))
    by (repeat constructor).
  rewrite Forall_forall in Hall. apply Hall. apply list_elem_of_In.
  apply nth_In. change (d mod 36 < 36)%nat.
  apply Nat.mod_upper_bound. discriminate.
Qed.

Lemma no_slash_base36 (l : list nat) :
  no_slash (string_of_list_ascii (map base36_digit l)) = true.
Proof.
  unfold no_slash. rewrite list_ascii_of_string_of_list_ascii.
  induction l as [|d l IH]; simpl; [reflexivity|].
  now rewrite base36_digit_no_slash, IH.
Qed.

Section SessionProperties.

Context {R : NodeRuntime} {P : SessionRuntime}.

(** The identifier [initiateVapiCall] generates names a document. *)
Lemma generated_callId_is_plain (t : Z) (n : nat) :
  document_key ("call_" +:+ NilZero.string_of_int (Z.to_int t) +:+ "_"
                +:+ random_suffix n)
  = Some ("call_" +:+ NilZero.string_of_int (Z.to_int t) +:+ "_"
          +:+ random_suffix n).
Proof.
  apply document_key_plain. unfold plain. apply andb_true_iff. split.
  - reflexivity.
  - rewrite !no_slash_append, no_slash_integer. unfold random_suffix.
    now rewrite no_slash_base36.
Qed.

Ltac session :=
  unfold makeVapiCall, makeVapiCall_try, initiateVapiCall,
    initiateVapiCall_try, updateCallStatus, updateCallStatus_try,
    endVapiCall, endVapiCall_try, identifier, Session.calls_set,
    Session.calls_update, Session.calls_merge, Session.put,
    Session.fetch, Session.now_iso, Session.now, Session.random, Session.get,
    Session.try_catch, Session.bind, Session.log, Session.lift, Session.ret,
    Session.throw; simpl.

Lemma prints_or_json a b :
  prints (or_else a (Some b)) = converts (or_json a b).
Proof.
  unfold or_json, or_else. destruct a as [x|]; [|reflexivity].
  destruct (truthy (Some x)); reflexivity.
Qed.

Lemma truthy_string s : s <> "" -> truthy (Some (JStr s)) = true.
Proof. intros H. apply String.eqb_neq in H. simpl. now rewrite H. Qed.

(** *** [makeVapiCall] *)

(** X17. [makeVapiCall] never reaches the Vapi service and never
    answers 200.  When the configuration is incomplete it answers 400;
    otherwise it answers 500, because the [Authorization] header reads
    [VAPI_PRIVATE_API_KEY], which the module does not declare: for a
    request with a body the error is
    ["VAPI_PRIVATE_API_KEY is not defined"].  No request is sent, no
    document is written and the clock is not read. *)
Theorem make_call_never_reaches_vapi (requestBody : jsval) (w : world) :
  exists resp,
    makeVapiCall requestBody w = (Ret resp, w) /\
    (status resp = 400 \/ status resp = 500) /\
    (status resp = 400 <-> validateVapiConfig = false) /\
    (forall v, validateVapiConfig = true ->
               property requestBody "userId" = Ret v ->
               body resp
                 = JObj [("success", JBool false);
                         ("error", JStr "VAPI_PRIVATE_API_KEY is not defined")]).
Proof.
  session. destruct validateVapiConfig; simpl.
  - destruct (property requestBody "userId") as [v|m] eqn:E; simpl;
      eexists; (split; [reflexivity|]); simpl;
      (split; [now right|]); (split; [split; discriminate|]);
      intros v' _; try discriminate; reflexivity.
  - eexists. split; [reflexivity|]. simpl. split; [now left|].
    split; [tauto|]. discriminate.
Qed.

(** *** [initiateVapiCall] *)

Lemma initiateVapiCall_runs (b : list (string * json)) (a : string) (w : world) :
  let timestamp := toISOString (clock_ms (w_clock w)) in
  let callId :=
    "call_" +:+ NilZero.string_of_int (Z.to_int (clock_ms (S (w_clock w))))
    +:+ "_" +:+ random_suffix (w_random w) in
  let userId := or_json (Obj.lookup "userId" b) (JStr "anonymous") in
  let doc := session_document (JStr callId) userId (JStr a) timestamp in
  or_else (Obj.lookup "assistantOverride" b) VAPI_ASSISTANT_ID = Some (JStr a) ->
  a <> "" ->
  converts userId = true ->
  firestore_commit "vapi_calls" callId (JObj doc) = Ret tt ->
  exists resp,
    initiateVapiCall (Some (JObj b)) w
      = (Ret resp,
         mkWorld (<[callId := doc]> (w_calls w)) (w_requests w)
                 (S (S (w_clock w))) (S (w_random w))) /\
    status resp = 200 /\
    property (Some (body resp)) "callId" = Ret (Some (JStr callId)) /\
    property (Some (body resp)) "assistantId" = Ret (Some (JStr a)).
Proof.
  intros timestamp callId userId doc Ha Hne Hu Hcommit.
  session. rewrite Ha. rewrite (truthy_string a Hne). simpl.
  rewrite prints_or_json. fold userId. rewrite Hu. simpl.
  assert (Hor : or_json (Some (JStr a)) JNull = JStr a).
  { unfold or_json, or_else. now rewrite (truthy_string a Hne). }
  rewrite !Hor. fold timestamp. fold callId.
  unfold callId at 1. rewrite (doc_ref_of_key _ _ (generated_callId_is_plain _ _)).
  simpl. fold callId. fold doc. rewrite Hcommit. simpl.
  eexists. split; [reflexivity|]. repeat split.
Qed.

(** X18. What an initiation stores: with an assistant identifier that
    is a non-empty string (the override of the request, else the
    configured one), [initiateVapiCall] answers 200, the identifier of
    the call is ["call_"], the time in milliseconds, ["_"] and the
    random suffix, the response carries it, and the session document is
    stored under it; a falsy [userId] is stored as ["anonymous"].  No
    request is sent to Vapi. *)
Theorem initiation_stores_the_session (b : list (string * json)) (a : string)
    (w : world) :
  let timestamp := toISOString (clock_ms (w_clock w)) in
  let callId :=
    "call_" +:+ NilZero.string_of_int (Z.to_int (clock_ms (S (w_clock w))))
    +:+ "_" +:+ random_suffix (w_random w) in
  let userId := or_json (Obj.lookup "userId" b) (JStr "anonymous") in
  let doc := session_document (JStr callId) userId (JStr a) timestamp in
  or_else (Obj.lookup "assistantOverride" b) VAPI_ASSISTANT_ID = Some (JStr a) ->
  a <> "" ->
  converts userId = true ->
  firestore_commit "vapi_calls" callId (JObj doc) = Ret tt ->
  exists resp w',
    initiateVapiCall (Some (JObj b)) w = (Ret resp, w') /\
    status resp = 200 /\
    property (Some (body resp)) "callId" = Ret (Some (JStr callId)) /\
    property (Some (body resp)) "assistantId" = Ret (Some (JStr a)) /\
    w_calls w' = <[callId := doc]> (w_calls w) /\
    w_requests w' = w_requests w /\
    (truthy (Obj.lookup "userId" b) = false ->
     Obj.lookup "userId" doc = Some (JStr "anonymous")).
Proof.
  intros timestamp callId userId doc Ha Hne Hu Hcommit.
  destruct (initiateVapiCall_runs b a w Ha Hne Hu Hcommit)
    as (resp & Hrun & Hs & Hid & Has).
  eexists _, _. split; [exact Hrun|]. repeat split; try assumption.
  intros Hfalsy. simpl. unfold userId, or_json, or_else. now rewrite Hfalsy.
Qed.

(** X19. Initiations that store nothing: without an assistant
    identifier (no truthy override and none configured) the answer is
    400 [MISSING_ASSISTANT_CONFIG]; with a truthy override that is not a
    string, [substring] is not a function and the answer is 500
    [CALL_INITIATION_ERROR].  In both cases the collection is
    unchanged. *)
Theorem initiation_failures_store_nothing (b : list (string * json))
    (w : world) :
  let assistantId := or_else (Obj.lookup "assistantOverride" b) VAPI_ASSISTANT_ID in
  exists resp w',
    initiateVapiCall (Some (JObj b)) w = (Ret resp, w') /\
    (truthy assistantId = false ->
     status resp = 400 /\
     response_code resp = Some (JStr "MISSING_ASSISTANT_CONFIG") /\
     w_calls w' = w_calls w) /\
    (truthy assistantId = true -> is_string assistantId = false ->
     status resp = 500 /\
     response_code resp = Some (JStr "CALL_INITIATION_ERROR") /\
     w_calls w' = w_calls w).
Proof.
  intros assistantId. session. fold assistantId.
  destruct (truthy assistantId) eqn:Ht; simpl.
  - destruct (prints (or_else (Obj.lookup "userId" b) (Some (JStr "anonymous"))));
      simpl.
    + destruct (is_string assistantId) eqn:Hs; simpl.
      * break; eexists _, _; (split; [reflexivity|]);
          split; intros; discriminate.
      * eexists _, _. split; [reflexivity|].
        split; [discriminate|]. intros _ _. repeat split.
    + eexists _, _. split; [reflexivity|].
      split; [discriminate|]. intros _ _. repeat split.
  - eexists _, _. split; [reflexivity|].
    split; [|discriminate]. intros _. repeat split.
Qed.

(** *** [updateCallStatus] *)

(** X20. A status update never creates a document, for every request:
    [updateCallStatus] answers 200 only when [callId] is a string that
    names a document which was already stored, and then only that
    document is replaced; on every other request it answers 400 or 500
    and the collection is unchanged.  No request is sent to Vapi. *)
Theorem status_update_never_creates_a_document (requestBody : jsval)
    (w : world) :
  exists resp w',
    updateCallStatus requestBody w = (Ret resp, w') /\
    w_requests w' = w_requests w /\
    ((status resp = 200 /\
      exists id key old new,
        property requestBody "callId" = Ret (Some (JStr id)) /\
        document_key id = Some key /\
        w_calls w !! key = Some old /\
        w_calls w' = <[key := new]> (w_calls w)) \/
     ((status resp = 400 \/ status resp = 500) /\ w_calls w' = w_calls w)).
Proof.
  session. unfold property. break; subst;
    (eexists _, _; split; [reflexivity|]; simpl; split; [reflexivity|];
     first
       [ right; split; [tauto|reflexivity]
       | left; split; [reflexivity|];
         match goal with
         | H : doc_ref _ = Ret _ |- _ =>
             destruct (doc_ref_key _ _ H) as (_ & path & Hpath & Hkey)
         end;
         eexists path, _, _, _;
         split; [now rewrite Hpath|]; split; [exact Hkey|];
         split; [eassumption|reflexivity] ]).
Qed.

Lemma updateCallStatus_runs (b old : list (string * json)) (id key : string)
    (s : json) (w : world) :
  let timestamp := toISOString (clock_ms (w_clock w)) in
  let data := updateData (Some s) (Obj.lookup "microphone" b)
                (Obj.lookup "metadata" b) timestamp in
  Obj.lookup "callId" b = Some (JStr id) ->
  document_key id = Some key ->
  Obj.lookup "status" b = Some s ->
  truthy (Some s) = true ->
  converts s = true ->
  w_calls w !! key = Some old ->
  firestore_commit "vapi_calls" key (JObj data) = Ret tt ->
  exists resp,
    updateCallStatus (Some (JObj b)) w
      = (Ret resp,
         mkWorld (<[key := assign old data]> (w_calls w)) (w_requests w)
                 (S (w_clock w)) (w_random w)) /\
    status resp = 200.
Proof.
  intros timestamp data Hid Hkey Hs Ht Hc Hold Hcommit.
  session. rewrite Hid, Hs. rewrite (document_key_truthy id key Hkey), Ht.
  simpl. rewrite Hc. simpl. rewrite (doc_ref_of_key id key Hkey). simpl.
  fold timestamp. fold data. rewrite Hcommit. simpl. rewrite Hold.
  eexists. split; reflexivity.
Qed.

Lemma NoDup_updateData status microphone metadata timestamp :
  NoDup (map fst (updateData (Some status) microphone metadata timestamp)).
Proof.
  unfold updateData.
  destruct (truthy microphone), microphone, (truthy metadata), metadata;
    vm_compute; repeat (apply NoDup_cons; split;
      [rewrite list_elem_of_In; simpl; intuition discriminate|]);
    apply NoDup_nil_2.
Qed.

(** X21. What a status update changes in the document: [status] and
    [lastUpdated] are replaced by the request's status and the
    handler's timestamp; [microphone] and [metadata] are replaced when
    the request's value is truthy and kept otherwise; every other field
    of the document, and every other document, is kept.  The document
    is the one [callId] names: its key is the identifier itself when
    that has no slash. *)
Theorem status_update_replaces_named_fields (b old : list (string * json))
    (id key : string) (s : json) (w : world) :
  let timestamp := toISOString (clock_ms (w_clock w)) in
  let data := updateData (Some s) (Obj.lookup "microphone" b)
                (Obj.lookup "metadata" b) timestamp in
  Obj.lookup "callId" b = Some (JStr id) ->
  document_key id = Some key ->
  Obj.lookup "status" b = Some s ->
  truthy (Some s) = true ->
  converts s = true ->
  w_calls w !! key = Some old ->
  firestore_commit "vapi_calls" key (JObj data) = Ret tt ->
  exists resp w' new,
    updateCallStatus (Some (JObj b)) w = (Ret resp, w') /\
    status resp = 200 /\
    w_calls w' !! key = Some new /\
    (forall other, other <> key -> w_calls w' !! other = w_calls w !! other) /\
    Obj.lookup "status" new = Some s /\
    Obj.lookup "lastUpdated" new = Some (JStr timestamp) /\
    (forall k, k = "microphone" \/ k = "metadata" ->
       Obj.lookup k new
         = if truthy (Obj.lookup k b) then Obj.lookup k b
           else Obj.lookup k old) /\
    (forall k, k <> "status" -> k <> "lastUpdated" -> k <> "microphone" ->
               k <> "metadata" -> Obj.lookup k new = Obj.lookup k old).
Proof.
  intros timestamp data Hid Hkey Hs Ht Hc Hold Hcommit.
  destruct (updateCallStatus_runs b old id key s w Hid Hkey Hs Ht Hc Hold
              Hcommit)
    as (resp & Hrun & Hstatus).
  eexists _, _, _. split; [exact Hrun|]. split; [exact Hstatus|]. simpl.
  split; [apply lookup_insert_eq|].
  split; [intros other Hother; now apply lookup_insert_ne|].
  pose proof (NoDup_updateData s (Obj.lookup "microphone" b)
                (Obj.lookup "metadata" b) timestamp) as Hnd.
  fold data in Hnd.
  assert (Hdata : forall k,
            Obj.lookup k data
            = if String.eqb k "status" then Some s
              else if String.eqb k "lastUpdated" then Some (JStr timestamp)
              else if String.eqb k "microphone"
                   then (if truthy (Obj.lookup "microphone" b)
                         then Obj.lookup "microphone" b else None)
              else if String.eqb k "metadata"
                   then (if truthy (Obj.lookup "metadata" b)
                         then Obj.lookup "metadata" b else None)
              else None).
  { intros k. unfold data, updateData.
    generalize (Obj.lookup "microphone" b) (Obj.lookup "metadata" b).
    intros mic meta.
    assert (Hcases : k = "status" \/ k = "lastUpdated" \/ k = "microphone" \/
                     k = "metadata" \/
                     (String.eqb k "status" = false /\
                      String.eqb k "lastUpdated" = false /\
                      String.eqb k "microphone" = false /\
                      String.eqb k "metadata" = false)).
    { destruct (String.eqb k "status") eqn:E1;
        [apply String.eqb_eq in E1; tauto|].
      destruct (String.eqb k "lastUpdated") eqn:E2;
        [apply String.eqb_eq in E2; tauto|].
      destruct (String.eqb k "microphone") eqn:E3;
        [apply String.eqb_eq in E3; tauto|].
      destruct (String.eqb k "metadata") eqn:E4;
        [apply String.eqb_eq in E4; tauto|].
      tauto. }
    destruct mic as [m|], meta as [d|];
      try destruct (truthy (Some m)); try destruct (truthy (Some d));
      unfold Obj.literal; simpl;
      (destruct Hcases as [-> | [-> | [-> | [-> | (E1 & E2 & E3 & E4)]]]];
       [reflexivity .. | now rewrite ?E1, ?E2, ?E3, ?E4]). }
  assert (Hnew : forall k,
            Obj.lookup k (assign old data)
            = match Obj.lookup k data with
              | Some v => Some v
              | None => Obj.lookup k old
              end).
  { intros k. destruct (Obj.lookup k data) eqn:E.
    - now apply lookup_assign_present.
    - now apply lookup_assign_absent. }
  repeat split.
  - rewrite Hnew, Hdata. reflexivity.
  - rewrite Hnew, Hdata. reflexivity.
  - intros k [-> | ->]; rewrite Hnew, Hdata; simpl.
    + destruct (truthy (Obj.lookup "microphone" b)) eqn:Hm; [|reflexivity].
      destruct (Obj.lookup "microphone" b); [reflexivity|discriminate].
    + destruct (truthy (Obj.lookup "metadata" b)) eqn:Hm; [|reflexivity].
      destruct (Obj.lookup "metadata" b); [reflexivity|discriminate].
  - intros k H1 H2 H3 H4. rewrite Hnew, Hdata.
    apply String.eqb_neq in H1, H2, H3, H4. now rewrite H1, H2, H3, H4.
Qed.

(** *** [endVapiCall] *)

Lemma endVapiCall_runs (b : list (string * json)) (id key : string)
    (w : world) :
  let timestamp := toISOString (clock_ms (w_clock w)) in
  let data := endData (Obj.lookup "transcript" b) (Obj.lookup "summary" b)
                (Obj.lookup "recordingUrl" b) (Obj.lookup "duration" b)
                timestamp in
  Obj.lookup "callId" b = Some (JStr id) ->
  document_key id = Some key ->
  printable_duration (Obj.lookup "duration" b) = true ->
  printable_length (Obj.lookup "transcript" b) = true ->
  firestore_commit "vapi_calls" key
    (JObj (data ++ [("updatedAt", serverTimestamp)])) = Ret tt ->
  exists resp,
    endVapiCall (Some (JObj b)) w
      = (Ret resp,
         mkWorld (<[key := Obj.set "updatedAt" serverTimestamp
                            (merge_fields data (default [] (w_calls w !! key)))]>
                    (w_calls w))
                 (w_requests w) (S (w_clock w)) (w_random w)) /\
    status resp = 200.
Proof.
  intros timestamp data Hid Hkey Hd Hl Hcommit.
  session. rewrite Hid. rewrite (document_key_truthy id key Hkey). simpl.
  rewrite Hd, Hl. simpl. rewrite (doc_ref_of_key id key Hkey). simpl.
  unfold data, endData, timestamp in Hcommit. simpl in Hcommit.
  rewrite Hcommit. simpl.
  eexists. split; reflexivity.
Qed.

Lemma lookup_endData (b : list (string * json)) (timestamp : string) (k : string) :
  Obj.lookup k (endData (Obj.lookup "transcript" b) (Obj.lookup "summary" b)
                  (Obj.lookup "recordingUrl" b) (Obj.lookup "duration" b)
                  timestamp)
  = if String.eqb k "status" then Some (JStr "ended")
    else if String.eqb k "endedAt" then Some (JStr timestamp)
    else match Obj.lookup k final_defaults with
         | Some d => Some (or_json (Obj.lookup k b) d)
         | None => None
         end.
Proof.
  unfold endData, final_defaults. simpl.
  destruct (String.eqb k "status"); [reflexivity|].
  destruct (String.eqb k "endedAt"); [reflexivity|].
  destruct (String.eqb k "transcript") eqn:E1;
    [apply String.eqb_eq in E1; now subst|].
  destruct (String.eqb k "summary") eqn:E2;
    [apply String.eqb_eq in E2; now subst|].
  destruct (String.eqb k "recordingUrl") eqn:E3;
    [apply String.eqb_eq in E3; now subst|].
  destruct (String.eqb k "duration") eqn:E4;
    [apply String.eqb_eq in E4; now subst|].
  reflexivity.
Qed.

Lemma NoDup_endData t s r d timestamp :
  NoDup (map fst (endData t s r d timestamp)).
Proof.
  unfold endData. simpl.
  repeat (apply NoDup_cons; split;
    [rewrite list_elem_of_In; simpl; intuition discriminate|]).
  apply NoDup_nil_2.
Qed.

(** X22. What ending a call stores in the document [callId] names
    (its key is the identifier itself when that has no slash), whether
    or not the document exists: the document has [status] ["ended"], [endedAt] the
    handler's timestamp and [updatedAt] the server's; each of
    [transcript], [summary], [recordingUrl] and [duration] that is
    falsy in the request is stored as its default ([[]] for the
    transcript, [null] for the others, so a duration of 0 is stored as
    [null]), and a truthy one is merged into what was stored; every
    other field of the document, and every other document, is kept. *)
Theorem ending_a_call_merges_the_final_data (b : list (string * json))
    (id key : string) (w : world) :
  let timestamp := toISOString (clock_ms (w_clock w)) in
  let data := endData (Obj.lookup "transcript" b) (Obj.lookup "summary" b)
                (Obj.lookup "recordingUrl" b) (Obj.lookup "duration" b)
                timestamp in
  let old := default [] (w_calls w !! key) in
  Obj.lookup "callId" b = Some (JStr id) ->
  document_key id = Some key ->
  printable_duration (Obj.lookup "duration" b) = true ->
  printable_length (Obj.lookup "transcript" b) = true ->
  firestore_commit "vapi_calls" key
    (JObj (data ++ [("updatedAt", serverTimestamp)])) = Ret tt ->
  exists resp w' new,
    endVapiCall (Some (JObj b)) w = (Ret resp, w') /\
    status resp = 200 /\
    w_calls w' !! key = Some new /\
    (forall other, other <> key -> w_calls w' !! other = w_calls w !! other) /\
    Obj.lookup "status" new = Some (JStr "ended") /\
    Obj.lookup "endedAt" new = Some (JStr timestamp) /\
    Obj.lookup "updatedAt" new = Some serverTimestamp /\
    (forall k d, Obj.lookup k final_defaults = Some d ->
       (truthy (Obj.lookup k b) = false -> Obj.lookup k new = Some d) /\
       (forall v, Obj.lookup k b = Some v -> truthy (Some v) = true ->
          Obj.lookup k new = Some (merge_value v (Obj.lookup k old)))) /\
    (forall k, k <> "status" -> k <> "endedAt" -> k <> "updatedAt" ->
               Obj.lookup k final_defaults = None ->
               Obj.lookup k new = Obj.lookup k old).
Proof.
  intros timestamp data old Hid Hkey Hd Hl Hcommit.
  destruct (endVapiCall_runs b id key w Hid Hkey Hd Hl Hcommit)
    as (resp & Hrun & Hstatus).
  fold timestamp in Hrun. fold data in Hrun. fold old in Hrun.
  eexists _, _, _. split; [exact Hrun|]. split; [exact Hstatus|].
  cbn [w_calls].
  split; [apply lookup_insert_eq|].
  split; [intros other Hother; now apply lookup_insert_ne|].
  pose proof (NoDup_endData (Obj.lookup "transcript" b) (Obj.lookup "summary" b)
                (Obj.lookup "recordingUrl" b) (Obj.lookup "duration" b)
                timestamp) as Hnd.
  fold data in Hnd.
  pose proof (lookup_endData b timestamp) as Hdata. fold data in Hdata.
  repeat split.
  - rewrite lookup_set_other by discriminate.
    erewrite lookup_merge_fields_present; [|exact Hnd|rewrite Hdata; reflexivity].
    reflexivity.
  - rewrite lookup_set_other by discriminate.
    erewrite lookup_merge_fields_present; [|exact Hnd|rewrite Hdata; reflexivity].
    reflexivity.
  - apply lookup_set_same.
  - intros Hfalsy.
    assert (Hk : k <> "updatedAt" /\ k <> "status" /\ k <> "endedAt" /\ leaf d = true).
    { unfold final_defaults in H. simpl in H.
      repeat match type of H with
      | (if String.eqb k ?x then _ else _) = _ =>
          let E := fresh "E" in
          destruct (String.eqb k x) eqn:E;
          [apply String.eqb_eq in E; subst k; injection H as <-;
           repeat split; (discriminate || reflexivity)|]
      end. discriminate. }
    destruct Hk as (H1 & H2 & H3 & Hleaf).
    rewrite lookup_set_other by exact H1.
    apply String.eqb_neq in H2, H3.
    erewrite lookup_merge_fields_present;
      [|exact Hnd|rewrite Hdata, H2, H3, H; reflexivity].
    unfold or_json, or_else. rewrite Hfalsy.
    now rewrite merge_value_leaf.
  - intros v Hv Htruthy.
    assert (Hk : k <> "updatedAt" /\ k <> "status" /\ k <> "endedAt").
    { unfold final_defaults in H. simpl in H.
      repeat match type of H with
      | (if String.eqb k ?x then _ else _) = _ =>
          let E := fresh "E" in
          destruct (String.eqb k x) eqn:E;
          [apply String.eqb_eq in E; subst k;
           repeat split; discriminate|]
      end. discriminate. }
    destruct Hk as (H1 & H2 & H3).
    rewrite lookup_set_other by exact H1.
    apply String.eqb_neq in H2, H3.
    erewrite lookup_merge_fields_present;
      [|exact Hnd|rewrite Hdata, H2, H3, H; reflexivity].
    unfold or_json, or_else. rewrite Hv, Htruthy. reflexivity.
  - intros k H1 H2 H3 H4.
    rewrite lookup_set_other by exact H3.
    apply lookup_merge_fields_absent. rewrite Hdata.
    apply String.eqb_neq in H1, H2. now rewrite H1, H2, H4.
Qed.

(** *** A whole session *)


End SessionProperties.

(** * The handlers on concrete requests *)

Module Runs.

Import TestRuntime.
#[local] Existing Instance runtime.

Ltac compute_it := vm_compute; first [reflexivity | discriminate].

Lemma sealed_decodes (payload : list (string * json)) :
  JSON_parse (stringify (JObj payload)) = Ret (JObj payload) ->
  String.eqb (ciphertext_of (seal (JObj payload) zero_salt)) "" = false ->
  decipher_hex_utf8 "aes-256-cbc" (documented_key zero_salt) documented_iv
    (ciphertext_of (seal (JObj payload) zero_salt))
    = Ret (stringify (JObj payload)) ->
  Decodes (seal (JObj payload) zero_salt) payload.
Proof.
  intros Hjson Hne Hdec.
  exists (ciphertext_of (seal (JObj payload) zero_salt)),
         (stringify (JObj payload)), zero_salt.
  unfold ciphertext_of, seal in *. 
  destruct (encipher _ _ _ _) as [ct|m]; simpl in *; [|discriminate].
  repeat split; auto.
Qed.

Lemma fresh_envelope_decodes : Decodes fresh_envelope stamped_call.
Proof. apply (sealed_decodes stamped_call); compute_it. Qed.

Lemma second_envelope_decodes : Decodes second_envelope stamped_again.
Proof. apply (sealed_decodes stamped_again); compute_it. Qed.

Lemma stale_envelope_decodes : Decodes stale_envelope stale_call.
Proof. apply (sealed_decodes stale_call); compute_it. Qed.

Lemma unstamped_envelope_decodes : Decodes unstamped_envelope call_1.
Proof. apply (sealed_decodes call_1); compute_it. Qed.

Lemma missigned_envelope_decodes : Decodes missigned_envelope stamped_call.
Proof.
  exists (ciphertext_of fresh_envelope), (stringify (JObj stamped_call)), zero_salt.
  repeat split; compute_it.
Qed.


(** The two envelope shapes of C5 on the same ciphertext: with a boolean
    flag and the ciphertext under [encryptedData] the request is
    answered 400 [DECRYPTION_ERROR]; with the ciphertext in [encrypted]
    and no other ciphertext field it is answered 200. *)
Lemma flagged_envelope_is_rejected :
  Obj.lookup "encrypted" flagged_envelope = Some (JBool true) /\
  Obj.lookup "encryptedData" flagged_envelope
    = Some (JStr (ciphertext_of fresh_envelope)) /\
  fst (saveVapiCallLog (Some (JObj flagged_envelope)) start)
    = Ret (decryption_failed_response "Invalid argument: decipher.update"
             "1700000000000") /\
  Obj.lookup "encryptedData" fresh_envelope = None /\
  Obj.lookup "ciphertext" fresh_envelope = None /\
  option_map status
    (match fst (saveVapiCallLog (Some (JObj fresh_envelope)) start) with
     | Ret resp => Some resp
     | Throw _ => None
     end) = Some 200.
Proof. repeat split; compute_it. Qed.

Lemma encrypt_then_decrypt_witness :
  exists envelope st1 r st2,
    encryptPayload (Some (JObj call_1)) start = (Ret envelope, st1) /\
    decryptPayload (Some envelope) st1 = (Ret r, st2) /\
    success r = true /\
    code r = "DECRYPTION_SUCCESS" /\
    data r = Some (JObj call_1) /\
    property (data r) "_timestamp" = Ret undefined /\
    property (data r) "_version" = Ret undefined.
Proof.
  exact (encrypt_then_decrypt (R := runtime) call_1 call_1_ciphertext start
           ltac:(compute_it) ltac:(compute_it) ltac:(compute_it)
           ltac:(compute_it) ltac:(compute_it) ltac:(compute_it)).
Defined.

Lemma freshness_window_witness :
  exists resp st',
    saveVapiCallLog (Some (JObj stale_envelope)) start = (Ret resp, st') /\
    resp = replay_response "1700000000000" /\
    st_db st' = st_db start.
Proof.
  destruct (freshness_window (R := runtime) stale_envelope stale_call 1600000000000 start
              stale_envelope_decodes ltac:(compute_it) ltac:(compute_it))
    as (_ & resp & st' & Hrun & Hold & _).
  exists resp, st'. split; [exact Hrun|].
  destruct (Hold ltac:(compute_it)) as (Hresp & Hdb & _).
  split; [exact Hresp|exact Hdb].
Defined.

Lemma signature_mismatch_witness :
  exists resp,
    fst (saveVapiCallLog (Some (JObj missigned_envelope)) start) = Ret resp /\
    status resp = 200 /\
    st_db (snd (saveVapiCallLog (Some (JObj missigned_envelope)) start)) !! "call_1"
      = Some (document "1700000000000" call_1).
Proof.
  destruct (signature_mismatch_is_not_fatal (R := runtime) missigned_envelope
              (ciphertext_of fresh_envelope) (JStr "00000000") start
              ltac:(compute_it) ltac:(compute_it) ltac:(compute_it)
              ltac:(compute_it) ltac:(compute_it))
    as (_ & Hstored).
  destruct (Hstored stamped_call "call_1" "call_1" missigned_envelope_decodes
              ltac:(compute_it) ltac:(compute_it) ltac:(compute_it)
              ltac:(compute_it) ltac:(compute_it))
    as (resp & Hresp & Hstatus & Hdb & _).
  exists resp. split; [exact Hresp|]. split; [exact Hstatus|exact Hdb].
Defined.

Lemma unencrypted_witness :
  exists st',
    saveVapiCallLog (Some (JObj call_1)) start
      = (Ret (unencrypted_response "1700000000000"), st') /\
    st_trace st' = [] /\
    st_db st' = ∅.
Proof.
  destruct (unencrypted_is_rejected_first (R := runtime) (Some (JObj call_1)) start
              (or_introl eq_refl))
    as (st' & Hrun & _ & Htrace & Hdb & _).
  exists st'. split; [exact Hrun|]. split; [exact Htrace|exact Hdb].
Defined.

Lemma wire_shape_witness :
  exists message st',
    saveVapiCallLog (Some (JObj flagged_envelope)) start
      = (Ret (decryption_failed_response message "1700000000000"), st') /\
    st_db st' = st_db start.
Proof.
  destruct (ciphertext_travels_in_encrypted (R := runtime) None flagged_envelope start)
    as (_ & _ & Hflag).
  exact (Hflag eq_refl).
Defined.

Lemma key_derivation_witness :
  exists checks,
    events_of (decryptPayload (Some (JObj fresh_envelope))) start
      = (checks ++
         [EvPbkdf2 ENCRYPTION_KEY zero_salt 1000 32 "sha256";
          EvDecipheriv "aes-256-cbc"
            (pbkdf2Sync ENCRYPTION_KEY zero_salt 1000 32 "sha256")
            documented_iv (Obj.lookup "encrypted" fresh_envelope)])%list /\
    existsb key_derivation_call checks = false.
Proof.
  destruct (key_derivation_parameters (R := runtime) fresh_envelope
              (Some (JObj call_1)) zero_salt start
              ltac:(compute_it) ltac:(intros _; compute_it))
    as ((checks & Hevents & Hnone & _) & _).
  exists checks. split; [exact Hevents|exact Hnone].
Defined.

(** C7 where the configured string is not ASCII.  With [ENCRYPTION_IV]
    set to the one character U+00E9 the string that is encoded still has
    16 characters, but the IV has 17 bytes; [decryptPayload] passes that
    IV to the cipher, which refuses it, so that an envelope which is
    accepted under the built-in string is answered with a decryption
    error. *)
Lemma accented_iv_has_17_bytes :
  ENCRYPTION_IV (R := accented) = e_acute /\
  String.length (documented_iv_string (R := accented)) = 16%nat /\
  length (documented_iv (R := accented)) = 17%nat /\
  events_of (decryptPayload (R := accented) (Some (JObj fresh_envelope))) start
    = [EvPbkdf2 (ENCRYPTION_KEY (R := accented)) zero_salt 1000 32 "sha256";
       EvDecipheriv "aes-256-cbc" (documented_key (R := accented) zero_salt)
         (documented_iv (R := accented))
         (Obj.lookup "encrypted" fresh_envelope)] /\
  fst (decryptPayload (R := accented) (Some (JObj fresh_envelope)) start)
    = Ret (failed "Invalid initialization vector") /\
  length (documented_iv (R := runtime)) = 16%nat /\
  success <$> (match fst (decryptPayload (R := runtime)
                            (Some (JObj fresh_envelope)) start) with
               | Ret r => Some r
               | Throw _ => None
               end) = Some true.
Proof. repeat split; compute_it. Qed.

Lemma iv_witness :
  documented_iv_string = "restaurant_ai_in" /\
  length documented_iv = 16%nat /\
  In (EvDecipheriv "aes-256-cbc" (documented_key zero_salt) documented_iv
        (Obj.lookup "encrypted" fresh_envelope))
     (events_of (decryptPayload (Some (JObj fresh_envelope))) start).
Proof.
  destruct (iv_is_fixed (R := runtime) fresh_envelope None None start)
    as (_ & _ & Hlen & Hused & _).
  split; [compute_it|]. split; [exact (Hlen ltac:(compute_it))|].
  exact (Hused zero_salt ltac:(compute_it) ltac:(intros _; compute_it)).
Defined.

Lemma failure_witness :
  fst (decryptPayload (Some (JObj garbled_envelope)) start)
    = Ret (failed "Invalid hex input").
Proof.
  destruct (failures_are_classified (R := runtime) (Some (JObj garbled_envelope)) start)
    as (_ & Hcipher & _).
  exact (Hcipher garbled_envelope "zz" zero_salt "Invalid hex input"
           eq_refl ltac:(compute_it) ltac:(compute_it) ltac:(compute_it)).
Defined.

Lemma upsert_witness :
  exists r1 st1 r2 st2,
    saveVapiCallLog (Some (JObj fresh_envelope)) start = (Ret r1, st1) /\
    saveVapiCallLog (Some (JObj second_envelope)) st1 = (Ret r2, st2) /\
    status r1 = 200 /\ status r2 = 200 /\
    st_db st2 !! "call_1" = Some (document "1700000003000" call_1_again) /\
    dom (st_db st2) = dom (st_db st1).
Proof.
  destruct (same_callId_is_overwritten (R := runtime) fresh_envelope second_envelope
              stamped_call stamped_again "call_1" "call_1" start
              fresh_envelope_decodes second_envelope_decodes
              ltac:(compute_it) ltac:(compute_it) ltac:(compute_it)
              ltac:(compute_it) ltac:(compute_it) ltac:(compute_it)
              ltac:(compute_it) ltac:(compute_it) ltac:(compute_it))
    as (r1 & st1 & r2 & st2 & H1 & H2 & Hs1 & Hs2 & _ & Hdoc & _ & Hdom & _).
  exists r1, st1, r2, st2.
  split; [exact H1|]. split; [exact H2|]. split; [exact Hs1|].
  split; [exact Hs2|]. split; [exact Hdoc|exact Hdom].
Defined.

Lemma missing_timestamp_witness :
  exists r st',
    decryptPayload (Some (JObj unstamped_envelope)) start = (Ret r, st') /\
    success r = true /\
    data r = Some (JObj call_1).
Proof.
  destruct (missing_timestamp_is_accepted (R := runtime) unstamped_envelope call_1 start
              unstamped_envelope_decodes eq_refl)
    as (_ & _ & r & st' & Hrun & Hok & _ & Hdata).
  exists r, st'. split; [exact Hrun|]. split; [exact Hok|exact Hdata].
Defined.

End Runs.

(** * The other handlers on concrete requests *)

Module MoreRuns.

Import TestRuntime Requests.
#[local] Existing Instance runtime.
#[local] Existing Instance reads.
#[local] Existing Instance sessions.

Ltac compute_it := vm_compute; first [reflexivity | discriminate].

Lemma nameless_envelope_decodes : Decodes nameless_envelope nameless_call.
Proof. apply (Runs.sealed_decodes nameless_call); compute_it. Qed.

Lemma numbered_envelope_decodes : Decodes numbered_envelope numbered_call.
Proof. apply (Runs.sealed_decodes numbered_call); compute_it. Qed.

Lemma slashed_envelope_decodes : Decodes slashed_envelope slashed_call.
Proof. apply (Runs.sealed_decodes slashed_call); compute_it. Qed.

Lemma long_envelope_decodes : Decodes long_envelope long_call.
Proof. apply (Runs.sealed_decodes long_call); compute_it. Qed.

Lemma pathed_envelope_decodes : Decodes pathed_envelope pathed_call.
Proof. apply (Runs.sealed_decodes pathed_call); compute_it. Qed.

Lemma pathed_call_keys : NoDup (map fst pathed_call).
Proof.
  vm_compute.
  repeat (apply NoDup_cons; split;
    [rewrite list_elem_of_In; simpl; intuition discriminate|]).
  apply NoDup_nil_2.
Qed.


Lemma stamped_call_keys : NoDup (map fst stamped_call).
Proof.
  vm_compute.
  repeat (apply NoDup_cons; split;
    [rewrite list_elem_of_In; simpl; intuition discriminate|]).
  apply NoDup_nil_2.
Qed.

Lemma encoder_signature_witness :
  fst (verifyIntegrity (Obj.lookup "encrypted" first_envelope)
         (Obj.lookup "signature" first_envelope) start) = Ret true.
Proof.
  exact (encoder_signature_verifies (R := runtime) (Some (JObj call_1)) start
           start first_envelope ltac:(compute_it) ltac:(compute_it)).
Defined.

Lemma round_trip_witness :
  exists envelope st1 r st2,
    encryptPayload (Some (JObj prestamped_call)) start = (Ret envelope, st1) /\
    decryptPayload (Some envelope) st1 = (Ret r, st2) /\
    success r = true /\
    data r = Some (JObj [("callId", JStr "call_2")]).
Proof.
  exact (round_trip_drops_internal_fields (R := runtime) prestamped_call
           prestamped_ciphertext start
           ltac:(compute_it) ltac:(compute_it) ltac:(compute_it)
           ltac:(compute_it)).
Defined.


Lemma number_plaintext_witness :
  fst (saveVapiCallLog (Some (JObj number_envelope)) start)
    = Ret (missing_call_id_response "1700000000000").
Proof.
  destruct (plaintext_that_is_not_an_object (R := runtime) number_envelope
              (ciphertext_of number_envelope) "5" zero_salt (JNum 5) start
              ltac:(compute_it) ltac:(compute_it) ltac:(compute_it)
              ltac:(compute_it) ltac:(compute_it) ltac:(compute_it))
    as (_ & Hnumber & _).
  exact (proj2 (Hnumber ltac:(discriminate))).
Defined.

Lemma missing_callId_witness :
  exists st',
    saveVapiCallLog (Some (JObj nameless_envelope)) start
      = (Ret (missing_call_id_response "1700000000000"), st') /\
    st_db st' = st_db start.
Proof.
  destruct (missing_callId_is_rejected (R := runtime) nameless_envelope
              nameless_call start nameless_envelope_decodes
              ltac:(compute_it) ltac:(compute_it) ltac:(compute_it))
    as (st' & Hrun & Hdb & _).
  exists st'. split; [exact Hrun|exact Hdb].
Defined.

Lemma numbered_callId_witness :
  exists st',
    saveVapiCallLog (Some (JObj numbered_envelope)) start
      = (Ret (server_error_response "Invalid argument: doc" "1700000003000"),
         st') /\
    st_db st' = st_db start.
Proof.
  destruct (callId_that_is_not_a_string (R := runtime) numbered_envelope
              numbered_call (JNum 7) start numbered_envelope_decodes
              ltac:(compute_it) ltac:(compute_it) ltac:(compute_it)
              ltac:(compute_it) ltac:(compute_it))
    as (st' & Hrun & Hdb & _).
  exists st'. split; [exact Hrun|exact Hdb].
Defined.

Lemma refused_write_witness :
  exists st',
    saveVapiCallLog (Some (JObj long_envelope)) start
      = (Ret (server_error_response "Document id is too long"
                "1700000003000"), st') /\
    st_db st' = st_db start /\
    existsb persistence_call
      (events_of (saveVapiCallLog (Some (JObj long_envelope))) start) = true.
Proof.
  destruct (refused_write_is_a_server_error (R := runtime) long_envelope
              long_call long_id long_id "Document id is too long"
              start long_envelope_decodes
              ltac:(compute_it) ltac:(compute_it) ltac:(compute_it)
              ltac:(compute_it) ltac:(compute_it))
    as (st' & Hrun & Hdb & Hin).
  exists st'. split; [exact Hrun|]. split; [exact Hdb|].
  apply existsb_exists. eexists. split; [exact Hin|reflexivity].
Defined.

Lemma slashed_callId_witness :
  exists st',
    saveVapiCallLog (Some (JObj slashed_envelope)) start
      = (Ret (server_error_response "Invalid argument: doc" "1700000003000"),
         st') /\
    st_db st' = st_db start /\
    existsb persistence_call
      (events_of (saveVapiCallLog (Some (JObj slashed_envelope))) start) = false.
Proof.
  exact (callId_that_names_no_document (R := runtime) slashed_envelope
           slashed_call "a/b" start slashed_envelope_decodes
           ltac:(compute_it) ltac:(compute_it) ltac:(compute_it)
           ltac:(compute_it) ltac:(compute_it)).
Defined.

Lemma stored_document_witness :
  exists doc,
    st_db (snd (saveVapiCallLog (Some (JObj fresh_envelope)) start)) !! "call_1"
      = Some (JObj doc) /\
    Obj.lookup "callId" doc = Some (JStr "call_1") /\
    Obj.lookup "_timestamp" doc = None /\
    Obj.lookup "savedAt" doc = Some (JStr "1700000000000").
Proof.
  destruct (stored_document_fields (R := runtime) fresh_envelope stamped_call
              "call_1" "call_1" start Runs.fresh_envelope_decodes
              ltac:(compute_it) ltac:(compute_it) ltac:(compute_it)
              ltac:(compute_it) ltac:(compute_it))
    as (doc & Hdoc & Hid & Hts & _ & _ & Hsaved & _).
  exists doc. split; [exact Hdoc|]. split; [exact Hid|].
  split; [exact Hts|exact Hsaved].
Defined.

Lemma unreadable_salt_witness :
  exists st',
    decryptPayload (Some (JObj saltless_envelope)) start
      = (Ret (failed "Invalid argument: Buffer.from"), st').
Proof.
  destruct (unreadable_salt_derives_no_key (R := runtime) saltless_envelope
              "00" "Invalid argument: Buffer.from" start
              ltac:(compute_it) ltac:(compute_it))
    as (st' & Hrun & _).
  exists st'. exact Hrun.
Defined.

Lemma lookup_by_id_witness :
  exists resp st',
    getVapiCallLogById (Some (JObj [("callId", JStr "a/b/c")])) filed
      = (Ret resp, st') /\
    st_db st' = st_db filed /\
    status resp = 200 /\
    response_data resp
      = Some (JObj [("id", JStr "c"); ("callId", JStr "a/b/c")]).
Proof.
  destruct (lookup_by_id_answers (R := runtime) (Q := reads) "a/b/c" "a/b/c"
              filed ltac:(compute_it) ltac:(compute_it))
    as (resp & st' & Hrun & Hdb & _ & Hcase).
  exists resp, st'. split; [exact Hrun|]. split; [exact Hdb|].
  change (st_db filed !! "a/b/c") with (Some (JObj pathed_call)) in Hcase.
  destruct Hcase as (Hs & _ & Hdata). split; [exact Hs|exact Hdata].
Defined.

Lemma read_back_witness :
  exists saved st1 found st2 data,
    saveVapiCallLog (Some (JObj pathed_envelope)) start = (Ret saved, st1) /\
    getVapiCallLogById (Some (JObj [("callId", JStr "a/b/c")])) st1
      = (Ret found, st2) /\
    status found = 200 /\
    response_data found = Some (JObj data) /\
    Obj.lookup "callId" data = Some (JStr "a/b/c") /\
    Obj.lookup "id" data = Some (JStr "c").
Proof.
  destruct (ingested_log_is_read_back (R := runtime) (Q := reads)
              pathed_envelope pathed_call "a/b/c" "a/b/c" start
              pathed_call_keys pathed_envelope_decodes
              ltac:(compute_it) ltac:(compute_it) ltac:(compute_it)
              ltac:(compute_it) ltac:(compute_it) ltac:(compute_it))
    as (saved & st1 & found & st2 & data & Hsave & Hget & _ & Hs & Hdata
        & Hid & _ & _ & _ & Hdoc).
  exists saved, st1, found, st2, data.
  split; [exact Hsave|]. split; [exact Hget|]. split; [exact Hs|].
  split; [exact Hdata|]. split; [exact Hid|exact Hdoc].
Defined.

Lemma initiation_witness :
  exists resp w',
    initiateVapiCall (Some (JObj new_session_request)) idle = (Ret resp, w') /\
    status resp = 200 /\
    w_calls w'
      = <["call_1700000001000_r0" :=
            session_document (JStr "call_1700000001000_r0") (JStr "anonymous")
              (JStr "assistant_1") "1700000000000"]> ∅.
Proof.
  destruct (initiation_stores_the_session (R := runtime) (P := sessions)
              new_session_request "assistant_1" idle
              ltac:(compute_it) ltac:(compute_it) ltac:(compute_it)
              ltac:(compute_it))
    as (resp & w' & Hrun & Hs & _ & _ & Hcalls & _).
  exists resp, w'. split; [exact Hrun|]. split; [exact Hs|exact Hcalls].
Defined.

Lemma status_update_witness :
  exists resp w' new,
    updateCallStatus (Some (JObj status_request)) running = (Ret resp, w') /\
    status resp = 200 /\
    w_calls w' !! "c1" = Some new /\
    Obj.lookup "status" new = Some (JStr "connected") /\
    Obj.lookup "microphone" new = Some (JObj [("allowed", JBool true)]) /\
    Obj.lookup "userId" new = Some (JStr "user_1").
Proof.
  destruct (status_update_replaces_named_fields (R := runtime)
              status_request running_session "c1" "c1" (JStr "connected") running
              ltac:(compute_it) ltac:(compute_it) ltac:(compute_it)
              ltac:(compute_it) ltac:(compute_it) ltac:(compute_it)
              ltac:(compute_it))
    as (resp & w' & new & Hrun & Hs & Hnew & _ & Hstatus & _ & Hopt & Hkept).
  exists resp, w', new.
  split; [exact Hrun|]. split; [exact Hs|]. split; [exact Hnew|].
  split; [exact Hstatus|].
  split; [exact (Hopt "microphone" (or_introl eq_refl))|].
  exact (Hkept "userId" ltac:(discriminate) ltac:(discriminate)
           ltac:(discriminate) ltac:(discriminate)).
Defined.

Lemma ending_witness :
  exists resp w' new,
    endVapiCall (Some (JObj end_request)) running = (Ret resp, w') /\
    status resp = 200 /\
    w_calls w' !! "c1" = Some new /\
    Obj.lookup "status" new = Some (JStr "ended") /\
    Obj.lookup "duration" new = Some JNull /\
    Obj.lookup "userId" new = Some (JStr "user_1").
Proof.
  destruct (ending_a_call_merges_the_final_data (R := runtime)
              end_request "c1" "c1" running
              ltac:(compute_it) ltac:(compute_it) ltac:(compute_it)
              ltac:(compute_it) ltac:(compute_it))
    as (resp & w' & new & Hrun & Hs & Hnew & _ & Hstatus & _ & _ & Hdef & Hkept).
  exists resp, w', new.
  split; [exact Hrun|]. split; [exact Hs|]. split; [exact Hnew|].
  split; [exact Hstatus|].
  split; [exact (proj1 (Hdef "duration" JNull eq_refl) eq_refl)|].
  exact (Hkept "userId" ltac:(discriminate) ltac:(discriminate)
           ltac:(discriminate) eq_refl).
Defined.


End MoreRuns.
